(** * Faster R-CNN driver (Examples/Image/Detection/FasterRCNN/FasterRCNN.py)

    A shallow embedding of the parts of the driver script that are plain
    Python and numpy: the module-level configuration, the reader and clone
    helpers, the tensor shapes wired in [create_rpn] and
    [create_fast_rcnn_predictor], [load_resize_and_pad], [regress_rois] and
    the per-image loop of [eval_faster_rcnn_mAP].

    Conventions.
    - float32/float64 array entries are modelled by the rationals they
      denote ([Q]); the code below only compares and copies them.  NaN is
      not represented.
    - numpy arrays are mutable and can share memory: the store ([gmap] from
      locations to arrays) holds the memory of the arrays, functions receive
      locations, and an array object is a way of reading one cell
      ([array_object]); an array and its views read the same cell.
    - Python exceptions are values of [exn]; a computation returns the final
      store together with [Ok v] or [Raise e].
    - calls into CNTK, OpenCV and pdb are events or section variables. *)

From Stdlib Require Import ZArith QArith String List Lia.
From stdpp Require Import gmap strings list.

Local Open Scope Z_scope.
Set Warnings "-abstract-large-number,-clear-no-such-hyp".

(** ** Exceptions and results *)

Inductive exn : Type :=
| ValueError (msg : string)      (* raised by the script itself *)
| RuntimeError (msg : string)    (* raised by the script itself *)
| NpValueError                   (* ValueError raised inside numpy *)
| IndexError
| TypeError
| CvError                        (* cv2.error *)
| CntkError                      (* an error raised inside CNTK *)
| BdbQuit.                       (* the debugger session was quit *)

Inductive result (A : Type) : Type :=
| Ok (a : A)
| Raise (e : exn).
Arguments Ok {A} a.
Arguments Raise {A} e.

Definition is_ok {A} (r : result A) : bool :=
  match r with Ok _ => true | Raise _ => false end.

#[global] Instance result_ret : MRet result := fun A a => Ok a.
#[global] Instance result_bind : MBind result := fun A B f r =>
  match r with Ok a => f a | Raise e => Raise e end.

(** ** The numpy fragment the script uses *)

Module Np.

(** A 2-D float array is the list of its rows, all of one length.  (An
    array without rows does not record its number of columns.) *)
Abbreviation matrix := (list (list Q)).

Inductive ndarray : Type :=
| Float1 (xs : list Q)
| Float2 (rows : matrix)
| Int1 (xs : list Z).

(** Python's normalisation of one slice bound against a length: negative
    bounds count from the end, and everything is clamped to [0, len]. *)
Definition slice_bound (len : nat) (k : Z) : nat :=
  if k <? 0 then Z.to_nat (Z.max 0 (Z.of_nat len + k))
  else Nat.min (Z.to_nat k) len.

(** [xs[lo:hi]] *)
Definition slice {A} (xs : list A) (lo hi : Z) : list A :=
  let b := slice_bound (length xs) lo in
  let e := slice_bound (length xs) hi in
  take (e - b) (drop b xs).

(** [a[i:i+1, lo:hi]] for a row index [i >= 0] *)
Definition row_window (a : matrix) (i : nat) : matrix :=
  slice a (Z.of_nat i) (Z.of_nat i + 1).

Definition col_window (a : matrix) (lo hi : Z) : matrix :=
  (fun row => slice row lo hi) <$> a.

(** [a[i, :] = v]: the index must be in range; a value of shape (1, c) has
    its leading 1 stripped and is then broadcast to the row, which needs
    c equal to the row length or c = 1. *)
Definition broadcast_row (m : nat) (v : matrix) : result (list Q) :=
  match v with
  | [src] =>
      if decide (length src = m) then Ok src
      else match src with
           | [x] => Ok (replicate m x)
           | _ => Raise NpValueError
           end
  | _ => Raise NpValueError
  end.

Definition setitem_row (a : matrix) (i : nat) (v : matrix) : result matrix :=
  match a !! i with
  | None => Raise IndexError
  | Some old =>
      row ← broadcast_row (length old) v; Ok (<[i := row]> a)
  end.

(** [xs.argmax()] of one row: the index of the first maximal entry;
    an empty row is an error. *)
Fixpoint argmax_from (best : Q) (besti : nat) (i : nat) (xs : list Q) : nat :=
  match xs with
  | [] => besti
  | x :: rest =>
      if Qle_bool x best then argmax_from best besti (S i) rest
      else argmax_from x i (S i) rest
  end.

Definition argmax (xs : list Q) : result Z :=
  match xs with
  | [] => Raise NpValueError
  | x :: rest => Ok (Z.of_nat (argmax_from x 0%nat 1%nat rest))
  end.

(** [a.argmax(axis=1)] *)
Fixpoint argmax_axis1 (a : matrix) : result (list Z) :=
  match a with
  | [] => Ok []
  | row :: rest =>
      l ← argmax row; ls ← argmax_axis1 rest; Ok (l :: ls)
  end.

(** [row.reshape((n, 5))] and friends: the size must match. *)
Fixpoint chunks {A} (n : nat) (c : nat) (xs : list A) : list (list A) :=
  match n with
  | O => []
  | S n' => take c xs :: chunks n' c (drop c xs)
  end.

Definition reshape2 (xs : list Q) (n c : nat) : result matrix :=
  if decide (length xs = (n * c)%nat) then Ok (chunks n c xs)
  else Raise NpValueError.

(** [a[:, -1]]: indexing a column is an error on a row that lacks it.  On a
    rectangular array this only happens when there are no columns. *)
Definition last_column (a : matrix) : result (list Q) :=
  mapM (fun row => match last row with
                   | Some x => Ok x
                   | None => Raise IndexError
                   end) a.

(** [np.where(xs > 0)]: the indices of the positive entries, ascending. *)
Fixpoint where_pos_from (i : nat) (xs : list Q) : list nat :=
  match xs with
  | [] => []
  | x :: rest =>
      if Qle_bool x 0 then where_pos_from (S i) rest
      else i :: where_pos_from (S i) rest
  end.

Definition where_pos (xs : list Q) : list nat := where_pos_from 0 xs.

(** [a[idx]] for an index array: the rows at those indices. *)
Definition take_rows (a : matrix) (idx : list nat) : result matrix :=
  mapM (fun i => from_option Ok (Raise IndexError) (a !! i)) idx.

(** [a[:, j]] for j >= 0 *)
Definition column (a : matrix) (j : nat) : result (list Q) :=
  mapM (fun row => from_option Ok (Raise IndexError) (row !! j)) a.

(** [np.hstack((a, b))]: the arrays must have the same number of
    dimensions; 1-D arrays are joined end to end, 2-D arrays column-wise
    and then need the same number of rows. *)
Definition hstack2 (a b : ndarray) : result ndarray :=
  match a, b with
  | Float1 x, Float1 y => Ok (Float1 (x ++ y))
  | Int1 x, Int1 y => Ok (Int1 (x ++ y))
  | Float1 x, Int1 y => Ok (Float1 (x ++ (inject_Z <$> y)))
  | Int1 x, Float1 y => Ok (Float1 ((inject_Z <$> x) ++ y))
  | Float2 x, Float2 y =>
      if decide (length x = length y) then Ok (Float2 (zip_with app x y))
      else Raise NpValueError
  | _, _ => Raise NpValueError
  end.

End Np.

(** ** The store of numpy arrays *)

Definition loc : Type := positive.
Abbreviation heap := (gmap loc Np.ndarray).

(** Reading an object that is used as a 2-D float array / 1-D int array.
    An array of another rank fails on indexing; no array at all (for
    instance [None]) is a type error. *)
Definition read_float2 (σ : heap) (a : loc) : result Np.matrix :=
  match σ !! a with
  | Some (Np.Float2 rows) => Ok rows
  | Some _ => Raise IndexError
  | None => Raise TypeError
  end.

Definition read_int1 (σ : heap) (a : loc) : result (list Z) :=
  match σ !! a with
  | Some (Np.Int1 xs) => Ok xs
  | Some _ => Raise TypeError
  | None => Raise TypeError
  end.

(** A new array object (the result of a numpy call that allocates). *)
Definition alloc (σ : heap) (v : Np.ndarray) : heap * loc :=
  let a := fresh (dom σ) in (<[a := v]> σ, a).

(** *** Array objects

    A cell of the store is the memory of an array, and distinct cells are
    disjoint memory.  Several array objects can read and write one cell.
    The arrays the script hands to [regress_rois] (lines 650-652, 700-702)
    are [output[...][0]]: views of the arrays of shape (1, n, c) that the
    network returned, so an assignment through the view shows in the
    network's array. *)
Inductive array_object : Type :=
| Array (m : loc)     (* an array that covers the memory [m] as it is *)
| Batch (m : loc).    (* an array of shape (1, ...) with [m] as its element 0 *)

Definition memory (a : array_object) : loc :=
  match a with Array m | Batch m => m end.

(** What reading an array object gives: of a batch, the list of its one
    element. *)
Inductive contents : Type :=
| Plain (v : Np.ndarray)
| Batched (vs : list Np.ndarray).

Definition read_object (σ : heap) (a : array_object) : option contents :=
  match a with
  | Array m => Plain <$> σ !! m
  | Batch m => (fun v => Batched [v]) <$> σ !! m
  end.

(** ** regress_rois (lines 616-626) *)

Section RegressRois.

(** [bbox_transform_inv] is imported from lib/fast_rcnn/bbox_transform.py,
    which is not among the sources.  It is taken as a parameter: a function
    of the contents of its two arguments that allocates its result and
    leaves its arguments alone. *)
Variable bbox_transform_inv : Np.matrix -> Np.matrix -> result Np.matrix.

(** The body of the loop for one index, once [label = labels[i]] is read.
    The arguments are the cells that the array objects passed in read and
    write; line 625 writes the cell of [roi_proposals], which shows in every
    array object over that cell. *)
Definition regress_one (roi_proposals roi_regression_factors : loc)
    (i : nat) (label : Z) (σ : heap) : heap * result unit :=
  if 0 <? label then
    match
      (regr ← read_float2 σ roi_regression_factors;
       let deltas :=
         Np.col_window (Np.row_window regr i) (label * 4) ((label + 1) * 4) in
       rois ← read_float2 σ roi_proposals;
       let roi_coords := Np.row_window rois i in
       regressed_rois ← bbox_transform_inv roi_coords deltas;
       Np.setitem_row rois i regressed_rois)
    with
    | Ok rois' => (<[roi_proposals := Np.Float2 rois']> σ, Ok tt)
    | Raise e => (σ, Raise e)
    end
  else (σ, Ok tt).

(** [for i in range(len(labels))], over the indices still to visit. *)
Fixpoint regress_loop (roi_proposals roi_regression_factors labels : loc)
    (idx : list nat) (σ : heap) : heap * result unit :=
  match idx with
  | [] => (σ, Ok tt)
  | i :: rest =>
      match (ls ← read_int1 σ labels;
             from_option Ok (Raise IndexError) (ls !! i)) with
      | Raise e => (σ, Raise e)
      | Ok label =>
          match regress_one roi_proposals roi_regression_factors i label σ with
          | (σ', Ok _) =>
              regress_loop roi_proposals roi_regression_factors labels rest σ'
          | (σ', Raise e) => (σ', Raise e)
          end
      end
  end.

Definition regress_rois (roi_proposals roi_regression_factors labels : loc)
    (σ : heap) : heap * result loc :=
  match read_int1 σ labels with
  | Raise e => (σ, Raise e)
  | Ok ls =>
      match regress_loop roi_proposals roi_regression_factors labels
              (seq 0 (length ls)) σ with
      | (σ', Ok _) => (σ', Ok roi_proposals)
      | (σ', Raise e) => (σ', Raise e)
      end
  end.

(** Lines 705 and 707 of [eval_faster_rcnn_mAP] (and 655, 665 of
    [eval_faster_rcnn_plot]): the labels are the per-row argmax of the class
    scores, a new array, and the proposals are regressed with them. *)
Definition regress_with_argmax (out_cls_pred out_rpn_rois out_bbox_regr : loc)
    (σ : heap) : heap * result (loc * loc) :=
  match (cls ← read_float2 σ out_cls_pred; Np.argmax_axis1 cls) with
  | Raise e => (σ, Raise e)
  | Ok ls =>
      let '(σ1, labels) := alloc σ (Np.Int1 ls) in
      match regress_rois out_rpn_rois out_bbox_regr labels σ1 with
      | (σ2, Ok regressed_rois) => (σ2, Ok (labels, regressed_rois))
      | (σ2, Raise e) => (σ2, Raise e)
      end
  end.

End RegressRois.

(** ** The decoder behind bbox_transform_inv *)

Module BBoxTransform.

Definition Qmax (a b : Q) : Q := if Qle_bool a b then b else a.

(** Section 4.1 of the spec: corner form (x1, y1, x2, y2) and centre form
    (cx, cy, w, h). *)
Definition toCenterForm (b : Q * Q * Q * Q) : Q * Q * Q * Q :=
  let '(x1, y1, x2, y2) := b in
  (((x1 + x2) / 2, (y1 + y2) / 2, x2 - x1, y2 - y1))%Q.

Definition toCornerForm (b : Q * Q * Q * Q) : Q * Q * Q * Q :=
  let '(cx, cy, w, h) := b in
  ((cx - w / 2, cy - h / 2, cx + w / 2, cy + h / 2))%Q.

Section Decoder.

(** The exponential of the float library, on the rationals floats denote. *)
Variable exp : Q -> Q.

(** Modelled from the spec: the body of [bbox_transform_inv]
    (lib/fast_rcnn/bbox_transform.py) is not among the sources.  Section 4.1
    describes it as decodeDelta, the inverse of
    dx = (gt.cx - anchor.cx) / anchor.w, dy likewise,
    dw = log (gt.w / anchor.w), dh likewise, with the decoded width and
    height clipped to be non-negative. *)
Definition decodeDelta (anchor delta : Q * Q * Q * Q) : Q * Q * Q * Q :=
  let '(cx, cy, w, h) := toCenterForm anchor in
  let '(dx, dy, dw, dh) := delta in
  toCornerForm ((dx * w + cx, dy * h + cy,
                 Qmax 0 (exp dw * w), Qmax 0 (exp dh * h)))%Q.

(** A float has one representation: the results are reduced fractions. *)
Definition decode_row (box deltas : list Q) : result (list Q) :=
  match box, deltas with
  | [x1; y1; x2; y2], [dx; dy; dw; dh] =>
      let '(a, b, c, d) := decodeDelta (x1, y1, x2, y2) (dx, dy, dw, dh) in
      Ok [Qred a; Qred b; Qred c; Qred d]
  | _, _ => Raise NpValueError
  end.

(** Modelled from the spec: [bbox_transform_inv] itself, which is not among
    the sources: [decodeDelta] row by row, one row of deltas per box. *)
Fixpoint bbox_transform_inv (boxes deltas : Np.matrix) : result Np.matrix :=
  match boxes, deltas with
  | [], _ => Ok []
  | b :: bs, d :: ds =>
      r ← decode_row b d; rs ← bbox_transform_inv bs ds; Ok (r :: rs)
  | _ :: _, [] => Raise NpValueError
  end.

End Decoder.

(** A rational stand-in for the exponential, exact at 0 (its Taylor
    polynomial of degree 3).  The examples decode with dw = dh = 0 only. *)
Definition exp_q (x : Q) : Q := (1 + x + x * x / 2 + x * x * x / 6)%Q.

End BBoxTransform.

(** ** Module-level configuration (lines 45-113) *)

Module Config.

Definition train_e2e : bool := true.
Definition make_mode : bool := false.
Definition num_channels : nat := 3.
Definition image_height : Z := 1000.
Definition image_width : Z := 1000.
Definition mb_size : nat := 1.

(** Paths are kept as the component lists handed to [os.path.join], relative
    to the directory of the script. *)
Record dataset_cfg : Type := {
  classes : list string;
  base_path : list string;
  train_map_file : list string;
  test_map_file : list string;
  train_roi_file : list string;
  test_roi_file : list string;
  num_classes : nat;
  epoch_size : nat;
  num_test_images : nat
}.

Definition grocery_classes : list string :=
  ["__background__";
   "avocado"; "orange"; "butter"; "champagne"; "eggBox"; "gerkin"; "joghurt";
   "ketchup"; "orangeJuice"; "onion"; "pepper"; "tomato"; "water"; "milk";
   "tabasco"; "mustard"]%string.

Definition pascal_classes : list string :=
  ["__background__";
   "aeroplane"; "bicycle"; "bird"; "boat"; "bottle"; "bus"; "car"; "cat";
   "chair"; "cow"; "diningtable"; "dog"; "horse"; "motorbike"; "person";
   "pottedplant"; "sheep"; "sofa"; "train"; "tvmonitor"]%string.

Definition dataset_setup (dataset : string) : result dataset_cfg :=
  if String.eqb dataset "Grocery" then
    let base := ["Data"; "Grocery"]%string in
    Ok {| classes := grocery_classes;
          base_path := base;
          train_map_file := base ++ ["train.imgMap.txt"%string];
          test_map_file := base ++ ["test.imgMap.txt"%string];
          train_roi_file := base ++ ["train.GTRois.txt"%string];
          test_roi_file := base ++ ["test.GTRois.txt"%string];
          num_classes := length grocery_classes;
          epoch_size := 20;
          num_test_images := 5 |}
  else if String.eqb dataset "Pascal" then
    let base := ["Data"; "Pascal"]%string in
    Ok {| classes := pascal_classes;
          base_path := base;
          train_map_file := base ++ ["trainval2007.txt"%string];
          test_map_file := base ++ ["test2007.txt"%string];
          train_roi_file := base ++ ["trainval2007_rois_topleft_wh_rel.txt"%string];
          test_roi_file := base ++ ["test2007_rois_topleft_wh_rel.txt"%string];
          num_classes := length pascal_classes;
          epoch_size := 5010;
          num_test_images := 4952 |}
  else Raise (ValueError ("unknown data set: " +:+ dataset)).

Record model_cfg : Type := {
  base_model_file : list string;
  feature_node_name : string;
  last_conv_node_name : string;
  start_train_conv_node_name : option string;
  pool_node_name : string;
  last_hidden_node_name : string;
  roi_dim : nat
}.

Definition model_folder : list string := [".."; ".."; "PretrainedModels"]%string.

Definition model_setup (base_model_to_use : string) : result model_cfg :=
  if String.eqb base_model_to_use "AlexNet" then
    Ok {| base_model_file := model_folder ++ ["AlexNet.model"%string];
          feature_node_name := "features";
          last_conv_node_name := "conv5.y";
          start_train_conv_node_name := None;
          pool_node_name := "pool3";
          last_hidden_node_name := "h2_d";
          roi_dim := 6 |}
  else if String.eqb base_model_to_use "VGG16" then
    Ok {| base_model_file := model_folder ++ ["VGG16_ImageNet.cntkmodel"%string];
          feature_node_name := "data";
          last_conv_node_name := "conv5_3";
          start_train_conv_node_name := None;
          pool_node_name := "pool5";
          last_hidden_node_name := "drop7";
          roi_dim := 7 |}
  else Raise (ValueError ("unknown base model: " +:+ base_model_to_use)).

(** The configuration block as the interpreter runs it: the data set first,
    then the base model; the first [raise] ends the module. *)
Definition module_setup (dataset base_model_to_use : string)
    : result (dataset_cfg * model_cfg) :=
  d ← dataset_setup dataset;
  m ← model_setup base_model_to_use;
  Ok (d, m).

(** The steps of the [__main__] block (lines 718-758), as calls into the
    functions of the script; each is taken to return. *)
Inductive step : Type :=
| LoadModel
| TrainE2E
| TrainAlternating
| CreateEvalModel
| SaveModel
| PlotGraph
| EvalPlot.

Definition main (debug_output model_exists : bool) : list step :=
  (if model_exists && make_mode then [LoadModel]
   else (if train_e2e then [TrainE2E] else [TrainAlternating])
        ++ [CreateEvalModel; SaveModel]
        ++ (if debug_output then [PlotGraph] else []))
  ++ (if debug_output then [EvalPlot] else []).

(** Running the script: the configuration block, then [main]. *)
Definition script (dataset base_model_to_use : string)
    (debug_output model_exists : bool) : list step * result unit :=
  match module_setup dataset base_model_to_use with
  | Raise e => ([], Raise e)
  | Ok _ => (main debug_output model_exists, Ok tt)
  end.

End Config.

(** ** create_mb_source (lines 119-140) *)

Module Reader.

Record scale_transform : Type := {
  sc_width : Z; sc_height : Z; sc_channels : nat;
  sc_mode : string; sc_pad_value : Z; sc_interpolations : string
}.

Record minibatch_source : Type := {
  image_map : string;
  image_transforms : list scale_transform;
  roi_map : string;
  roi_shape : nat;
  randomize : bool
}.

(** Constructors of cntk.io called so far. *)
Inductive ctor : Type :=
| Scale
| ImageDeserializer (f : string)
| CTFDeserializer (f : string)
| MinibatchSource.

Definition missing_files_message (img_map_file roi_map_file : string) : string :=
  "File '" +:+ img_map_file +:+ "' or '" +:+ roi_map_file +:+
  "' does not exist. Please run install_fastrcnn.py from Examples/Image/Detection/FastRCNN to fetch them".

(** [fs] is the set of paths for which [os.path.exists] answers True. *)
Definition create_mb_source (fs : gset string)
    (img_map_file roi_map_file : string)
    (img_height img_width : Z) (img_channels n_rois : nat) (randomize : bool)
    : list ctor * result minibatch_source :=
  let rois_dim := (5 * n_rois)%nat in
  if negb (bool_decide (img_map_file ∈ fs)) || negb (bool_decide (roi_map_file ∈ fs))
  then ([], Raise (RuntimeError (missing_files_message img_map_file roi_map_file)))
  else
    let transforms :=
      [{| sc_width := img_width; sc_height := img_height;
          sc_channels := img_channels; sc_mode := "pad";
          sc_pad_value := 114; sc_interpolations := "linear" |}] in
    ([Scale; ImageDeserializer img_map_file; CTFDeserializer roi_map_file;
      MinibatchSource],
     Ok {| image_map := img_map_file; image_transforms := transforms;
           roi_map := roi_map_file; roi_shape := rois_dim;
           randomize := randomize |}).

End Reader.

(** ** clone_model (lines 142-153) *)

Section CloneModel.

(** The CNTK side: graphs, their nodes, [find_by_name] (which answers None
    for a name that is absent) and [combine(...).clone(...)]. *)
Variables (graph node func : Type).
Context `{EqDecision node}.
Variable find_by_name : graph -> string -> option node.

Inductive CloneMethod : Type := clone | freeze | share.

(** [placeholder()] objects, numbered in the order of their creation. *)
Definition placeholder : Type := nat.

(** A Python dict as the list of its items in insertion order. *)
Definition dict_set {K V} `{EqDecision K} (k : K) (v : V)
    (d : list (K * V)) : list (K * V) :=
  if bool_decide (k ∈ d.*1)
  then (fun kv => if decide (kv.1 = k) then (k, v) else kv) <$> d
  else d ++ [(k, v)].

Definition dict_of_pairs {K V} `{EqDecision K} (kvs : list (K * V))
    : list (K * V) :=
  foldl (fun d kv => dict_set kv.1 kv.2 d) [] kvs.

Variable combine_clone :
  list (option node) -> CloneMethod -> list (option node * placeholder) ->
  result func.

Inductive printed : Type :=
| ErrorFromNodes (looking_for : list string) (found : list (option node))
| ErrorToNodes (looking_for : list string) (found : list (option node)).

Definition clone_model (base_model : graph)
    (from_node_names to_node_names : list string) (clone_method : CloneMethod)
    : list printed * result func :=
  let from_nodes := find_by_name base_model <$> from_node_names in
  let out1 :=
    if bool_decide (None ∈ from_nodes)
    then [ErrorFromNodes from_node_names from_nodes] else [] in
  let to_nodes := find_by_name base_model <$> to_node_names in
  let out2 :=
    if bool_decide (None ∈ to_nodes)
    then [ErrorToNodes to_node_names to_nodes] else [] in
  let input_placeholders :=
    dict_of_pairs (zip from_nodes (seq 0 (length from_nodes))) in
  let cloned_net := combine_clone to_nodes clone_method input_placeholders in
  (out1 ++ out2, cloned_net).

End CloneModel.

(** ** Tensor shapes of create_rpn and create_fast_rcnn_predictor *)

Module Shapes.

Definition shape : Type := list nat.

(** [Convolution(filter_shape, num_filters, pad=.., strides=..)] on a
    (channels, height, width) input. *)
Definition conv_dim (n k stride : nat) (pad : bool) : nat :=
  if pad then ((n + stride - 1) / stride)%nat
  else ((n - k) / stride + 1)%nat.

Definition Convolution (filter_shape : nat * nat) (num_filters : nat)
    (pad : bool) (strides : nat) (x : shape) : result shape :=
  match x with
  | [_; h; w] =>
      Ok [num_filters; conv_dim h filter_shape.1 strides pad;
          conv_dim w filter_shape.2 strides pad]
  | _ => Raise CntkError
  end.

(** The channels (indices along axis 0) kept by [slice(x, 0, b, e)]. *)
Definition slice_axis0 (x : shape) (b e : Z) : list nat :=
  Np.slice (seq 0 (hd 0%nat x)) b e.

Record rpn_layout : Type := {
  rpn_cls_score : shape;
  rpn_bbox_pred : shape;
  num_anchors : nat;
  num_predictions : nat;
  bg_scores : list nat;
  fg_scores : list nat
}.

(** Lines 157-174. *)
Definition create_rpn (conv_out : shape) : result rpn_layout :=
  rpn_conv_3x3 ← Convolution (3, 3)%nat 256 true 1 conv_out;
  rpn_cls_score ← Convolution (1, 1)%nat 18 false 1 rpn_conv_3x3;
  rpn_bbox_pred ← Convolution (1, 1)%nat 36 false 1 rpn_conv_3x3;
  let num_anchors := (hd 0 rpn_cls_score / 2)%nat in
  let num_predictions := (foldr Nat.mul 1 rpn_cls_score / 2)%nat in
  Ok {| rpn_cls_score := rpn_cls_score;
        rpn_bbox_pred := rpn_bbox_pred;
        num_anchors := num_anchors;
        num_predictions := num_predictions;
        bg_scores := slice_axis0 rpn_cls_score 0 (Z.of_nat num_anchors);
        fg_scores := slice_axis0 rpn_cls_score (Z.of_nat num_anchors)
                       (Z.of_nat (num_anchors * 2)) |}.

(** [times(x, W)] and [plus(x, b)] on shapes. *)
Definition times (x w : shape) : result shape :=
  match x, w with
  | [n; k], [k'; m] =>
      if decide (k = k') then Ok [n; m]
      else Raise CntkError
  | _, _ => Raise CntkError
  end.

Definition plus (x b : shape) : result shape :=
  match x, b with
  | [n; m], [m'] =>
      if decide (m = m') then Ok [n; m]
      else Raise CntkError
  | _, _ => Raise CntkError
  end.

(** Lines 225-232, for the output [fc_out] of the fully connected layers. *)
Definition create_fast_rcnn_predictor (num_classes : nat) (fc_out : shape)
    : result (shape * shape) :=
  let W_pred := [4096; num_classes]%nat in
  let b_pred := [num_classes] in
  xw ← times fc_out W_pred;
  cls_score ← plus xw b_pred;
  let W_regr := [4096; num_classes * 4]%nat in
  let b_regr := [num_classes * 4]%nat in
  xr ← times fc_out W_regr;
  bbox_pred ← plus xr b_regr;
  Ok (cls_score, bbox_pred).

End Shapes.

(** ** load_resize_and_pad (lines 585-614) *)

Module Pad.

(** [np.round] of the quotient n / d for d > 0: to the nearest integer, ties
    to the even one.  The script divides in double precision; the quotient
    is taken exactly here.  The two round to the same integer as long as the
    dividend is an integer below 2^52 in size: it is then a double itself,
    the quotient is rounded by less than its distance 1/(2d) from the next
    half-integer, and a quotient that is a half-integer is a double. *)
Definition rint (n d : Z) : Z :=
  let q := n / d in
  let r := n mod d in
  if 2 * r <? d then q
  else if d <? 2 * r then q + 1
  else if Z.even q then q else q + 1.

(** OpenCV keeps sizes, borders and array dimensions in C ints: its Python
    binding refuses an integer argument that does not fit one, and no array
    has a side beyond [INT_MAX] = 2^31 - 1. *)
Definition INT_MAX : Z := 2147483647.

Definition c_int (k : Z) : bool := (- INT_MAX - 1 <=? k) && (k <=? INT_MAX).

(** OpenCV on shapes: [cv2.resize] needs a non-empty destination size,
    [cv2.copyMakeBorder] needs non-negative borders; both need arguments and
    a result within the C ints.  ([CvError] stands for the error of the call,
    whichever Python class the binding gives it.) *)
Definition cv2_resize (dsize : Z * Z) : result (Z * Z) :=
  let '(w, h) := dsize in
  if c_int w && c_int h && (0 <? w) && (0 <? h) then Ok (h, w)
  else Raise CvError.

Definition cv2_copyMakeBorder (src : Z * Z) (top bottom left right : Z)
    : result (Z * Z) :=
  let '(rows, cols) := src in
  if c_int top && c_int bottom && c_int left && c_int right
     && (0 <=? top) && (0 <=? bottom) && (0 <=? left) && (0 <=? right)
     && c_int (rows + top + bottom) && c_int (cols + left + right)
  then Ok (rows + top + bottom, cols + left + right)
  else Raise CvError.

Record padded : Type := {
  target_w : Z; target_h : Z;
  top : Z; bottom : Z; left : Z; right : Z;
  rows : Z; cols : Z        (* shape of resized_with_pad *)
}.

(** The size the image is resized to. *)
Definition target_size (img_width img_height width height : Z) : Z * Z :=
  let scale_w := img_height <? img_width in
  if scale_w then (width, rint (img_height * width) img_width)
  else (rint (img_width * height) img_height, height).

(** [img_width], [img_height]: the shape of the array [cv2.imread] returned. *)
Definition load_resize_and_pad (img_width img_height width height : Z)
    : result padded :=
  if img_height <=? 0 then Raise IndexError (* img[0] *) else
  let '(target_w, target_h) := target_size img_width img_height width height in
  resized ← cv2_resize (target_w, target_h);
  let top := Z.max 0 (rint (height - target_h) 2) in
  let left := Z.max 0 (rint (width - target_w) 2) in
  let bottom := height - top - target_h in
  let right := width - left - target_w in
  resized_with_pad ← cv2_copyMakeBorder resized top bottom left right;
  Ok {| target_w := target_w; target_h := target_h;
        top := top; bottom := bottom; left := left; right := right;
        rows := resized_with_pad.1; cols := resized_with_pad.2 |}.

End Pad.

(** ** eval_faster_rcnn_mAP (lines 670-713) *)

Section EvalMAP.

Variable bbox_transform_inv : Np.matrix -> Np.matrix -> result Np.matrix.
Variables (num_input_rois num_classes num_test_images : nat).

(** What the evaluation network returns for one image. *)
Record eval_output : Type := {
  out_cls_pred : Np.matrix;
  out_rpn_rois : Np.matrix;
  out_bbox_regr : Np.matrix
}.

(** The outside world: the roiAndLabel row of the i-th minibatch, the
    network's output on it, and whether the user of the debugger lets the
    i-th stop continue. *)
Variable next_minibatch : nat -> list Q.
Variable frcn_eval : nat -> eval_output.
Variable pdb_continue : nat -> bool.

(** Lines 695-697. *)
Definition ground_truth_boxes (gt_row : list Q) : result Np.matrix :=
  gt_boxes ← Np.reshape2 gt_row num_input_rois 5;
  labels ← Np.last_column gt_boxes;
  Np.take_rows gt_boxes (Np.where_pos labels).

Definition cls_loc : loc := 1%positive.
Definition rois_loc : loc := 2%positive.
Definition regr_loc : loc := 3%positive.

(** The three arrays of one output have their own memory each; a cell
    holds element 0 of the array of shape (1, n, c) that the network
    returned. *)
Definition output_heap (o : eval_output) : heap :=
  <[cls_loc := Np.Float2 (out_cls_pred o)]>
  (<[rois_loc := Np.Float2 (out_rpn_rois o)]>
  (<[regr_loc := Np.Float2 (out_bbox_regr o)]> ∅)).

Inductive event : Type :=
| NextMinibatch (i : nat)
| Eval (i : nat)
| SetTrace (i : nat)             (* line 709 *)
| Accumulate (i j : nat).        (* lines 711-713 for class j *)

(** [all_boxes[j][i]]; None stands for the initial empty list. *)
Definition table : Type := list (list (option Np.ndarray)).

Definition table_set (t : table) (j i : nat) (v : Np.ndarray) : table :=
  match t !! j with
  | Some row => <[j := <[i := Some v]> row]> t
  | None => t
  end.

(** Lines 710-713, over the classes still to visit. *)
Fixpoint accumulate (σ : heap) (regressed_rois : loc) (i : nat)
    (js : list nat) (all_boxes : table) : table * list event * result unit :=
  match js with
  | [] => (all_boxes, [], Ok tt)
  | j :: rest =>
      match (cls ← read_float2 σ cls_loc;
             col ← Np.column cls j;
             rr ← from_option Ok (Raise TypeError) (σ !! regressed_rois);
             Np.hstack2 rr (Np.Float1 col)) with
      | Raise e => (all_boxes, [Accumulate i j], Raise e)
      | Ok v =>
          let '(ab, tr, r) :=
            accumulate σ regressed_rois i rest (table_set all_boxes j i v) in
          (ab, Accumulate i j :: tr, r)
      end
  end.

(** One pass through the body of the loop over the test images.  Line 706
    (the row maxima) cannot fail once line 705 has succeeded and its value
    is not used. *)
Definition eval_image (i : nat) (all_boxes : table)
    : table * list event * result unit :=
  match ground_truth_boxes (next_minibatch i) with
  | Raise e => (all_boxes, [NextMinibatch i], Raise e)
  | Ok gt_boxes =>
      match regress_with_argmax bbox_transform_inv cls_loc rois_loc regr_loc
              (output_heap (frcn_eval i)) with
      | (_, Raise e) => (all_boxes, [NextMinibatch i; Eval i], Raise e)
      | (σ, Ok (labels, regressed_rois)) =>
          if pdb_continue i then
            let '(ab, tr, r) :=
              accumulate σ regressed_rois i (seq 1 (num_classes - 1)) all_boxes in
            (ab, [NextMinibatch i; Eval i; SetTrace i] ++ tr, r)
          else (all_boxes, [NextMinibatch i; Eval i; SetTrace i], Raise BdbQuit)
      end
  end.

Fixpoint eval_loop (images : list nat) (all_boxes : table)
    : table * list event * result unit :=
  match images with
  | [] => (all_boxes, [], Ok tt)
  | i :: rest =>
      match eval_image i all_boxes with
      | (ab, tr, Ok _) =>
          let '(ab', tr', r) := eval_loop rest ab in (ab', tr ++ tr', r)
      | (ab, tr, Raise e) => (ab, tr, Raise e)
      end
  end.

Definition eval_faster_rcnn_mAP (fs : gset string)
    (img_map_file roi_map_file : string) : table * list event * result unit :=
  match Reader.create_mb_source fs img_map_file roi_map_file
          Config.image_height Config.image_width Config.num_channels
          num_input_rois false with
  | (_, Raise e) => ([], [], Raise e)
  | (_, Ok minibatch_source) =>
      let all_boxes := replicate num_classes (replicate num_test_images None) in
      eval_loop (seq 0 num_test_images) all_boxes
  end.

End EvalMAP.

(** ** The network input of eval_faster_rcnn_plot (lines 612, 637, 647) *)

Module PlotInput.

(** [a.transpose(axes)] on shapes: [axes] must be a permutation of the
    dimensions. *)
Definition transpose (axes : list nat) (shape : list Z) : result (list Z) :=
  if decide (axes ≡ₚ seq 0 (length shape))
  then mapM (fun a => from_option Ok (Raise NpValueError) (shape !! a)) axes
  else Raise NpValueError.

(** Line 612: the padded image, three channels as [cv2.imread] returns
    them, in channel-first order. *)
Definition model_arg_rep (r : Pad.padded) : result (list Z) :=
  transpose [2; 0; 1]%nat [Pad.rows r; Pad.cols r; 3].

(** The shape the input variable is declared with (lines 637, 671, 746). *)
Definition image_input : list Z :=
  [Z.of_nat Config.num_channels; Config.image_height; Config.image_width].

(** Line 647, for an image of the given size. *)
Definition cntk_img_input (img_width img_height : Z) : result (list Z) :=
  r ← Pad.load_resize_and_pad img_width img_height
        Config.image_width Config.image_height;
  model_arg_rep r.

End PlotInput.

(** ** train_model (lines 295-327) *)

Section TrainModel.

(** The reader and the trainer together: the number of samples the trainer
    reports for the minibatch it was handed
    ([trainer.previous_minibatch_sample_count]), given the epoch, the samples
    counted so far and the number of samples asked for. *)
Variable previous_minibatch_sample_count : nat -> nat -> nat -> nat.

Inductive train_event : Type :=
| CreateTrainer
| TrainMinibatch (epoch asked : nat)
| Processed (sample_count : nat)       (* line 325 *)
| EpochSummary (epoch : nat).

(** Lines 319-325, the loop over the minibatches of one epoch.  [fuel]
    bounds the number of passes; None: the bound was reached. *)
Fixpoint train_epoch (fuel epoch epoch_size sample_count : nat)
    : option (list train_event) :=
  if (sample_count <? epoch_size)%nat then
    match fuel with
    | O => None
    | S fuel' =>
        let asked := Nat.min Config.mb_size (epoch_size - sample_count) in
        let sample_count' :=
          (sample_count
           + previous_minibatch_sample_count epoch sample_count asked)%nat in
        rest ← train_epoch fuel' epoch epoch_size sample_count';
        Some (TrainMinibatch epoch asked
              :: (if (sample_count' mod 100 =? 0)%nat
                  then [Processed sample_count'] else [])
              ++ rest)
    end
  else Some [].

(** Lines 317-327, over the epochs still to run. *)
Fixpoint train_epochs (fuel : nat) (epochs : list nat) (epoch_size : nat)
    : option (list train_event) :=
  match epochs with
  | [] => Some []
  | epoch :: rest =>
      tr ← train_epoch fuel epoch epoch_size 0;
      tr' ← train_epochs fuel rest epoch_size;
      Some (tr ++ EpochSummary epoch :: tr')
  end.

(** [train_map_file], [train_roi_file], [epoch_size] and [num_input_rois]
    are the module's globals.  The trainer is made first, then the reader. *)
Definition train_model (fuel : nat) (fs : gset string)
    (train_map_file train_roi_file : string)
    (epoch_size num_input_rois epochs_to_train : nat)
    : option (list train_event * result unit) :=
  match Reader.create_mb_source fs train_map_file train_roi_file
          Config.image_height Config.image_width Config.num_channels
          num_input_rois true with
  | (_, Raise e) => Some ([CreateTrainer], Raise e)
  | (_, Ok minibatch_source) =>
      tr ← train_epochs fuel (seq 0 epochs_to_train) epoch_size;
      Some (CreateTrainer :: tr, Ok tt)
  end.

End TrainModel.

(** The minibatches of a trace, as the numbers of samples asked for. *)
Definition minibatches_asked (tr : list train_event) : list nat :=
  omap (fun ev => match ev with
                  | TrainMinibatch _ asked => Some asked
                  | _ => None
                  end) tr.

(** ** The ROI conversion of create_fast_rcnn_predictor (lines 214-218) *)

Module RoiPooling.

Section Arithmetic.

(** The entries are the network's float32 numbers.  Their subtraction and
    multiplication, rounded as the device rounds them, and the constant
    [1.0 / image_width] as the network stores it are parameters: nothing
    here depends on how they round. *)
Variable F : Type.
Variables fminus ftimes : F -> F -> F.
Variable scale : F.

(** [slice(x, 1, b, e)], [minus] and [splice(axis=1)] on arrays with as many
    rows, and the product with a constant. *)
Definition slice1 (a : list (list F)) (b e : Z) : list (list F) :=
  (fun row => Np.slice row b e) <$> a.

Definition minus (a b : list (list F)) : result (list (list F)) :=
  if decide (length <$> a = length <$> b)
  then Ok (zip_with (zip_with fminus) a b)
  else Raise CntkError.

Definition splice1 (a b : list (list F)) : result (list (list F)) :=
  if decide (length a = length b)
  then Ok (zip_with app a b)
  else Raise CntkError.

Definition element_times (a : list (list F)) (k : F) : list (list F) :=
  (fun row : list F => (fun x => ftimes x k) <$> row) <$> a.

Definition scaled_rois (rois : list (list F)) : result (list (list F)) :=
  let roi_xy1 := slice1 rois 0 2 in
  let roi_xy2 := slice1 rois 2 4 in
  roi_wh ← minus roi_xy2 roi_xy1;
  roi_xywh ← splice1 roi_xy1 roi_wh;
  Ok (element_times roi_xywh scale).

End Arithmetic.

End RoiPooling.

(** ** The reshapes of create_rpn (lines 171-177, 204-205) *)

Module RpnReshape.

Definition size (x : Shapes.shape) : nat := foldr Nat.mul 1%nat x.

(** [reshape(x, new)]: the number of elements must stay. *)
Definition reshape (x new : Shapes.shape) : result Shapes.shape :=
  if decide (size x = size new) then Ok new else Raise CntkError.

(** [slice(x, 0, b, e)] and [splice(a, b, axis=0)] on shapes. *)
Definition slice0 (x : Shapes.shape) (b e : nat) : result Shapes.shape :=
  match x with
  | c :: rest =>
      if decide (b <= e <= c)%nat then Ok ((e - b)%nat :: rest)
      else Raise CntkError
  | [] => Raise CntkError
  end.

Definition splice0 (a b : Shapes.shape) : result Shapes.shape :=
  match a, b with
  | ca :: ra, cb :: rb =>
      if decide (ra = rb) then Ok ((ca + cb)%nat :: ra) else Raise CntkError
  | _, _ => Raise CntkError
  end.

Record rpn_score_shapes : Type := {
  rpn_cls_score_rshp : Shapes.shape;     (* also the shape of rpn_cls_prob *)
  rpn_cls_prob_reshape : Shapes.shape
}.

Definition create_rpn (conv_out : Shapes.shape) : result rpn_score_shapes :=
  l ← Shapes.create_rpn conv_out;
  let rpn_cls_score := Shapes.rpn_cls_score l in
  let num_anchors := Shapes.num_anchors l in
  let num_predictions := Shapes.num_predictions l in
  bg_scores ← slice0 rpn_cls_score 0 num_anchors;
  fg_scores ← slice0 rpn_cls_score num_anchors (num_anchors * 2);
  bg_scores_rshp ← reshape bg_scores [1%nat; num_predictions];
  fg_scores_rshp ← reshape fg_scores [1%nat; num_predictions];
  rpn_cls_score_rshp ← splice0 bg_scores_rshp fg_scores_rshp;
  let shp := [2%nat; num_anchors] ++ drop (length rpn_cls_score - 2) rpn_cls_score in
  rpn_cls_prob_reshape ← reshape rpn_cls_score_rshp shp;
  Ok {| rpn_cls_score_rshp := rpn_cls_score_rshp;
        rpn_cls_prob_reshape := rpn_cls_prob_reshape |}.

End RpnReshape.

(** ** The dict of clone_model (line 151) *)

(** [d[k]], None for a key that is absent. *)
Definition dict_get {K V} `{EqDecision K} (k : K) (d : list (K * V))
    : option V :=
  snd <$> List.find (fun kv => bool_decide (kv.1 = k)) d.

(** ** create_eval_model (lines 270-293) *)

Section CreateEvalModel.

Variables (graph node : Type).
Context `{EqDecision node}.
Variable find_by_name : graph -> string -> option node.

(** The value of an expression, or the AttributeError of [None.owner]. *)
Inductive attr (A : Type) : Type :=
| Got (a : A)
| AttributeError.
Arguments Got {A} a.
Arguments AttributeError {A}.

Definition owner (n : option node) : attr node :=
  match n with Some x => Got x | None => AttributeError end.

(** The two [combine([...]).clone(...)] calls, with the nodes whose owners
    are combined and the keys of the substitution. *)
Inductive eval_model_call : Type :=
| CloneConvRpn (outputs : list node) (replaced : list (option node))
| CloneRoiFc (outputs : list node) (replaced : list (option node)).

Definition create_eval_model (model : graph) (m : Config.model_cfg)
    : list eval_model_call * attr unit :=
  let feature_node := find_by_name model (Config.feature_node_name m) in
  let conv_node := find_by_name model (Config.last_conv_node_name m) in
  let rpn_roi_node := find_by_name model "rpn_rois" in
  let rpn_target_roi_node := find_by_name model "rpn_target_rois" in
  let cls_score_node := find_by_name model "cls_score" in
  let bbox_pred_node := find_by_name model "bbox_regr" in
  match owner conv_node with
  | AttributeError => ([], AttributeError)
  | Got conv =>
  match owner rpn_roi_node with
  | AttributeError => ([], AttributeError)
  | Got rpn_roi =>
  let conv_rpn_layers :=
    CloneConvRpn [conv; rpn_roi] (dict_of_pairs [(feature_node, 0%nat)]).*1 in
  match owner cls_score_node with
  | AttributeError => ([conv_rpn_layers], AttributeError)
  | Got cls_score =>
  match owner bbox_pred_node with
  | AttributeError => ([conv_rpn_layers], AttributeError)
  | Got bbox_pred =>
  let roi_fc_layers :=
    CloneRoiFc [cls_score; bbox_pred]
      (dict_of_pairs [(conv_node, 0%nat); (rpn_target_roi_node, 1%nat)]).*1 in
  ([conv_rpn_layers; roi_fc_layers], Got tt)
  end end end end.

End CreateEvalModel.

Arguments Got {A} a.
Arguments AttributeError {A}.

(** ** eval_faster_rcnn_plot (lines 629-668) *)

Module Str.

(** [s.split(sep)] for a separator of one character: the fields between the
    separators, at least one. *)
Fixpoint split (sep : Ascii.ascii) (s : string) : list string :=
  match s with
  | EmptyString => [EmptyString]
  | String c rest =>
      match split sep rest with
      | field :: fields =>
          if Ascii.eqb c sep then EmptyString :: field :: fields
          else String c field :: fields
      | [] => []
      end
  end.

(** The tab character, code 9. *)
Definition tab : Ascii.ascii := Ascii.ascii_of_nat 9.

(** The character does not occur in the string. *)
Fixpoint free_of (sep : Ascii.ascii) (s : string) : bool :=
  match s with
  | EmptyString => true
  | String c rest => negb (Ascii.eqb c sep) && free_of sep rest
  end.

End Str.

Section EvalPlot.

Variable bbox_transform_inv : Np.matrix -> Np.matrix -> result Np.matrix.

(** [os.path.join(img_base_path, name)]; the size of the array
    [cv2.imread] returns for a path, None when it returns None; the
    network's output for the i-th image. *)
Variable join_path : string -> string.
Variable imread : string -> option (Z * Z).
Variable frcn_eval : nat -> eval_output.
Variable num_test_images : nat.

Inductive plot_event : Type :=
| EvalImage (i : nat) (imgPath : string)
| SaveDebug (i : nat) (labels : list Z) (rois : Np.matrix)      (* 660-662 *)
| SaveRegressed (i : nat) (labels : list Z) (rois : Np.matrix). (* 666-668 *)

(** Line 634. *)
Definition img_file_names (content : list string) : result (list string) :=
  mapM (fun x => match Str.split Str.tab x !! 1%nat with
                 | Some name => Ok (join_path name)
                 | None => Raise IndexError
                 end) content.

(** What an array holds when it is drawn. *)
Definition drawn (σ : heap) (a : loc) : Np.matrix :=
  match σ !! a with Some (Np.Float2 rows) => rows | _ => [] end.

(** Lines 644-668, one pass.  Line 656 (the row maxima) cannot fail once
    line 655 has succeeded. *)
Definition plot_image (debug_output : bool) (i : nat) (imgPath : string)
    : list plot_event * result unit :=
  match (match imread imgPath with
         | None => Raise TypeError
         | Some (img_width, img_height) =>
             PlotInput.cntk_img_input img_width img_height
         end) with
  | Raise e => ([], Raise e)
  | Ok cntk_img_input =>
      let σ := output_heap (frcn_eval i) in
      match (cls ← read_float2 σ cls_loc; Np.argmax_axis1 cls) with
      | Raise e => ([EvalImage i imgPath], Raise e)
      | Ok ls =>
          let '(σ1, labels) := alloc σ (Np.Int1 ls) in
          let debug :=
            if debug_output then [SaveDebug i ls (drawn σ1 rois_loc)] else [] in
          match regress_rois bbox_transform_inv rois_loc regr_loc labels σ1 with
          | (σ2, Raise e) => (EvalImage i imgPath :: debug, Raise e)
          | (σ2, Ok regressed_rois) =>
              (EvalImage i imgPath :: debug
                 ++ [SaveRegressed i ls (drawn σ2 regressed_rois)], Ok tt)
          end
      end
  end.

Fixpoint plot_loop (debug_output : bool) (names : list string)
    (images : list nat) : list plot_event * result unit :=
  match images with
  | [] => ([], Ok tt)
  | i :: rest =>
      match names !! i with
      | None => ([], Raise IndexError)
      | Some imgPath =>
          match plot_image debug_output i imgPath with
          | (tr, Ok _) =>
              let '(tr', r) := plot_loop debug_output names rest in
              (tr ++ tr', r)
          | (tr, Raise e) => (tr, Raise e)
          end
      end
  end.

(** [content]: the lines of the test map file. *)
Definition eval_faster_rcnn_plot (content : list string)
    (num_images_to_plot : nat) (debug_output : bool)
    : list plot_event * result unit :=
  match img_file_names content with
  | Raise e => ([], Raise e)
  | Ok names =>
      let num_eval := Nat.min num_test_images num_images_to_plot in
      plot_loop debug_output names (seq 0 num_eval)
  end.

End EvalPlot.

(** * Vocabulary of the statements *)

Definition known_datasets : list string := ["Grocery"; "Pascal"]%string.
Definition known_base_models : list string := ["AlexNet"; "VGG16"]%string.

(** [names needle msg]: the text [needle] occurs in [msg]. *)
Definition names (needle msg : string) : Prop :=
  exists pre post, msg = pre +:+ needle +:+ post.

(** The row carries an object: its fifth component is positive. *)
Definition has_object (row : list Q) : bool :=
  match row !! 4%nat with
  | Some label => negb (Qle_bool label 0)
  | None => false
  end.

(** Sizes for which [load_resize_and_pad] is embedded exactly: the target
    fits the C ints of OpenCV, and the products that lines 596 and 598 divide
    are below 2^52 in size, where the quotient in double precision rounds to
    the same integer as the exact one (see [Pad.rint]). *)
Definition exact_sizes (img_width img_height width height : Z) : Prop :=
  width <= Pad.INT_MAX /\ height <= Pad.INT_MAX /\
  Z.abs (img_height * width) < 4503599627370496 /\
  Z.abs (img_width * height) < 4503599627370496.

(** [k] is the index of the first largest entry of [xs]. *)
Definition is_argmax (xs : list Q) (k : nat) : Prop :=
  exists m,
    xs !! k = Some m /\
    (forall j y, xs !! j = Some y -> (y <= m)%Q) /\
    (forall j y, xs !! j = Some y -> (j < k)%nat -> (y < m)%Q).

(** Two stores that hold the same three arrays. *)
Definition same_inputs (p r l : loc) (σ1 σ2 : heap) : Prop :=
  σ1 !! p = σ2 !! p /\ σ1 !! r = σ2 !! r /\ σ1 !! l = σ2 !! l.

(** [row_result roi d label new]: [new] is what row [roi] is after the pass
    for its index, [d] being its row of regression factors. *)
Definition row_result
    (bbox_transform_inv : Np.matrix -> Np.matrix -> result Np.matrix)
    (roi d : list Q) (label : Z) (new : list Q) : Prop :=
  if 0 <? label
  then bbox_transform_inv [roi] [take 4 (drop (4 * Z.to_nat label) d)] = Ok [new]
       /\ length new = length roi
  else new = roi.

(** A statement of image [i] before line 709 raised [e]. *)
Definition raised_before_breakpoint
    (bbox_transform_inv : Np.matrix -> Np.matrix -> result Np.matrix)
    (num_input_rois : nat) (next_minibatch : nat -> list Q)
    (frcn_eval : nat -> eval_output) (i : nat) (e : exn) : Prop :=
  ground_truth_boxes num_input_rois (next_minibatch i) = Raise e \/
  (regress_with_argmax bbox_transform_inv cls_loc rois_loc regr_loc
     (output_heap (frcn_eval i))).2 = Raise e.

(** [rois'] has the rows of [rois], except that rows at the indices in
    [idx] may hold other numbers, as many as before. *)
Definition same_shape_off (idx : list nat) (rois rois' : Np.matrix) : Prop :=
  length <$> rois' = length <$> rois /\
  forall j, j ∉ idx -> rois' !! j = rois !! j.

(** Index [i] is the last place where [k] occurs in [l]. *)
Definition last_at {K} (l : list K) (k : K) (i : nat) : Prop :=
  l !! i = Some k /\ forall i', (i < i')%nat -> l !! i' <> Some k.

(** What the pictures in a trace of [eval_faster_rcnn_plot] can show. *)
Definition pictures_of (frcn_eval : nat -> eval_output)
    (debug_output : bool) (tr : list plot_event) : Prop :=
  (forall i ls rois, SaveDebug i ls rois ∈ tr ->
     debug_output = true /\ rois = out_rpn_rois (frcn_eval i)) /\
  (forall i ls rois', SaveRegressed i ls rois' ∈ tr ->
     Np.argmax_axis1 (out_cls_pred (frcn_eval i)) = Ok ls /\
     length <$> rois' = length <$> out_rpn_rois (frcn_eval i) /\
     forall j label, ls !! j = Some label -> label <= 0 ->
       rois' !! j = out_rpn_rois (frcn_eval i) !! j).

(** Image [i], read from [path], goes through a pass of the plot loop: the
    file can be read, resized and padded, and the regression of the
    proposals that the network returns for it comes to its end. *)
Definition plots
    (bbox_transform_inv : Np.matrix -> Np.matrix -> result Np.matrix)
    (imread : string -> option (Z * Z)) (frcn_eval : nat -> eval_output)
    (i : nat) (path : string) : Prop :=
  (exists iw ih, imread path = Some (iw, ih) /\
     is_ok (PlotInput.cntk_img_input iw ih) = true) /\
  is_ok (regress_with_argmax bbox_transform_inv cls_loc rois_loc regr_loc
           (output_heap (frcn_eval i))).2 = true.

(** ** Example data *)

(** Two proposals, two classes: the first box is of class 1 and has a
    centre offset of one box width, the second is background. *)
Definition ex_cls : Np.matrix := [[1 # 10; 9 # 10]; [8 # 10; 2 # 10]]%Q.
Definition ex_rois : Np.matrix := [[0; 0; 9; 9]; [1; 2; 3; 4]]%Q.
Definition ex_regr : Np.matrix :=
  [[0; 0; 0; 0; 1; 0; 0; 0]; [0; 0; 0; 0; 0; 0; 0; 0]]%Q.

Definition ex_bbox_transform_inv : Np.matrix -> Np.matrix -> result Np.matrix :=
  BBoxTransform.bbox_transform_inv BBoxTransform.exp_q.

Definition ex_store : heap :=
  <[1%positive := Np.Float2 ex_cls]>
  (<[2%positive := Np.Float2 ex_rois]>
  (<[3%positive := Np.Float2 ex_regr]> ∅)).

(** The same with the labels [1; 0] in place, and with labels without a
    foreground class. *)
Definition ex_store_labelled : heap :=
  <[4%positive := Np.Int1 [1; 0]]> ex_store.

Definition ex_store_background : heap :=
  <[4%positive := Np.Int1 [0; -1]]> ex_store.

(** One test image with one ground-truth box of class 2. *)
Definition ex_output : eval_output :=
  {| out_cls_pred := [[1 # 10; 9 # 10]]%Q;
     out_rpn_rois := [[0; 0; 9; 9]]%Q;
     out_bbox_regr := [[0; 0; 0; 0; 1; 0; 0; 0]]%Q |}.

Definition ex_files : gset string :=
  {["test.imgMap.txt"%string; "test.GTRois.txt"%string]}.

(** * Properties *)

(** ** Configuration *)


Lemma dataset_setup_unknown dataset :
  dataset ∉ known_datasets ->
  Config.dataset_setup dataset =
    Raise (ValueError ("unknown data set: " +:+ dataset)).
Proof.
  intros Hd. unfold Config.dataset_setup.
  destruct (String.eqb_spec dataset "Grocery") as [->|_].
  { exfalso. apply Hd. unfold known_datasets. set_solver. }
  destruct (String.eqb_spec dataset "Pascal") as [->|_]; [|done].
  exfalso. apply Hd. unfold known_datasets. set_solver.
Qed.

Lemma dataset_setup_known dataset :
  dataset ∈ known_datasets -> exists d, Config.dataset_setup dataset = Ok d.
Proof.
  unfold known_datasets. intros Hd.
  apply elem_of_cons in Hd as [->|Hd]; [by eexists|].
  apply elem_of_cons in Hd as [->|Hd]; [by eexists|].
  by apply elem_of_nil in Hd.
Qed.

Lemma model_setup_unknown base :
  base ∉ known_base_models ->
  Config.model_setup base = Raise (ValueError ("unknown base model: " +:+ base)).
Proof.
  intros Hd. unfold Config.model_setup.
  destruct (String.eqb_spec base "AlexNet") as [->|_].
  { exfalso. apply Hd. unfold known_base_models. set_solver. }
  destruct (String.eqb_spec base "VGG16") as [->|_]; [|done].
  exfalso. apply Hd. unfold known_base_models. set_solver.
Qed.

Lemma model_setup_known base :
  base ∈ known_base_models -> exists m, Config.model_setup base = Ok m.
Proof.
  unfold known_base_models. intros Hd.
  apply elem_of_cons in Hd as [->|Hd]; [by eexists|].
  apply elem_of_cons in Hd as [->|Hd]; [by eexists|].
  by apply elem_of_nil in Hd.
Qed.

Lemma main_trains debug_output model_exists :
  Config.TrainE2E ∈ Config.main debug_output model_exists.
Proof.
  unfold Config.main, Config.make_mode, Config.train_e2e.
  rewrite andb_false_r. set_solver.
Qed.

(** C4.  An unknown data set name ends the script with the ValueError
    "unknown data set: <name>", a known data set with an unknown base model
    ends it with "unknown base model: <name>", in both cases before any step
    of [main]; with known names the configuration block raises nothing and
    [main] runs, training included. *)
Theorem unknown_configuration_is_fatal
    (dataset base_model : string) (debug_output model_exists : bool) :
  (dataset ∉ known_datasets ->
     Config.script dataset base_model debug_output model_exists =
       ([], Raise (ValueError ("unknown data set: " +:+ dataset)))) /\
  (dataset ∈ known_datasets -> base_model ∉ known_base_models ->
     Config.script dataset base_model debug_output model_exists =
       ([], Raise (ValueError ("unknown base model: " +:+ base_model)))) /\
  (dataset ∈ known_datasets -> base_model ∈ known_base_models ->
     (exists cfg, Config.module_setup dataset base_model = Ok cfg) /\
     Config.script dataset base_model debug_output model_exists =
       (Config.main debug_output model_exists, Ok tt) /\
     Config.TrainE2E ∈ Config.main debug_output model_exists).
Proof.
  unfold Config.script, Config.module_setup. split; [|split].
  - intros Hd. by rewrite (dataset_setup_unknown _ Hd).
  - intros Hd Hm. destruct (dataset_setup_known _ Hd) as [d ->].
    by rewrite (model_setup_unknown _ Hm).
  - intros Hd Hm. destruct (dataset_setup_known _ Hd) as [d ->].
    destruct (model_setup_known _ Hm) as [m ->]. cbn.
    split; [by eexists|]. split; [done|]. apply main_trains.
Qed.

Lemma unknown_configuration_is_fatal_witness :
  Config.script "Grocery" "ResNet" true false =
    ([], Raise (ValueError "unknown base model: ResNet")).
Proof.
  apply (unknown_configuration_is_fatal "Grocery" "ResNet" true false).
  - unfold known_datasets. apply elem_of_cons. by left.
  - unfold known_base_models. intros H.
    apply elem_of_cons in H as [H|H]; [discriminate|].
    apply elem_of_cons in H as [H|H]; [discriminate|].
    by apply elem_of_nil in H.
Defined.

(** ** The minibatch source *)


Lemma append_assoc (a b c : string) : (a +:+ b) +:+ c = a +:+ (b +:+ c).
Proof.
  induction a as [|ch a IH]; [done|].
  change (String ch ((a +:+ b) +:+ c) = String ch (a +:+ b +:+ c)).
  by rewrite IH.
Qed.

Lemma missing_files_message_names img roi :
  names img (Reader.missing_files_message img roi) /\
  names roi (Reader.missing_files_message img roi).
Proof.
  unfold names, Reader.missing_files_message. split.
  - by eexists "File '"%string, _.
  - exists ("File '" +:+ img +:+ "' or '")%string. eexists.
    by rewrite !append_assoc.
Qed.

(** C5.  When one of the two map files does not exist, [create_mb_source]
    raises a RuntimeError whose message contains both paths, the missing one
    among them, and no deserializer or reader has been constructed; when both
    exist it raises nothing and returns a reader over exactly these files. *)
Theorem create_mb_source_checks_files
    (fs : gset string) (img_map_file roi_map_file : string)
    (img_height img_width : Z) (img_channels n_rois : nat) (randomize : bool) :
  let run := Reader.create_mb_source fs img_map_file roi_map_file
               img_height img_width img_channels n_rois randomize in
  (img_map_file ∉ fs \/ roi_map_file ∉ fs ->
     exists msg, run = ([], Raise (RuntimeError msg)) /\
       names img_map_file msg /\ names roi_map_file msg) /\
  (img_map_file ∈ fs -> roi_map_file ∈ fs ->
     exists src, run.2 = Ok src /\
       Reader.image_map src = img_map_file /\
       Reader.roi_map src = roi_map_file /\
       Reader.roi_shape src = (5 * n_rois)%nat /\
       Reader.MinibatchSource ∈ run.1).
Proof.
  cbv zeta. unfold Reader.create_mb_source. split.
  - intros Hmiss.
    assert (negb (bool_decide (img_map_file ∈ fs))
            || negb (bool_decide (roi_map_file ∈ fs)) = true) as ->.
    { apply orb_true_iff.
      destruct Hmiss as [H|H]; [left|right];
        apply negb_true_iff; by apply bool_decide_eq_false. }
    eexists. split; [done|]. apply missing_files_message_names.
  - intros Hi Hr.
    rewrite (bool_decide_eq_true_2 _ Hi), (bool_decide_eq_true_2 _ Hr). cbn.
    eexists. split; [done|]. repeat split. set_solver.
Qed.

Lemma create_mb_source_checks_files_witness :
  exists msg,
    Reader.create_mb_source {["a/test.imgMap.txt"%string]}
      "a/test.imgMap.txt" "a/test.GTRois.txt" 1000 1000 3 50 false
    = ([], Raise (RuntimeError msg)) /\
    names "a/test.imgMap.txt" msg /\ names "a/test.GTRois.txt" msg.
Proof.
  apply (create_mb_source_checks_files {["a/test.imgMap.txt"%string]}
           "a/test.imgMap.txt" "a/test.GTRois.txt" 1000 1000 3 50 false).
  right. intros H. apply elem_of_singleton in H. discriminate.
Defined.

(** ** clone_model *)

Section CloneModelFacts.

Variables (graph node func : Type).
Context `{EqDecision node}.
Variable find_by_name : graph -> string -> option node.
Variable combine_clone :
  list (option node) -> CloneMethod -> list (option node * placeholder) ->
  result func.

(** C10.  [clone_model] has no failure path of its own.  Whatever the names,
    it hands the nodes it found, None included, to [combine(...).clone(...)]
    and returns what that call returns; a None among the 'from' (resp. 'to')
    nodes only adds the corresponding printed error line. *)
Theorem clone_model_proceeds_on_missing_nodes
    (base_model : graph) (from_node_names to_node_names : list string)
    (clone_method : CloneMethod) :
  let from_nodes := find_by_name base_model <$> from_node_names in
  let to_nodes := find_by_name base_model <$> to_node_names in
  let run := clone_model graph node func find_by_name combine_clone base_model
               from_node_names to_node_names clone_method in
  run.2 = combine_clone to_nodes clone_method
            (dict_of_pairs (zip from_nodes (seq 0 (length from_nodes)))) /\
  (None ∈ from_nodes <-> ErrorFromNodes node from_node_names from_nodes ∈ run.1) /\
  (None ∈ to_nodes <-> ErrorToNodes node to_node_names to_nodes ∈ run.1) /\
  (forall name, name ∈ to_node_names -> find_by_name base_model name = None ->
     None ∈ to_nodes /\ exists msg, msg ∈ run.1).
Proof.
  cbv zeta. unfold clone_model. cbn [fst snd].
  split; [done|].
  set (from_nodes := find_by_name base_model <$> from_node_names).
  set (to_nodes := find_by_name base_model <$> to_node_names).
  assert (Hfrom : None ∈ from_nodes <->
            ErrorFromNodes node from_node_names from_nodes ∈
              (if bool_decide (None ∈ from_nodes)
               then [ErrorFromNodes node from_node_names from_nodes] else [])
              ++ (if bool_decide (None ∈ to_nodes)
                  then [ErrorToNodes node to_node_names to_nodes] else [])).
  { case_bool_decide as H1; case_bool_decide as H2;
      rewrite elem_of_app, ?elem_of_cons, ?elem_of_nil; naive_solver. }
  assert (Hto : None ∈ to_nodes <->
            ErrorToNodes node to_node_names to_nodes ∈
              (if bool_decide (None ∈ from_nodes)
               then [ErrorFromNodes node from_node_names from_nodes] else [])
              ++ (if bool_decide (None ∈ to_nodes)
                  then [ErrorToNodes node to_node_names to_nodes] else [])).
  { case_bool_decide as H1; case_bool_decide as H2;
      rewrite elem_of_app, ?elem_of_cons, ?elem_of_nil; naive_solver. }
  split; [done|]. split; [done|].
  intros name Hin Hnone.
  assert (None ∈ to_nodes) as Hmem.
  { rewrite <- Hnone. subst to_nodes. apply list_elem_of_fmap. eauto. }
  split; [done|]. eexists. by apply Hto.
Qed.

End CloneModelFacts.

(** ** Tensor shapes *)

Lemma conv_dim_1x1 (n : nat) : (0 < n)%nat -> Shapes.conv_dim n 1 1 false = n.
Proof.
  intros Hn. unfold Shapes.conv_dim. rewrite Nat.div_1_r. lia.
Qed.

Lemma conv_dim_pad_stride1 (n k : nat) : Shapes.conv_dim n k 1 true = n.
Proof. unfold Shapes.conv_dim. rewrite Nat.div_1_r. lia. Qed.

(** C6.  On a (C, H, W) feature map, [rpn_cls_score] has 2*9 = 18 channels,
    the background slice is channels 0..8 and the foreground slice channels
    9..17, [rpn_bbox_pred] has 4*9 = 36 channels on the same grid, and the
    regression head maps n ROIs to n rows of 4*num_classes values. *)
Theorem rpn_and_head_channel_layout (c h w n num_classes : nat) :
  (exists l H W,
     Shapes.create_rpn [c; h; w] = Ok l /\
     Shapes.num_anchors l = 9%nat /\
     Shapes.rpn_cls_score l = [(2 * 9)%nat; H; W] /\
     Shapes.rpn_bbox_pred l = [(4 * 9)%nat; H; W] /\
     Shapes.bg_scores l = seq 0 9 /\
     Shapes.fg_scores l = seq 9 9 /\
     Shapes.bg_scores l ++ Shapes.fg_scores l = seq 0 (2 * 9) /\
     ((0 < h)%nat -> (0 < w)%nat -> H = h /\ W = w)) /\
  (exists cls_score,
     Shapes.create_fast_rcnn_predictor num_classes [n; 4096%nat] =
       Ok (cls_score, [n; (4 * num_classes)%nat])).
Proof.
  split.
  - eexists _, _, _. split; [reflexivity|]. cbn -[Shapes.conv_dim seq Nat.mul].
    do 6 (split; [reflexivity|]).
    intros Hh Hw. rewrite !conv_dim_pad_stride1. by rewrite !conv_dim_1x1.
  - unfold Shapes.create_fast_rcnn_predictor, Shapes.times, Shapes.plus.
    rewrite !decide_True by done. cbn -[Nat.mul].
    rewrite !decide_True by done. cbn -[Nat.mul].
    eexists. by rewrite (Nat.mul_comm num_classes 4).
Qed.

(** ** Resizing and padding *)

Section Rint.

Variables n d : Z.
Hypothesis Hd : 0 < d.

(** The three outcomes of [rint]: down, up, or a tie. *)
Ltac rint_cases :=
  unfold Pad.rint;
  pose proof (Z.div_mod n d ltac:(lia));
  pose proof (Z.mod_pos_bound n d Hd);
  destruct (Z.ltb_spec (2 * (n mod d)) d);
    [|destruct (Z.ltb_spec d (2 * (n mod d))); [|destruct (Z.even (n / d))]].

Lemma rint_nearest : 2 * Z.abs (Pad.rint n d * d - n) <= d.
Proof. rint_cases; nia. Qed.

Lemma rint_lower (k : Z) : k * d <= n -> k <= Pad.rint n d.
Proof.
  intros Hk. rint_cases; assert (k <= n / d) by nia; lia.
Qed.

Lemma rint_upper (k : Z) : n <= k * d -> Pad.rint n d <= k.
Proof. intros Hk. rint_cases; nia. Qed.

End Rint.

(** Half of a non-negative difference, rounded: the two parts differ by at
    most one. *)
Lemma rint_half (D : Z) :
  0 <= D ->
  0 <= Pad.rint D 2 <= D /\ Z.abs (Pad.rint D 2 - (D - Pad.rint D 2)) <= 1.
Proof.
  intros HD.
  pose proof (rint_nearest D 2 ltac:(lia)).
  pose proof (rint_lower D 2 ltac:(lia) 0 ltac:(lia)).
  pose proof (rint_upper D 2 ltac:(lia) D ltac:(lia)).
  lia.
Qed.

(** The two OpenCV calls, by the conditions under which they return. *)
Lemma c_int_spec (k : Z) :
  Pad.c_int k = true <-> - Pad.INT_MAX - 1 <= k <= Pad.INT_MAX.
Proof. unfold Pad.c_int. rewrite andb_true_iff, !Z.leb_le. tauto. Qed.

Lemma cv2_resize_spec (w h : Z) :
  (1 <= w <= Pad.INT_MAX /\ 1 <= h <= Pad.INT_MAX ->
     Pad.cv2_resize (w, h) = Ok (h, w)) /\
  (~ (1 <= w <= Pad.INT_MAX /\ 1 <= h <= Pad.INT_MAX) ->
     Pad.cv2_resize (w, h) = Raise CvError).
Proof.
  unfold Pad.cv2_resize.
  match goal with
  | |- context [if ?c then _ else _] => destruct c eqn:E
  end.
  - split; [done|]. intros Hn. exfalso. apply Hn.
    rewrite !andb_true_iff, !Z.ltb_lt, !c_int_spec in E. lia.
  - split; [|done]. intros Hfits.
    rewrite <- not_true_iff_false in E. exfalso. apply E.
    rewrite !andb_true_iff, !Z.ltb_lt, !c_int_spec.
    unfold Pad.INT_MAX in *. lia.
Qed.

Lemma cv2_copyMakeBorder_spec (rows cols top bottom left right : Z) :
  let fits :=
    0 <= top <= Pad.INT_MAX /\ 0 <= bottom <= Pad.INT_MAX /\
    0 <= left <= Pad.INT_MAX /\ 0 <= right <= Pad.INT_MAX /\
    - Pad.INT_MAX - 1 <= rows + top + bottom <= Pad.INT_MAX /\
    - Pad.INT_MAX - 1 <= cols + left + right <= Pad.INT_MAX in
  (fits -> Pad.cv2_copyMakeBorder (rows, cols) top bottom left right
           = Ok (rows + top + bottom, cols + left + right)) /\
  (~ fits -> Pad.cv2_copyMakeBorder (rows, cols) top bottom left right
             = Raise CvError).
Proof.
  cbv zeta. unfold Pad.cv2_copyMakeBorder.
  match goal with
  | |- context [if ?c then _ else _] => destruct c eqn:E
  end.
  - split; [done|]. intros Hn. exfalso. apply Hn.
    rewrite !andb_true_iff, !Z.leb_le, !c_int_spec in E. lia.
  - split; [|done]. intros Hfits.
    rewrite <- not_true_iff_false in E. exfalso. apply E.
    rewrite !andb_true_iff, !Z.leb_le, !c_int_spec.
    unfold Pad.INT_MAX in *. lia.
Qed.

(** The function succeeds exactly when the resized image is non-empty and
    fits into the target, and the target fits the C ints. *)
Lemma load_resize_and_pad_ok_iff (iw ih w h : Z) :
  0 < ih ->
  is_ok (Pad.load_resize_and_pad iw ih w h) = true <->
  (1 <= (Pad.target_size iw ih w h).1 <= w /\
   1 <= (Pad.target_size iw ih w h).2 <= h) /\
  w <= Pad.INT_MAX /\ h <= Pad.INT_MAX.
Proof.
  intros Hih. unfold Pad.load_resize_and_pad.
  destruct (Z.leb_spec ih 0) as [?|_]; [lia|].
  destruct (Pad.target_size iw ih w h) as [tw th]. cbn [fst snd].
  destruct (cv2_resize_spec tw th) as [Hrok Hrerr].
  destruct (decide (1 <= tw <= Pad.INT_MAX /\ 1 <= th <= Pad.INT_MAX))
    as [Hr|Hr].
  2:{ rewrite (Hrerr Hr). cbn. split; [done|]. intros. exfalso. apply Hr. lia. }
  rewrite (Hrok Hr). cbn [mbind result_bind].
  set (top := Z.max 0 (Pad.rint (h - th) 2)).
  set (left := Z.max 0 (Pad.rint (w - tw) 2)).
  destruct (cv2_copyMakeBorder_spec th tw top (h - top - th) left (w - left - tw))
    as [Hbok Hberr].
  cbv zeta in Hbok, Hberr.
  match type of Hbok with
  | ?fits -> _ => destruct (decide fits) as [Hb|Hb]
  end.
  - rewrite (Hbok Hb). cbn. split; [intros _|done]. subst top left. lia.
  - rewrite (Hberr Hb). cbn. split; [done|]. intros [[Hw Hh] [Hwmax Hhmax]].
    exfalso. apply Hb.
    destruct (rint_half (h - th) ltac:(lia)) as [Ht _].
    destruct (rint_half (w - tw) ltac:(lia)) as [Hl _].
    subst top left. lia.
Qed.

(** C9, as amended.  For an image and a target of positive dimensions, in
    the range where the embedding is exact, such that the resized image is
    non-empty and fits into the target, [load_resize_and_pad] returns an
    array of exactly height x width pixels; the longer source side fills its
    target side and the other side is the proportional length rounded to the
    nearest pixel; the borders are not negative, sum to what is left over,
    and the two opposite borders differ by at most one pixel. *)
Theorem load_resize_and_pad_fitting_target (iw ih w h : Z) :
  0 < iw -> 0 < ih -> 0 < w -> 0 < h ->
  exact_sizes iw ih w h ->
  1 <= (Pad.target_size iw ih w h).1 <= w ->
  1 <= (Pad.target_size iw ih w h).2 <= h ->
  exists r,
    Pad.load_resize_and_pad iw ih w h = Ok r /\
    Pad.rows r = h /\ Pad.cols r = w /\
    Pad.top r + Pad.bottom r = h - Pad.target_h r /\
    Pad.left r + Pad.right r = w - Pad.target_w r /\
    0 <= Pad.top r /\ 0 <= Pad.left r /\
    0 <= Pad.bottom r /\ 0 <= Pad.right r /\
    Z.abs (Pad.top r - Pad.bottom r) <= 1 /\
    Z.abs (Pad.left r - Pad.right r) <= 1 /\
    (ih < iw ->
       Pad.target_w r = w /\
       2 * Z.abs (Pad.target_h r * iw - ih * w) <= iw) /\
    (iw <= ih ->
       Pad.target_h r = h /\
       2 * Z.abs (Pad.target_w r * ih - iw * h) <= ih).
Proof.
  intros Hiw Hih Hw Hh (Hwmax & Hhmax & _ & _) Hfw Hfh.
  assert (Hts : (ih < iw ->
                  (Pad.target_size iw ih w h).1 = w /\
                  2 * Z.abs ((Pad.target_size iw ih w h).2 * iw - ih * w) <= iw) /\
                (iw <= ih ->
                  (Pad.target_size iw ih w h).2 = h /\
                  2 * Z.abs ((Pad.target_size iw ih w h).1 * ih - iw * h) <= ih)).
  { unfold Pad.target_size.
    destruct (Z.ltb_spec ih iw); (split; [intros ?|intros ?]); try lia;
      cbn [fst snd]; (split; [done|]); by apply rint_nearest. }
  unfold Pad.load_resize_and_pad.
  destruct (Z.leb_spec ih 0) as [?|_]; [lia|].
  destruct (Pad.target_size iw ih w h) as [tw th]. cbn [fst snd] in *.
  rewrite (proj1 (cv2_resize_spec tw th)) by lia. cbn [mbind result_bind].
  destruct (rint_half (h - th) ltac:(lia)) as [Ht1 Ht2].
  destruct (rint_half (w - tw) ltac:(lia)) as [Hl1 Hl2].
  rewrite (proj1 (cv2_copyMakeBorder_spec _ _ _ _ _ _)) by (cbv zeta; lia).
  cbn [mbind result_bind].
  eexists. split; [reflexivity|]. cbn.
  repeat split; try lia; by apply Hts.
Qed.

Lemma load_resize_and_pad_fitting_target_witness :
  exists r,
    Pad.load_resize_and_pad 640 480 1000 1000 = Ok r /\
    Pad.rows r = 1000 /\ Pad.cols r = 1000 /\
    Pad.top r + Pad.bottom r = 1000 - Pad.target_h r /\
    Pad.left r + Pad.right r = 1000 - Pad.target_w r /\
    0 <= Pad.top r /\ 0 <= Pad.left r /\
    0 <= Pad.bottom r /\ 0 <= Pad.right r /\
    Z.abs (Pad.top r - Pad.bottom r) <= 1 /\
    Z.abs (Pad.left r - Pad.right r) <= 1 /\
    (480 < 640 ->
       Pad.target_w r = 1000 /\
       2 * Z.abs (Pad.target_h r * 640 - 480 * 1000) <= 640) /\
    (640 <= 480 ->
       Pad.target_h r = 1000 /\
       2 * Z.abs (Pad.target_w r * 480 - 640 * 1000) <= 480).
Proof.
  apply (load_resize_and_pad_fitting_target 640 480 1000 1000);
    try lia.
  - unfold exact_sizes, Pad.INT_MAX. lia.
  - vm_compute. split; congruence.
  - vm_compute. split; congruence.
Defined.

(** A wide image and a target that is wider than high: the resized image is
    500 pixels high, the bottom border would be -400, and OpenCV refuses.
    So it does a target of 2^31 pixels a side, into which the resized image
    would fit. *)
Lemma load_resize_and_pad_flat_target :
  Pad.target_size 200 100 1000 100 = (1000, 500) /\
  Pad.load_resize_and_pad 200 100 1000 100 = Raise CvError /\
  Pad.target_size 2 1 2147483648 2147483648 = (2147483648, 1073741824) /\
  Pad.load_resize_and_pad 2 1 2147483648 2147483648 = Raise CvError.
Proof. repeat split; reflexivity. Qed.

(** Square targets, the only ones the script asks for, always fit as long
    as the shorter side does not round to zero pixels. *)
Lemma square_target_fits (iw ih s : Z) :
  0 < iw -> 0 < ih -> 0 < s ->
  Z.max iw ih < 2 * s * Z.min iw ih ->
  1 <= (Pad.target_size iw ih s s).1 <= s /\
  1 <= (Pad.target_size iw ih s s).2 <= s.
Proof.
  intros Hiw Hih Hs Hratio. unfold Pad.target_size.
  destruct (Z.ltb_spec ih iw) as [Hlt|Hge]; cbn [fst snd].
  - split; [lia|].
    pose proof (rint_upper (ih * s) iw Hiw s ltac:(nia)).
    pose proof (rint_nearest (ih * s) iw Hiw).
    assert (0 <= Pad.rint (ih * s) iw) by (apply rint_lower; [done|nia]).
    split; [|done].
    destruct (Z.eq_dec (Pad.rint (ih * s) iw) 0) as [E|]; [|lia].
    rewrite E in *. nia.
  - split; [|lia].
    pose proof (rint_upper (iw * s) ih Hih s ltac:(nia)).
    pose proof (rint_nearest (iw * s) ih Hih).
    assert (0 <= Pad.rint (iw * s) ih) by (apply rint_lower; [done|nia]).
    split; [|done].
    destruct (Z.eq_dec (Pad.rint (iw * s) ih) 0) as [E|]; [|lia].
    rewrite E in *. nia.
Qed.

(** ** Ground-truth rows *)


Lemma has_object_spec (row : list Q) :
  has_object row = true <-> exists label, row !! 4%nat = Some label /\ (0 < label)%Q.
Proof.
  unfold has_object. destruct (row !! 4%nat) as [x|].
  - rewrite negb_true_iff. split.
    + intros H. exists x. split; [done|].
      apply Qnot_le_lt. intros Hle. apply Qle_bool_iff in Hle. congruence.
    + intros (y & [= <-] & Hlt).
      destruct (Qle_bool x 0) eqn:E; [|done].
      apply Qle_bool_iff in E. exfalso. by apply (Qlt_not_le 0 x).
  - split; [done|]. by intros (y & ? & _).
Qed.

Lemma chunks_shape {A} (c n : nat) (xs : list A) :
  length xs = (n * c)%nat ->
  length (Np.chunks n c xs) = n /\
  Forall (fun row => length row = c) (Np.chunks n c xs) /\
  concat (Np.chunks n c xs) = xs.
Proof.
  revert xs. induction n as [|n IH]; intros xs Hlen; cbn.
  - destruct xs; [done|]. cbn in Hlen. lia.
  - destruct (IH (drop c xs)) as (Hl & Hf & Hc).
    { rewrite length_drop. lia. }
    split; [by rewrite Hl|]. split.
    + constructor; [|done]. rewrite length_take. lia.
    + rewrite Hc. apply take_drop.
Qed.

Lemma last_column_rows5 (rows : Np.matrix) :
  Forall (fun row => length row = 5%nat) rows ->
  Np.last_column rows = Ok ((fun row => default 0%Q (row !! 4%nat)) <$> rows).
Proof.
  unfold Np.last_column.
  induction 1 as [|row rows Hrow _ IH]; [done|].
  cbn. rewrite IH.
  destruct row as [|a [|b [|c [|d [|e [|? ?]]]]]]; done.
Qed.

Lemma take_rows_where_pos (f : list Q -> Q) (rows pre : Np.matrix) :
  Np.take_rows (pre ++ rows) (Np.where_pos_from (length pre) (f <$> rows)) =
  Ok (List.filter (fun row => negb (Qle_bool (f row) 0)) rows).
Proof.
  revert pre. induction rows as [|row rows IH]; intros pre; [done|].
  specialize (IH (pre ++ [row])).
  rewrite <- app_assoc, length_app, Nat.add_1_r in IH. cbn in IH.
  cbn. destruct (Qle_bool (f row) 0); cbn; [exact IH|].
  unfold Np.take_rows in *. cbn. rewrite IH.
  by rewrite (list_lookup_middle pre rows row (length pre) eq_refl).
Qed.

(** C7.  On a roiAndLabel row of num_input_rois * 5 numbers, the evaluation
    path reshapes it into num_input_rois rows of 5 and keeps, in order,
    exactly the rows whose fifth component is strictly positive. *)
Theorem ground_truth_keeps_positive_labels
    (num_input_rois : nat) (gt_row : list Q) :
  length gt_row = (num_input_rois * 5)%nat ->
  exists rows kept,
    Np.reshape2 gt_row num_input_rois 5 = Ok rows /\
    length rows = num_input_rois /\
    Forall (fun row => length row = 5%nat) rows /\
    concat rows = gt_row /\
    ground_truth_boxes num_input_rois gt_row = Ok kept /\
    kept = List.filter has_object rows /\
    (forall row, row ∈ kept <->
       row ∈ rows /\ exists label, row !! 4%nat = Some label /\ (0 < label)%Q).
Proof.
  intros Hlen. unfold ground_truth_boxes, Np.reshape2.
  rewrite decide_True by done.
  destruct (chunks_shape 5 num_input_rois gt_row Hlen) as (Hl & Hf & Hc).
  set (rows := Np.chunks num_input_rois 5 gt_row) in *.
  exists rows, (List.filter has_object rows).
  split; [done|]. split; [done|]. split; [done|]. split; [done|]. split.
  - cbn. rewrite (last_column_rows5 rows Hf). cbn.
    rewrite (filter_ext has_object
               (fun row => negb (Qle_bool (default 0%Q (row !! 4%nat)) 0))).
    + apply (take_rows_where_pos (fun row => default 0%Q (row !! 4%nat)) rows []).
    + intros row. unfold has_object. by destruct (row !! 4%nat).
  - split; [done|]. intros row.
    rewrite list_elem_of_In, filter_In, <- list_elem_of_In.
    by rewrite has_object_spec.
Qed.

Lemma ground_truth_keeps_positive_labels_witness :
  exists rows kept,
    Np.reshape2 [10; 10; 50; 50; 2; 0; 0; 0; 0; 0]%Q 2 5 = Ok rows /\
    length rows = 2%nat /\
    Forall (fun row => length row = 5%nat) rows /\
    concat rows = [10; 10; 50; 50; 2; 0; 0; 0; 0; 0]%Q /\
    ground_truth_boxes 2 [10; 10; 50; 50; 2; 0; 0; 0; 0; 0]%Q = Ok kept /\
    kept = List.filter has_object rows /\
    (forall row, row ∈ kept <->
       row ∈ rows /\ exists label, row !! 4%nat = Some label /\ (0 < label)%Q).
Proof.
  apply (ground_truth_keeps_positive_labels 2
           [10; 10; 50; 50; 2; 0; 0; 0; 0; 0]%Q).
  reflexivity.
Defined.

(** ** regress_rois: what it writes *)

Section RegressRoisFacts.

Variable bbox_transform_inv : Np.matrix -> Np.matrix -> result Np.matrix.
Variables p r l : loc.

Local Abbreviation body := (regress_one bbox_transform_inv p r).
Local Abbreviation loop := (regress_loop bbox_transform_inv p r l).
Local Abbreviation run := (regress_rois bbox_transform_inv p r l).

(** One pass through the body either leaves the store alone or replaces the
    proposals by an array with as many rows. *)
Lemma regress_one_cases (i : nat) (label : Z) (σ : heap) :
  (body i label σ).1 = σ \/
  exists rois rois',
    σ !! p = Some (Np.Float2 rois) /\
    length rois' = length rois /\
    body i label σ = (<[p := Np.Float2 rois']> σ, Ok tt).
Proof.
  unfold regress_one.
  destruct (Z.ltb_spec 0 label) as [Hpos|_]; [|left; reflexivity].
  destruct (read_float2 σ r) as [regr|e] eqn:Hr; cbn; [|by left].
  unfold read_float2.
  destruct (σ !! p) as [[xs|rois|xs]|] eqn:Hp; cbn; try by left.
  destruct (bbox_transform_inv _ _) as [v|e]; cbn; [|by left].
  destruct (Np.setitem_row rois i v) as [rois'|e] eqn:Hset; cbn; [|by left].
  right. exists rois, rois'. split; [done|]. split; [|done].
  unfold Np.setitem_row in Hset. destruct (rois !! i); [|done].
  destruct (Np.broadcast_row _ v); cbn in Hset; [|done].
  injection Hset as <-. apply length_insert.
Qed.

Lemma regress_one_frame (i : nat) (label : Z) (σ : heap) (k : loc) :
  k <> p -> (body i label σ).1 !! k = σ !! k.
Proof.
  intros Hk. destruct (regress_one_cases i label σ) as [->|(? & ? & _ & _ & ->)];
    [done|]. cbn. by rewrite lookup_insert_ne.
Qed.

(** The labels are never written: an int array is never the target. *)
Lemma regress_one_labels (i : nat) (label : Z) (σ : heap) (ls : list Z) :
  σ !! l = Some (Np.Int1 ls) -> (body i label σ).1 !! l = Some (Np.Int1 ls).
Proof.
  intros Hl. destruct (regress_one_cases i label σ) as [->|(? & ? & Hp & _ & ->)];
    [done|]. cbn. rewrite lookup_insert_ne; [done|]. congruence.
Qed.

Lemma regress_loop_frame (idx : list nat) (σ : heap) (k : loc) :
  k <> p -> (loop idx σ).1 !! k = σ !! k.
Proof.
  intros Hk. revert σ. induction idx as [|i idx IH]; intros σ; cbn; [done|].
  destruct (read_int1 σ l) as [ls|e]; cbn; [|done].
  destruct (ls !! i) as [label|]; cbn; [|done].
  pose proof (regress_one_frame i label σ k Hk) as Hone.
  destruct (body i label σ) as [σ' [[]|e]]; cbn in *; [|done].
  by rewrite IH.
Qed.

(** Without a positive label nothing is read or written. *)
Lemma regress_loop_no_foreground (ls : list Z) (idx : list nat) (σ : heap) :
  σ !! l = Some (Np.Int1 ls) ->
  (forall x, x ∈ ls -> x <= 0) ->
  (forall i, i ∈ idx -> (i < length ls)%nat) ->
  loop idx σ = (σ, Ok tt).
Proof.
  intros Hl Hneg. induction idx as [|i idx IH]; intros Hidx; cbn; [done|].
  unfold read_int1. rewrite Hl. cbn.
  destruct (lookup_lt_is_Some_2 ls i) as [label Hlabel].
  { apply Hidx. by left. }
  rewrite Hlabel. cbn. unfold regress_one.
  assert (label <= 0) as Hle.
  { apply Hneg. by eapply list_elem_of_lookup_2. }
  destruct (Z.ltb_spec 0 label); [lia|].
  apply IH. intros j Hj. apply Hidx. by right.
Qed.

(** C8.  When no label is positive, [regress_rois] raises nothing, returns
    the proposals array it was given and leaves the whole store, that array
    included, as it was. *)
Theorem regress_rois_without_foreground (σ : heap) (ls : list Z) :
  σ !! l = Some (Np.Int1 ls) ->
  (forall x, x ∈ ls -> x <= 0) ->
  regress_rois bbox_transform_inv p r l σ = (σ, Ok p).
Proof.
  intros Hl Hneg. unfold regress_rois, read_int1. rewrite Hl.
  rewrite (regress_loop_no_foreground ls); [done..|].
  intros i Hi. apply elem_of_seq in Hi. lia.
Qed.


Lemma regress_one_same_inputs (i : nat) (label : Z) (σ1 σ2 : heap) :
  same_inputs p r l σ1 σ2 ->
  (body i label σ1).2 = (body i label σ2).2 /\
  same_inputs p r l (body i label σ1).1 (body i label σ2).1.
Proof.
  intros (Hp & Hr & Hl). unfold regress_one.
  destruct (0 <? label); [|done].
  unfold read_float2. rewrite Hp, Hr.
  match goal with
  | |- context [match ?scrut with Ok _ => _ | Raise _ => _ end] =>
      destruct scrut as [rois'|e]
  end; cbn; [|done].
  split; [done|]. unfold same_inputs.
  rewrite !lookup_insert. repeat case_decide; done.
Qed.

Lemma regress_loop_same_inputs (idx : list nat) (σ1 σ2 : heap) :
  same_inputs p r l σ1 σ2 ->
  (loop idx σ1).2 = (loop idx σ2).2 /\
  same_inputs p r l (loop idx σ1).1 (loop idx σ2).1.
Proof.
  revert σ1 σ2. induction idx as [|i idx IH]; intros σ1 σ2 Hs; cbn; [done|].
  unfold read_int1. pose proof Hs as (_ & _ & Hl). rewrite Hl. clear Hl.
  destruct (σ2 !! l) as [[xs|rows|ls]|]; cbn; try (by split).
  destruct (ls !! i) as [label|]; cbn; [|by split].
  destruct (regress_one_same_inputs i label σ1 σ2) as [Hres Hs']; [done|].
  destruct (body i label σ1) as [σ1' res1], (body i label σ2) as [σ2' res2].
  cbn in *. subst res2. destruct res1 as [[]|e]; [|done].
  by apply IH.
Qed.

Lemma regress_one_dom (i : nat) (label : Z) (σ : heap) :
  dom (body i label σ).1 = dom σ.
Proof.
  destruct (regress_one_cases i label σ) as [->|(? & ? & Hp & _ & ->)]; [done|].
  cbn. by apply dom_insert_lookup_L.
Qed.

Lemma regress_loop_dom (idx : list nat) (σ : heap) :
  dom (loop idx σ).1 = dom σ.
Proof.
  revert σ. induction idx as [|i idx IH]; intros σ; cbn; [done|].
  destruct (read_int1 σ l) as [ls|e]; cbn; [|done].
  destruct (ls !! i) as [label|]; cbn; [|done].
  pose proof (regress_one_dom i label σ) as Hone.
  destruct (body i label σ) as [σ' [[]|e]]; cbn in *; [|done].
  by rewrite IH.
Qed.

Lemma read_object_frame (σ σ' : heap) (a : array_object) :
  σ' !! memory a = σ !! memory a -> read_object σ' a = read_object σ a.
Proof. destruct a; cbn; by intros ->. Qed.

Lemma read_object_changed (σ σ' : heap) (a : array_object) :
  σ' !! memory a <> σ !! memory a -> read_object σ' a <> read_object σ a.
Proof.
  intros Hne Heq. apply Hne.
  destruct a; cbn in *; destruct (σ' !! m), (σ !! m); cbn in Heq; congruence.
Qed.

(** C2, as amended.  The three arrays are given by the cells they read, so
    any two of them are the same memory or share none, as in the script.
    [regress_rois] writes to no memory other than that of [roi_proposals]:
    the rest of the store, and with it every array that shares no memory
    with the proposals (the regression factors and the labels, when they
    share none), is as before, also when an exception ends the call.  It
    makes no copy: what it returns is the [roi_proposals] object itself, no
    array is created, and whatever the call changes in the proposals is
    changed in every array that shares their memory, such as the network's
    output of which the script passes a view.  The outcome and the final
    proposals of a call on the same three cells depend only on the contents
    of the three arrays at the time of the call. *)
Theorem regress_rois_writes_proposals_only (σ : heap) :
  let call := regress_rois bbox_transform_inv p r l in
  (forall k, k <> p -> (call σ).1 !! k = σ !! k) /\
  (forall a, memory a <> p -> read_object (call σ).1 a = read_object σ a) /\
  (forall v, (call σ).2 = Ok v -> v = p) /\
  dom (call σ).1 = dom σ /\
  (forall a, memory a = p -> (call σ).1 !! p <> σ !! p ->
     read_object (call σ).1 a <> read_object σ a) /\
  (forall σ2, same_inputs p r l σ σ2 ->
     (call σ2).2 = (call σ).2 /\ (call σ2).1 !! p = (call σ).1 !! p).
Proof.
  cbv zeta.
  assert (Hframe : forall k, k <> p ->
            (regress_rois bbox_transform_inv p r l σ).1 !! k = σ !! k).
  { intros k Hk. unfold regress_rois.
    destruct (read_int1 σ l) as [ls|e]; [|done].
    pose proof (regress_loop_frame (seq 0 (length ls)) σ k Hk) as Hf.
    by destruct (loop _ σ) as [σ' [[]|e]]. }
  split; [exact Hframe|]. split; [|split; [|split; [|split]]].
  - intros a Ha. apply read_object_frame. by apply Hframe.
  - intros v. unfold regress_rois.
    destruct (read_int1 σ l) as [ls|e]; [|done].
    destruct (loop _ σ) as [σ' [[]|e]]; cbn; congruence.
  - unfold regress_rois.
    destruct (read_int1 σ l) as [ls|e]; [|done].
    pose proof (regress_loop_dom (seq 0 (length ls)) σ) as Hd.
    by destruct (loop _ σ) as [σ' [[]|e]].
  - intros a <- Hne. by apply read_object_changed.
  - intros σ2 Hs. unfold regress_rois, read_int1.
    pose proof Hs as (Hp0 & _ & Hl). rewrite <- Hl.
    destruct (σ !! l) as [[xs|rows|ls]|]; cbn; try (by split).
    destruct (regress_loop_same_inputs (seq 0 (length ls)) σ σ2 Hs)
      as (Hres & Hp & _).
    destruct (loop _ σ) as [σ' res], (loop _ σ2) as [σ2' res2]. cbn in *.
    subst res2. by destruct res as [[]|e].
Qed.

(** *** What one row becomes *)

Lemma slice_nonneg {A} (xs : list A) (lo hi : nat) :
  Np.slice xs (Z.of_nat lo) (Z.of_nat hi) = take (hi - lo) (drop lo xs).
Proof.
  unfold Np.slice, Np.slice_bound.
  destruct (Z.ltb_spec (Z.of_nat lo) 0); [lia|].
  destruct (Z.ltb_spec (Z.of_nat hi) 0); [lia|].
  rewrite !Nat2Z.id.
  destruct (Nat.le_gt_cases (length xs) lo) as [Hlo|Hlo].
  - rewrite !drop_ge by lia. by rewrite !take_nil.
  - rewrite (Nat.min_l lo) by lia.
    destruct (Nat.le_gt_cases hi (length xs)) as [Hhi|Hhi].
    + by rewrite (Nat.min_l hi) by lia.
    + rewrite (Nat.min_r hi) by lia.
      rewrite !take_ge; [done| |]; rewrite length_drop; lia.
Qed.

Lemma row_window_lookup (a : Np.matrix) (i : nat) (row : list Q) :
  a !! i = Some row -> Np.row_window a i = [row].
Proof.
  intros Hi. unfold Np.row_window.
  replace (Z.of_nat i + 1) with (Z.of_nat (S i)) by lia.
  rewrite slice_nonneg. replace (S i - i)%nat with 1%nat by lia.
  by rewrite (drop_S _ _ _ Hi).
Qed.

Lemma delta_window (regr : Np.matrix) (i : nat) (d : list Q) (label : Z) :
  regr !! i = Some d -> 0 < label ->
  Np.col_window (Np.row_window regr i) (label * 4) ((label + 1) * 4) =
  [take 4 (drop (4 * Z.to_nat label) d)].
Proof.
  intros Hi Hpos. rewrite (row_window_lookup _ _ _ Hi). cbn.
  replace (label * 4) with (Z.of_nat (4 * Z.to_nat label)) by lia.
  replace ((label + 1) * 4) with (Z.of_nat (4 * Z.to_nat label + 4)) by lia.
  rewrite slice_nonneg. do 3 f_equal. lia.
Qed.

Lemma setitem_row_same_length (a : Np.matrix) (i : nat) (old new : list Q) :
  a !! i = Some old -> length new = length old ->
  Np.setitem_row a i [new] = Ok (<[i := new]> a).
Proof.
  intros Hi Hlen. unfold Np.setitem_row, Np.broadcast_row. rewrite Hi.
  by rewrite decide_True.
Qed.


Lemma regress_one_spec (σ : heap) (i : nat) (label : Z)
    (cur regr : Np.matrix) (roi d new : list Q) :
  σ !! r = Some (Np.Float2 regr) -> σ !! p = Some (Np.Float2 cur) ->
  cur !! i = Some roi -> regr !! i = Some d ->
  row_result bbox_transform_inv roi d label new ->
  body i label σ = (<[p := Np.Float2 (<[i := new]> cur)]> σ, Ok tt).
Proof.
  intros Hr Hp Hroi Hd Hnew. unfold regress_one, row_result in *.
  destruct (Z.ltb_spec 0 label) as [Hpos|_].
  - destruct Hnew as [Hbti Hlen]. unfold read_float2. rewrite Hr, Hp. cbn.
    rewrite (delta_window _ _ _ _ Hd Hpos), (row_window_lookup _ _ _ Hroi).
    rewrite Hbti. cbn.
    by rewrite (setitem_row_same_length _ _ _ _ Hroi Hlen).
  - subst new. rewrite list_insert_id by done. by rewrite insert_id.
Qed.

Lemma regress_loop_spec (ls : list Z) (regr : Np.matrix) :
  p <> r -> p <> l ->
  forall (m k : nat) (cur : Np.matrix) (σ : heap),
    σ !! l = Some (Np.Int1 ls) ->
    σ !! r = Some (Np.Float2 regr) ->
    σ !! p = Some (Np.Float2 cur) ->
    (forall i, (k <= i < k + m)%nat ->
       exists roi d label new,
         cur !! i = Some roi /\ regr !! i = Some d /\ ls !! i = Some label /\
         row_result bbox_transform_inv roi d label new) ->
    exists cur',
      loop (seq k m) σ = (<[p := Np.Float2 cur']> σ, Ok tt) /\
      length cur' = length cur /\
      (forall i, ~ (k <= i < k + m)%nat -> cur' !! i = cur !! i) /\
      (forall i roi d label new,
         (k <= i < k + m)%nat ->
         cur !! i = Some roi -> regr !! i = Some d -> ls !! i = Some label ->
         row_result bbox_transform_inv roi d label new -> cur' !! i = Some new).
Proof.
  intros Hpr Hpl. induction m as [|m IH]; intros k cur σ Hl Hr Hp Hrows.
  - exists cur. cbn. rewrite insert_id by done.
    split; [done|]. split; [done|]. split; [done|]. intros; lia.
  - destruct (Hrows k ltac:(lia)) as (roi & d & label & new & Hroi & Hd & Hlab & Hnew).
    cbn [seq regress_loop].
    unfold read_int1. rewrite Hl. cbn. rewrite Hlab. cbn.
    rewrite (regress_one_spec σ k label cur regr roi d new) by done.
    set (cur1 := <[k := new]> cur).
    set (σ1 := <[p := Np.Float2 cur1]> σ).
    destruct (IH (S k) cur1 σ1) as (cur' & Hloop & Hlen & Hout & Hin).
    + subst σ1. by rewrite lookup_insert_ne.
    + subst σ1. by rewrite lookup_insert_ne.
    + subst σ1. by rewrite lookup_insert_eq.
    + intros i Hi. destruct (Hrows i ltac:(lia)) as (roi' & d' & label' & new' & ? & ? & ? & ?).
      exists roi', d', label', new'. subst cur1.
      rewrite list_lookup_insert_ne by lia. done.
    + exists cur'. rewrite Hloop. subst σ1. rewrite insert_insert_eq.
      split; [done|]. split; [by rewrite Hlen; subst cur1; rewrite length_insert|].
      split.
      * intros i Hi. rewrite Hout by lia. subst cur1.
        by rewrite list_lookup_insert_ne by lia.
      * intros i roi' d' label' new' Hi Hroi' Hd' Hlab' Hnew'.
        destruct (decide (i = k)) as [->|Hne].
        -- rewrite Hout by lia. subst cur1.
           rewrite list_lookup_insert_eq by (by eapply lookup_lt_Some).
           simplify_eq. f_equal.
           unfold row_result in *. destruct (0 <? label); [|congruence].
           destruct Hnew as [H1 _], Hnew' as [H2 _]. congruence.
        -- eapply Hin; eauto; [lia|]. subst cur1.
           by rewrite list_lookup_insert_ne by lia.
Qed.

End RegressRoisFacts.

(** ** The class of a box *)


Lemma argmax_from_spec (xs pre : list Q) (best : Q) (besti : nat) :
  pre !! besti = Some best ->
  (forall j y, pre !! j = Some y -> (y <= best)%Q) ->
  (forall j y, pre !! j = Some y -> (j < besti)%nat -> (y < best)%Q) ->
  is_argmax (pre ++ xs) (Np.argmax_from best besti (length pre) xs).
Proof.
  revert pre best besti.
  induction xs as [|x xs IH]; intros pre best besti Hbest Hmax Hfirst.
  - rewrite app_nil_r. by exists best.
  - cbn. specialize (IH (pre ++ [x])).
    rewrite length_app, Nat.add_1_r, <- app_assoc in IH. cbn in IH.
    destruct (Qle_bool x best) eqn:E.
    + apply Qle_bool_iff in E. apply IH.
      * by apply lookup_app_l_Some.
      * intros j y Hj. apply lookup_app_Some in Hj as [Hj|[_ Hj]]; [by eauto|].
        apply list_lookup_singleton_Some in Hj as [_ <-]. done.
      * intros j y Hj Hlt. apply lookup_app_Some in Hj as [Hj|[Hge _]]; [by eauto|].
        apply lookup_lt_Some in Hbest. lia.
    + assert (best < x)%Q as Hlt.
      { apply Qnot_le_lt. intros Hle. apply Qle_bool_iff in Hle. congruence. }
      apply IH.
      * by apply list_lookup_middle.
      * intros j y Hj. apply lookup_app_Some in Hj as [Hj|[_ Hj]].
        -- apply Qlt_le_weak. eapply Qle_lt_trans; [|exact Hlt]. by eauto.
        -- apply list_lookup_singleton_Some in Hj as [_ <-]. apply Qle_refl.
      * intros j y Hj Hj'. apply lookup_app_Some in Hj as [Hj|[Hge _]]; [|lia].
        eapply Qle_lt_trans; [|exact Hlt]. by eauto.
Qed.

Lemma argmax_spec (xs : list Q) :
  xs <> [] -> exists k, Np.argmax xs = Ok (Z.of_nat k) /\ is_argmax xs k.
Proof.
  destruct xs as [|x xs]; [done|]. intros _. eexists. split; [reflexivity|].
  apply (argmax_from_spec xs [x] x 0%nat); [done| |].
  - intros j y Hj. apply list_lookup_singleton_Some in Hj as [_ <-].
    apply Qle_refl.
  - intros j y _ Hj. lia.
Qed.

Lemma argmax_axis1_spec (cls : Np.matrix) :
  Forall (fun row => row <> []) cls ->
  exists ls,
    Np.argmax_axis1 cls = Ok ls /\
    length ls = length cls /\
    (forall i scores, cls !! i = Some scores ->
       exists k, ls !! i = Some (Z.of_nat k) /\ is_argmax scores k).
Proof.
  induction 1 as [|row cls Hrow _ (ls & Hls & Hlen & Hspec)].
  - exists []. by split.
  - destruct (argmax_spec row Hrow) as (k & Hk & Harg).
    exists (Z.of_nat k :: ls). cbn. rewrite Hk, Hls. cbn.
    split; [done|]. split; [by rewrite Hlen|].
    intros [|i] scores Hi; cbn in *; [|by eauto].
    injection Hi as <-. by exists k.
Qed.

(** C1.  On the outputs of the network for n proposals and K classes
    (separate arrays of shapes (n, K), (n, 4) and (n, 4K)), the labels are
    the per-row argmax of the class scores, and the proposals array ends up
    with row i replaced by [bbox_transform_inv] of that row and of columns
    4*label .. 4*label+3 of row i of the regression factors when the label is
    positive, and with row i as it was when the label is 0. *)
Theorem inference_box_regressor
    (bbox_transform_inv : Np.matrix -> Np.matrix -> result Np.matrix)
    (σ : heap) (c p r : loc) (cls rois regr : Np.matrix) (K : nat) :
  σ !! c = Some (Np.Float2 cls) ->
  σ !! p = Some (Np.Float2 rois) ->
  σ !! r = Some (Np.Float2 regr) ->
  p <> r ->
  length cls = length rois -> length regr = length rois ->
  (0 < K)%nat ->
  Forall (fun row => length row = K) cls ->
  Forall (fun row => length row = 4%nat) rois ->
  Forall (fun row => length row = (4 * K)%nat) regr ->
  (forall box d, length box = 4%nat -> length d = 4%nat ->
     exists b, bbox_transform_inv [box] [d] = Ok [b] /\ length b = 4%nat) ->
  exists σ' l ls rois',
    regress_with_argmax bbox_transform_inv c p r σ = (σ', Ok (l, p)) /\
    σ' !! l = Some (Np.Int1 ls) /\
    σ' !! p = Some (Np.Float2 rois') /\
    length ls = length rois /\ length rois' = length rois /\
    forall i scores roi d,
      cls !! i = Some scores -> rois !! i = Some roi -> regr !! i = Some d ->
      exists label,
        ls !! i = Some (Z.of_nat label) /\
        is_argmax scores label /\
        (label = 0%nat -> rois' !! i = Some roi) /\
        ((0 < label)%nat ->
           length (take 4 (drop (4 * label) d)) = 4%nat /\
           exists b,
             bbox_transform_inv [roi] [take 4 (drop (4 * label) d)] = Ok [b] /\
             rois' !! i = Some b).
Proof.
  intros Hc Hp Hr Hpr Hlc Hlr HK Hcls Hrois Hregr Hbti.
  destruct (argmax_axis1_spec cls) as (ls & Hls & Hlen & Harg).
  { eapply Forall_impl; [exact Hcls|]. intros [|] ?; cbn in *; [lia|done]. }
  unfold regress_with_argmax, read_float2. rewrite Hc. cbn. rewrite Hls.
  unfold alloc. set (l := fresh (dom σ)).
  assert (σ !! l = None) as Hfresh.
  { apply not_elem_of_dom. apply is_fresh. }
  assert (p <> l) as Hpl by congruence.
  assert (r <> l) as Hrl by congruence.
  set (σ1 := <[l := Np.Int1 ls]> σ).
  (* the slice of a row of regression factors for a class below K *)
  assert (Hslice : forall i d k scores,
            regr !! i = Some d -> cls !! i = Some scores -> is_argmax scores k ->
            length (take 4 (drop (4 * k) d)) = 4%nat).
  { intros i d k scores Hd Hs (m & Hk & _).
    apply lookup_lt_Some in Hk.
    rewrite (Forall_lookup_1 _ _ _ _ Hcls Hs) in Hk.
    rewrite length_take, length_drop, (Forall_lookup_1 _ _ _ _ Hregr Hd). lia. }
  destruct (regress_loop_spec bbox_transform_inv p r l ls regr Hpr Hpl
              (length ls) 0 rois σ1) as (rois' & Hloop & Hlen' & _ & Hin).
  { subst σ1. by rewrite lookup_insert_eq. }
  { subst σ1. by rewrite lookup_insert_ne. }
  { subst σ1. by rewrite lookup_insert_ne. }
  { intros i Hi.
    destruct (lookup_lt_is_Some_2 rois i) as [roi Hroi]; [lia|].
    destruct (lookup_lt_is_Some_2 regr i) as [d Hd]; [lia|].
    destruct (lookup_lt_is_Some_2 cls i) as [scores Hs]; [lia|].
    destruct (Harg i scores Hs) as (k & Hk & Hmax).
    destruct (Z.ltb_spec 0 (Z.of_nat k)) as [Hpos|Hnp].
    - destruct (Hbti roi (take 4 (drop (4 * k) d))) as (b & Hb & Hlb).
      { by eapply (Forall_lookup_1 _ _ _ _ Hrois). }
      { by eapply Hslice. }
      exists roi, d, (Z.of_nat k), b.
      split; [done|]. split; [done|]. split; [done|].
      unfold row_result. rewrite Nat2Z.id, (proj2 (Z.ltb_lt _ _) Hpos).
      split; [done|]. rewrite Hlb. symmetry.
      by eapply (Forall_lookup_1 _ _ _ _ Hrois).
    - exists roi, d, (Z.of_nat k), roi.
      split; [done|]. split; [done|]. split; [done|].
      unfold row_result. by rewrite (proj2 (Z.ltb_ge _ _) Hnp). }
  exists (<[p := Np.Float2 rois']> σ1), l, ls, rois'.
  split.
  { unfold regress_rois, read_int1. fold σ1.
    assert (σ1 !! l = Some (Np.Int1 ls)) as -> by (subst σ1; by rewrite lookup_insert_eq).
    by rewrite Hloop. }
  split. { subst σ1. rewrite lookup_insert_ne by done. by rewrite lookup_insert_eq. }
  split. { by rewrite lookup_insert_eq. }
  split; [lia|]. split; [done|].
  intros i scores roi d Hs Hroi Hd.
  destruct (Harg i scores Hs) as (k & Hk & Hmax).
  exists k. split; [done|]. split; [done|].
  assert (0 <= i < 0 + length ls)%nat as Hi by (apply lookup_lt_Some in Hk; lia).
  split.
  - intros ->. by eapply (Hin i roi d 0 roi).
  - intros Hpos. split; [by eapply Hslice|].
    destruct (Hbti roi (take 4 (drop (4 * k) d))) as (b & Hb & Hlb).
    { by eapply (Forall_lookup_1 _ _ _ _ Hrois). }
    { by eapply Hslice. }
    exists b. split; [done|].
    eapply (Hin i roi d (Z.of_nat k) b); try done.
    unfold row_result. rewrite Nat2Z.id.
    destruct (Z.ltb_spec 0 (Z.of_nat k)); [|lia].
    split; [done|]. rewrite Hlb. symmetry.
    by eapply (Forall_lookup_1 _ _ _ _ Hrois).
Qed.

(** ** The per-image loop of eval_faster_rcnn_mAP *)

Section EvalMAPFacts.

Variable bbox_transform_inv : Np.matrix -> Np.matrix -> result Np.matrix.
Variables (num_input_rois num_classes num_test_images : nat).
Variable next_minibatch : nat -> list Q.
Variable frcn_eval : nat -> eval_output.
Variable pdb_continue : nat -> bool.

Local Abbreviation image :=
  (eval_image bbox_transform_inv num_input_rois num_classes
     next_minibatch frcn_eval pdb_continue).
Local Abbreviation raised_before :=
  (raised_before_breakpoint bbox_transform_inv num_input_rois
     next_minibatch frcn_eval).
Local Abbreviation images_loop :=
  (eval_loop bbox_transform_inv num_input_rois num_classes
     next_minibatch frcn_eval pdb_continue).


Lemma accumulate_events (σ : heap) (regressed_rois : loc) (i : nat)
    (js : list nat) (all_boxes : table) :
  Forall (fun ev => exists j, ev = Accumulate i j)
    (accumulate σ regressed_rois i js all_boxes).1.2.
Proof.
  revert all_boxes. induction js as [|j js IH]; intros all_boxes; cbn.
  - constructor.
  - match goal with
    | |- context [match ?scrut with Ok _ => _ | Raise _ => _ end] =>
        destruct scrut as [v|e]
    end; cbn.
    + specialize (IH (table_set all_boxes j i v)).
      destruct (accumulate _ _ _ _ _) as [[ab tr] res]. cbn in *.
      constructor; [by eexists|done].
    + constructor; [by eexists|constructor].
Qed.

(** Joining the regressed proposals, a 2-D array, with a column of scores,
    a 1-D array, is refused by numpy: the first class already ends the pass
    and the table is not written. *)
Lemma accumulate_rank_mismatch (σ : heap) (regressed_rois : loc) (i j : nat)
    (js : list nat) (all_boxes : table) (rr : Np.matrix) :
  σ !! regressed_rois = Some (Np.Float2 rr) ->
  exists e,
    accumulate σ regressed_rois i (j :: js) all_boxes =
      (all_boxes, [Accumulate i j], Raise e).
Proof.
  intros Hrr. cbn. rewrite Hrr.
  destruct (read_float2 σ cls_loc) as [cls|e]; cbn; [|by eexists].
  destruct (Np.column cls j) as [col|e]; cbn; by eexists.
Qed.

(** The shape of the trace of one pass through the body. *)
Lemma eval_image_trace (i : nat) (all_boxes : table) :
  (exists e, (image i all_boxes).2 = Raise e /\ raised_before i e /\
     ((image i all_boxes).1.2 = [NextMinibatch i] \/
      (image i all_boxes).1.2 = [NextMinibatch i; Eval i])) \/
  (exists acc,
     (image i all_boxes).1.2 = [NextMinibatch i; Eval i; SetTrace i] ++ acc /\
     Forall (fun ev => exists j, ev = Accumulate i j) acc).
Proof.
  unfold eval_image, raised_before_breakpoint.
  destruct (ground_truth_boxes _ _) as [gt|e]; cbn.
  2:{ left. exists e. split; [done|]. split; by left. }
  destruct (regress_with_argmax _ _ _ _ _) as [σ [[labels regressed]|e]]; cbn.
  2:{ left. exists e. split; [done|]. split; by right. }
  right. destruct (pdb_continue i).
  - pose proof (accumulate_events σ regressed i (seq 1 (num_classes - 1))
                  all_boxes) as Hacc.
    destruct (accumulate _ _ _ _ _) as [[ab tr] res]. cbn in *. by exists tr.
  - exists []. cbn. split; [done|constructor].
Qed.

Lemma eval_image_facts (i : nat) (all_boxes : table) :
  let tr := (image i all_boxes).1.2 in
  let res := (image i all_boxes).2 in
  (forall i', NextMinibatch i' ∈ tr -> i' = i) /\
  (SetTrace i ∈ tr \/ exists e, res = Raise e /\ raised_before i e) /\
  (forall n i' j, tr !! n = Some (Accumulate i' j) ->
     exists m, (m < n)%nat /\ tr !! m = Some (SetTrace i')).
Proof.
  cbv zeta.
  destruct (eval_image_trace i all_boxes)
    as [(e & Hres & Hraise & [-> | ->]) | (acc & -> & Hacc)].
  - split; [|split].
    + intros i' Hin. apply list_elem_of_singleton in Hin. congruence.
    + right. by exists e.
    + intros n i' j Hn. destruct n as [|n]; [done|]. by destruct n.
  - split; [|split].
    + intros i' Hin. apply elem_of_cons in Hin as [Hin|Hin]; [congruence|].
      apply list_elem_of_singleton in Hin. done.
    + right. by exists e.
    + intros n i' j Hn. do 2 (destruct n as [|n]; [done|]). by destruct n.
  - split; [|split].
    + intros i' Hin. cbn in Hin.
      apply elem_of_cons in Hin as [Hin|Hin]; [congruence|].
      apply elem_of_cons in Hin as [Hin|Hin]; [done|].
      apply elem_of_cons in Hin as [Hin|Hin]; [done|].
      rewrite Forall_forall in Hacc. by destruct (Hacc _ Hin) as [j ?].
    + left. cbn. apply elem_of_cons. right. apply elem_of_cons. right.
      apply elem_of_cons. by left.
    + intros n i' j Hn. do 3 (destruct n as [|n]; [done|]). cbn in Hn.
      apply list_elem_of_lookup_2 in Hn. rewrite Forall_forall in Hacc.
      destruct (Hacc _ Hn) as [j' [= -> _]].
      exists 2%nat. split; [lia|done].
Qed.

Lemma eval_loop_facts (images : list nat) (all_boxes : table) :
  let tr := (images_loop images all_boxes).1.2 in
  let res := (images_loop images all_boxes).2 in
  (forall i, NextMinibatch i ∈ tr ->
     SetTrace i ∈ tr \/ exists e, res = Raise e /\ raised_before i e) /\
  (forall n i j, tr !! n = Some (Accumulate i j) ->
     exists m, (m < n)%nat /\ tr !! m = Some (SetTrace i)).
Proof.
  cbv zeta. revert all_boxes.
  induction images as [|i0 images IH]; intros all_boxes; cbn.
  { split; [intros i Hi; by apply elem_of_nil in Hi|].
    intros n i j Hn. by rewrite lookup_nil in Hn. }
  destruct (eval_image_facts i0 all_boxes) as (Hnm & Hbp & Hord).
  destruct (image i0 all_boxes) as [[ab1 tr1] res1]. cbn in *.
  destruct res1 as [[]|e]; cbn.
  - specialize (IH ab1).
    destruct (images_loop images ab1) as [[ab' tr'] res']. cbn in *.
    destruct IH as [IHa IHb].
    destruct Hbp as [Hbp|(e & ? & _)]; [|done].
    split.
    + intros i Hi. apply elem_of_app in Hi as [Hi|Hi].
      * rewrite (Hnm i Hi). left. apply elem_of_app. by left.
      * destruct (IHa i Hi) as [Hs|Hr]; [|by right].
        left. apply elem_of_app. by right.
    + intros n i j Hn. apply lookup_app_Some in Hn as [Hn|[Hge Hn]].
      * destruct (Hord n i j Hn) as (m & Hm & Hst).
        exists m. split; [done|]. by apply lookup_app_l_Some.
      * destruct (IHb _ i j Hn) as (m & Hm & Hst).
        exists (length tr1 + m)%nat. split; [lia|].
        rewrite lookup_app_r by lia.
        by replace (length tr1 + m - length tr1)%nat with m by lia.
  - split; [|done].
    intros i Hi. rewrite (Hnm i Hi). destruct Hbp as [Hbp|Hbp]; [by left|by right].
Qed.

(** C3.  In every run of [eval_faster_rcnn_mAP], each image whose pass
    through the loop body begins either has a statement before line 709
    raise, which ends the run, or reaches [pdb.set_trace()]; and every
    attempt to accumulate detections of an image comes after the breakpoint
    of that image.  When the map files exist and there is a test image, the
    pass for image 0 does begin. *)
Theorem mAP_loop_reaches_breakpoint
    (fs : gset string) (img_map_file roi_map_file : string) :
  let run := eval_faster_rcnn_mAP bbox_transform_inv num_input_rois num_classes
               num_test_images next_minibatch frcn_eval pdb_continue
               fs img_map_file roi_map_file in
  (forall i, NextMinibatch i ∈ run.1.2 ->
     SetTrace i ∈ run.1.2 \/
     exists e, run.2 = Raise e /\
       raised_before_breakpoint bbox_transform_inv num_input_rois
         next_minibatch frcn_eval i e) /\
  (forall n i j, run.1.2 !! n = Some (Accumulate i j) ->
     exists m, (m < n)%nat /\ run.1.2 !! m = Some (SetTrace i)) /\
  (img_map_file ∈ fs -> roi_map_file ∈ fs -> (0 < num_test_images)%nat ->
     run.1.2 !! 0%nat = Some (NextMinibatch 0)).
Proof.
  cbv zeta. unfold eval_faster_rcnn_mAP, Reader.create_mb_source.
  destruct (negb (bool_decide (img_map_file ∈ fs))
            || negb (bool_decide (roi_map_file ∈ fs))) eqn:Hfiles; cbn.
  - split; [intros i Hi; by apply elem_of_nil in Hi|].
    split; [intros n i j Hn; by rewrite lookup_nil in Hn|].
    intros Hi Hr _. apply orb_true_iff in Hfiles.
    rewrite !negb_true_iff, !bool_decide_eq_false in Hfiles. tauto.
  - set (all_boxes := replicate num_classes (replicate num_test_images None)).
    destruct (eval_loop_facts (seq 0 num_test_images) all_boxes) as [Ha Hb].
    split; [done|]. split; [done|].
    intros _ _ Hn. destruct num_test_images as [|n]; [lia|]. cbn.
    destruct (eval_image_trace 0 all_boxes)
      as [(e & Hres & _ & [Htr | Htr]) | (acc & Htr & _)];
      destruct (image 0%nat all_boxes) as [[ab1 tr1] res1]; cbn in *; subst tr1.
    + by rewrite Hres.
    + by rewrite Hres.
    + destruct res1 as [[]|e]; [|done].
      by destruct (images_loop _ _) as [[? ?] ?].
Qed.

End EvalMAPFacts.

(** ** The statements on the example data *)

Lemma bbox_transform_inv_single (box d : list Q) :
  length box = 4%nat -> length d = 4%nat ->
  exists b, ex_bbox_transform_inv [box] [d] = Ok [b] /\ length b = 4%nat.
Proof.
  intros Hb Hd.
  destruct box as [|x1 [|y1 [|x2 [|y2 [|? ?]]]]]; try done.
  destruct d as [|dx [|dy [|dw [|dh [|? ?]]]]]; try done.
  unfold ex_bbox_transform_inv, BBoxTransform.bbox_transform_inv,
    BBoxTransform.decode_row.
  destruct (BBoxTransform.decodeDelta _ (x1, y1, x2, y2) (dx, dy, dw, dh))
    as [[[a b] c] e].
  by eexists.
Qed.

Lemma inference_box_regressor_witness :
  exists σ' l ls rois',
    regress_with_argmax ex_bbox_transform_inv
      1%positive 2%positive 3%positive ex_store = (σ', Ok (l, 2%positive)) /\
    σ' !! l = Some (Np.Int1 ls) /\
    σ' !! 2%positive = Some (Np.Float2 rois') /\
    length ls = length ex_rois /\ length rois' = length ex_rois /\
    forall i scores roi d,
      ex_cls !! i = Some scores -> ex_rois !! i = Some roi ->
      ex_regr !! i = Some d ->
      exists label,
        ls !! i = Some (Z.of_nat label) /\
        is_argmax scores label /\
        (label = 0%nat -> rois' !! i = Some roi) /\
        ((0 < label)%nat ->
           length (take 4 (drop (4 * label) d)) = 4%nat /\
           exists b,
             ex_bbox_transform_inv [roi]
               [take 4 (drop (4 * label) d)] = Ok [b] /\
             rois' !! i = Some b).
Proof.
  apply (inference_box_regressor ex_bbox_transform_inv ex_store
           1%positive 2%positive 3%positive ex_cls ex_rois ex_regr 2).
  - reflexivity.
  - reflexivity.
  - reflexivity.
  - discriminate.
  - reflexivity.
  - reflexivity.
  - lia.
  - repeat constructor.
  - repeat constructor.
  - repeat constructor.
  - exact bbox_transform_inv_single.
Defined.

Lemma regress_rois_without_foreground_witness :
  regress_rois ex_bbox_transform_inv
    2%positive 3%positive 4%positive ex_store_background
  = (ex_store_background, Ok 2%positive).
Proof.
  apply (regress_rois_without_foreground ex_bbox_transform_inv
           2%positive 3%positive 4%positive ex_store_background [0; -1]).
  - reflexivity.
  - intros x Hx. apply elem_of_cons in Hx as [->|Hx]; [lia|].
    apply elem_of_cons in Hx as [->|Hx]; [lia|]. by apply elem_of_nil in Hx.
Defined.

(** With a foreground label the proposals array that was passed in is
    overwritten, so the store after the call differs from the store before
    it, the array of which the proposals are element 0 shows the new row as
    well, and a second call on the same objects regresses the first row once
    more. *)
Lemma regress_rois_overwrites_proposals :
  let call := regress_rois ex_bbox_transform_inv
                2%positive 3%positive 4%positive in
  ex_store_labelled !! 2%positive =
    Some (Np.Float2 [[0; 0; 9; 9]; [1; 2; 3; 4]]%Q) /\
  call ex_store_labelled =
    (<[2%positive := Np.Float2 [[9; 0; 18; 9]; [1; 2; 3; 4]]%Q]>
       ex_store_labelled, Ok 2%positive) /\
  (call ex_store_labelled).1 !! 2%positive <> ex_store_labelled !! 2%positive /\
  read_object ex_store_labelled (Batch 2%positive) =
    Some (Batched [Np.Float2 [[0; 0; 9; 9]; [1; 2; 3; 4]]%Q]) /\
  read_object (call ex_store_labelled).1 (Batch 2%positive) =
    Some (Batched [Np.Float2 [[9; 0; 18; 9]; [1; 2; 3; 4]]%Q]) /\
  (call (call ex_store_labelled).1).1 !! 2%positive =
    Some (Np.Float2 [[18; 0; 27; 9]; [1; 2; 3; 4]]%Q).
Proof.
  cbv zeta. split; [reflexivity|]. split; [by vm_compute|].
  split; [vm_compute; discriminate|].
  split; [reflexivity|]. split; by vm_compute.
Qed.

(** The regression factors keep their contents; the proposals of the
    example are changed, and so is the array of which they are a view. *)
Lemma regress_rois_writes_proposals_only_witness :
  (regress_rois ex_bbox_transform_inv
     2%positive 3%positive 4%positive ex_store_labelled).1 !! 3%positive
  = Some (Np.Float2 ex_regr) /\
  read_object
    (regress_rois ex_bbox_transform_inv
       2%positive 3%positive 4%positive ex_store_labelled).1 (Batch 2%positive)
  <> read_object ex_store_labelled (Batch 2%positive).
Proof.
  destruct (regress_rois_writes_proposals_only ex_bbox_transform_inv
              2%positive 3%positive 4%positive ex_store_labelled)
    as (Hframe & _ & _ & _ & Hshared & _).
  split.
  - transitivity (ex_store_labelled !! 3%positive); [|reflexivity].
    apply Hframe. discriminate.
  - apply Hshared; [reflexivity|]. vm_compute. discriminate.
Defined.

Lemma mAP_loop_reaches_breakpoint_witness :
  let run := eval_faster_rcnn_mAP ex_bbox_transform_inv 1 2 2
               (fun _ => [10; 10; 50; 50; 2]%Q) (fun _ => ex_output)
               (fun _ => true) ex_files "test.imgMap.txt" "test.GTRois.txt" in
  run.1.2 !! 0%nat = Some (NextMinibatch 0) /\
  run.1.2 = [NextMinibatch 0; Eval 0; SetTrace 0; Accumulate 0 1].
Proof.
  cbv zeta. split; [|by vm_compute].
  apply (mAP_loop_reaches_breakpoint ex_bbox_transform_inv 1 2 2
           (fun _ => [10; 10; 50; 50; 2]%Q) (fun _ => ex_output)
           (fun _ => true) ex_files "test.imgMap.txt" "test.GTRois.txt").
  - unfold ex_files. apply elem_of_union. left. by apply elem_of_singleton.
  - unfold ex_files. apply elem_of_union. right. by apply elem_of_singleton.
  - lia.
Defined.

(** * Further properties *)

(** ** Resizing and padding, continued *)

Lemma rint_small (n d : Z) : 0 <= n -> 2 * n <= d -> Pad.rint n d = 0.
Proof.
  intros Hn Hd. destruct (Z.eq_dec n 0) as [->|Hne].
  { unfold Pad.rint. rewrite Zdiv_0_l, Zmod_0_l.
    destruct (Z.ltb_spec (2 * 0) d); [done|].
    destruct (Z.ltb_spec d (2 * 0)); [lia|done]. }
  unfold Pad.rint. rewrite Z.div_small, Z.mod_small by lia.
  destruct (Z.ltb_spec (2 * n) d); [done|].
  destruct (Z.ltb_spec d (2 * n)); [lia|done].
Qed.

(** Whatever the sizes, a padded image that is returned has the size that
    was asked for, and the only error of an image with rows is OpenCV's. *)
Lemma load_resize_and_pad_cases (iw ih w h : Z) :
  0 < ih ->
  (exists r, Pad.load_resize_and_pad iw ih w h = Ok r /\
     Pad.rows r = h /\ Pad.cols r = w) \/
  Pad.load_resize_and_pad iw ih w h = Raise CvError.
Proof.
  intros Hih. unfold Pad.load_resize_and_pad.
  destruct (Z.leb_spec ih 0) as [?|_]; [lia|].
  destruct (Pad.target_size iw ih w h) as [tw th].
  unfold Pad.cv2_resize.
  match goal with
  | |- context [if ?c then _ else _] => destruct c
  end; cbn [mbind result_bind]; [|by right].
  unfold Pad.cv2_copyMakeBorder.
  match goal with
  | |- context [if ?c then _ else _] => destruct c
  end; cbn [mbind result_bind]; [|by right].
  left. eexists. split; [done|]. cbn [Pad.rows Pad.cols fst snd]. lia.
Qed.

Lemma square_target_too_flat (iw ih s : Z) :
  0 < iw -> 0 < ih -> 0 < s ->
  2 * s * Z.min iw ih <= Z.max iw ih ->
  (Pad.target_size iw ih s s).1 = 0 \/ (Pad.target_size iw ih s s).2 = 0.
Proof.
  intros Hiw Hih Hs Hratio. unfold Pad.target_size.
  destruct (Z.ltb_spec ih iw) as [Hlt|Hge]; cbn [fst snd].
  - right. apply rint_small; nia.
  - left. apply rint_small; nia.
Qed.

(** X1.  For an image with at least one row and a target within the C ints,
    in the range where the embedding is exact, [load_resize_and_pad] returns
    exactly when the size the image is resized to is non-empty and fits into
    the target; in every other case it ends in an error, be the target
    positive or not. *)
Theorem load_resize_and_pad_returns_iff_fits (iw ih w h : Z) :
  0 < ih ->
  exact_sizes iw ih w h ->
  (exists r, Pad.load_resize_and_pad iw ih w h = Ok r) <->
  1 <= (Pad.target_size iw ih w h).1 <= w /\
  1 <= (Pad.target_size iw ih w h).2 <= h.
Proof.
  intros Hih (Hwmax & Hhmax & _ & _).
  pose proof (load_resize_and_pad_ok_iff iw ih w h Hih) as Hiff.
  destruct (Pad.load_resize_and_pad iw ih w h) as [r|e]; cbn in Hiff.
  - split; [intros _; by apply Hiff|]. by eexists.
  - split; [by intros [r ?]|]. intros Hfit.
    by pose proof (proj2 Hiff (conj Hfit (conj Hwmax Hhmax))).
Qed.

Lemma load_resize_and_pad_returns_iff_fits_witness :
  (exists r, Pad.load_resize_and_pad 1000 1 100 100 = Ok r) <->
  1 <= (Pad.target_size 1000 1 100 100).1 <= 100 /\
  1 <= (Pad.target_size 1000 1 100 100).2 <= 100.
Proof.
  apply (load_resize_and_pad_returns_iff_fits 1000 1 100 100); [lia|].
  unfold exact_sizes, Pad.INT_MAX. lia.
Defined.

(** X2.  What [eval_faster_rcnn_plot] feeds to the network: for an image
    whose longer side is less than 2000 times its shorter side, the array
    made from it has exactly the shape (3, 1000, 1000) of the input variable;
    for a flatter or narrower image the shorter side is resized to zero
    pixels and the call ends in OpenCV's error. *)
Theorem plot_input_matches_network_input (iw ih : Z) :
  0 < iw -> 0 < ih ->
  (Z.max iw ih < 2000 * Z.min iw ih ->
     PlotInput.cntk_img_input iw ih = Ok PlotInput.image_input) /\
  (2000 * Z.min iw ih <= Z.max iw ih ->
     PlotInput.cntk_img_input iw ih = Raise CvError).
Proof.
  intros Hiw Hih. unfold PlotInput.cntk_img_input.
  unfold Config.image_width, Config.image_height.
  split; intros Hratio.
  - destruct (square_target_fits iw ih 1000 Hiw Hih ltac:(lia) ltac:(lia))
      as [Hw Hh].
    destruct (load_resize_and_pad_cases iw ih 1000 1000 Hih)
      as [(r & Hr & Hrows & Hcols)|Herr].
    + rewrite Hr. cbn. unfold PlotInput.model_arg_rep. by rewrite Hrows, Hcols.
    + assert (1000 <= Pad.INT_MAX) as Hmax by (unfold Pad.INT_MAX; lia).
      pose proof (proj2 (load_resize_and_pad_ok_iff iw ih 1000 1000 Hih)
                    (conj (conj Hw Hh) (conj Hmax Hmax))) as Hok.
      by rewrite Herr in Hok.
  - destruct (load_resize_and_pad_cases iw ih 1000 1000 Hih)
      as [(r & Hr & _)|Herr]; [|by rewrite Herr].
    pose proof (proj1 (load_resize_and_pad_ok_iff iw ih 1000 1000 Hih)) as Hfit.
    rewrite Hr in Hfit. destruct (Hfit eq_refl) as [[Hw Hh] _].
    destruct (square_target_too_flat iw ih 1000 Hiw Hih ltac:(lia) ltac:(lia));
      lia.
Qed.

Lemma plot_input_matches_network_input_witness :
  PlotInput.cntk_img_input 640 480 = Ok [3; 1000; 1000].
Proof.
  apply (plot_input_matches_network_input 640 480); lia.
Defined.

(** ** regress_rois: the shape of the proposals *)

Lemma broadcast_row_length (m : nat) (v : Np.matrix) (row : list Q) :
  Np.broadcast_row m v = Ok row -> length row = m.
Proof.
  unfold Np.broadcast_row. destruct v as [|src [|? ?]]; try done.
  case_decide as Hlen; [by intros [= <-]|].
  destruct src as [|x [|? ?]]; try done.
  intros [= <-]. apply length_replicate.
Qed.

Section RegressRoisShape.

Variable bbox_transform_inv : Np.matrix -> Np.matrix -> result Np.matrix.
Variables p r l : loc.

Lemma same_shape_off_refl (rois : Np.matrix) : same_shape_off [] rois rois.
Proof. by split. Qed.

Lemma regress_one_shape (i : nat) (label : Z) (σ : heap) (rois : Np.matrix) :
  σ !! p = Some (Np.Float2 rois) ->
  exists rois',
    (regress_one bbox_transform_inv p r i label σ).1 !! p
      = Some (Np.Float2 rois') /\
    same_shape_off (if 0 <? label then [i] else []) rois rois'.
Proof.
  intros Hp. unfold regress_one.
  destruct (0 <? label); [|exists rois; split; [done|apply same_shape_off_refl]].
  assert (Hsame : exists rois',
            σ !! p = Some (Np.Float2 rois') /\ same_shape_off [i] rois rois').
  { exists rois. split; [done|]. by split. }
  destruct (read_float2 σ r) as [regr|e]; cbn; [|done].
  unfold read_float2. rewrite Hp. cbn.
  destruct (bbox_transform_inv _ _) as [v|e]; cbn; [|done].
  unfold Np.setitem_row. destruct (rois !! i) as [old|] eqn:Hold; [|done].
  destruct (Np.broadcast_row (length old) v) as [row|e] eqn:Hrow; cbn; [|done].
  exists (<[i := row]> rois). rewrite lookup_insert_eq. split; [done|]. split.
  - rewrite list_fmap_insert, (broadcast_row_length _ _ _ Hrow).
    apply list_insert_id. by rewrite list_lookup_fmap, Hold.
  - intros j Hj. apply list_lookup_insert_ne. intros ->. apply Hj. by left.
Qed.

Lemma regress_loop_shape (idx : list nat) (σ : heap) (rois : Np.matrix)
    (ls : list Z) :
  σ !! p = Some (Np.Float2 rois) ->
  σ !! l = Some (Np.Int1 ls) ->
  exists rois',
    (regress_loop bbox_transform_inv p r l idx σ).1 !! p
      = Some (Np.Float2 rois') /\
    length <$> rois' = length <$> rois /\
    forall j,
      (j ∉ idx \/ exists label, ls !! j = Some label /\ label <= 0) ->
      rois' !! j = rois !! j.
Proof.
  revert σ rois. induction idx as [|i idx IH]; intros σ rois Hp Hl; cbn.
  { exists rois. by repeat split. }
  unfold read_int1. rewrite Hl. cbn.
  destruct (ls !! i) as [label|] eqn:Hlabel; cbn.
  2:{ exists rois. by repeat split. }
  destruct (regress_one_shape i label σ rois Hp) as (rois1 & Hp1 & Hlen1 & Hrows1).
  pose proof (regress_one_labels bbox_transform_inv p r l i label σ ls Hl) as Hl1.
  destruct (regress_one bbox_transform_inv p r i label σ) as [σ1 [[]|e]];
    cbn in Hp1, Hl1 |- *.
  - destruct (IH σ1 rois1 Hp1 Hl1) as (rois' & Hp' & Hlen' & Hrows').
    exists rois'. split; [done|]. split; [congruence|].
    intros j Hj. rewrite Hrows'.
    + apply Hrows1. destruct (Z.ltb_spec 0 label) as [Hpos|Hneg]; [|by apply not_elem_of_nil].
      intros Hin. apply list_elem_of_singleton in Hin as ->.
      destruct Hj as [Hj|(label' & Hl' & Hle)]; [apply Hj; by left|].
      rewrite Hlabel in Hl'. injection Hl' as <-. lia.
    + destruct Hj as [Hj|Hj]; [left|by right].
      intros Hin. apply Hj. by right.
  - exists rois1. split; [done|]. split; [done|].
    intros j Hj. apply Hrows1.
    destruct (Z.ltb_spec 0 label) as [Hpos|Hneg]; [|by apply not_elem_of_nil].
    intros Hin. apply list_elem_of_singleton in Hin as ->.
    destruct Hj as [Hj|(label' & Hl' & Hle)]; [apply Hj; by left|].
    rewrite Hlabel in Hl'. injection Hl' as <-. lia.
Qed.

(** X3.  Whatever [bbox_transform_inv] returns and however the call ends,
    after [regress_rois] the proposals are still a 2-D array with the same
    number of rows and the same row lengths, and every row whose label is
    not positive, or that has no label, holds exactly what it held. *)
Theorem regress_rois_keeps_shape (σ : heap) (rois : Np.matrix) :
  σ !! p = Some (Np.Float2 rois) ->
  exists rois',
    (regress_rois bbox_transform_inv p r l σ).1 !! p = Some (Np.Float2 rois') /\
    length <$> rois' = length <$> rois /\
    forall j,
      (forall ls label,
         σ !! l = Some (Np.Int1 ls) -> ls !! j = Some label -> label <= 0) ->
      rois' !! j = rois !! j.
Proof.
  intros Hp. unfold regress_rois, read_int1.
  destruct (σ !! l) as [[xs|rows|ls]|] eqn:Hl; cbn;
    try (exists rois; by repeat split).
  destruct (regress_loop_shape (seq 0 (length ls)) σ rois ls Hp Hl)
    as (rois' & Hp' & Hlen & Hrows).
  exists rois'. split.
  { by destruct (regress_loop _ _ _ _ _ σ) as [σ' [[]|e]]. }
  split; [done|]. intros j Hj. apply Hrows.
  destruct (ls !! j) as [label|] eqn:Hlabel.
  - right. exists label. split; [done|]. by eapply Hj.
  - left. intros Hin. apply elem_of_seq in Hin.
    apply lookup_ge_None in Hlabel. lia.
Qed.

End RegressRoisShape.

Lemma regress_rois_keeps_shape_witness :
  exists rois',
    (regress_rois ex_bbox_transform_inv 2%positive 3%positive 4%positive
       ex_store_labelled).1 !! 2%positive = Some (Np.Float2 rois') /\
    length <$> rois' = length <$> ex_rois /\
    forall j,
      (forall ls label,
         ex_store_labelled !! 4%positive = Some (Np.Int1 ls) ->
         ls !! j = Some label -> label <= 0) ->
      rois' !! j = ex_rois !! j.
Proof.
  apply (regress_rois_keeps_shape ex_bbox_transform_inv
           2%positive 3%positive 4%positive ex_store_labelled ex_rois).
  reflexivity.
Defined.

(** ** eval_faster_rcnn_mAP: how a run ends *)

Lemma regress_with_argmax_returns
    (bbox_transform_inv : Np.matrix -> Np.matrix -> result Np.matrix)
    (c p r : loc) (σ σ' : heap) (rois : Np.matrix) (labels v : loc) :
  σ !! p = Some (Np.Float2 rois) ->
  regress_with_argmax bbox_transform_inv c p r σ = (σ', Ok (labels, v)) ->
  v = p /\ exists rois', σ' !! p = Some (Np.Float2 rois').
Proof.
  intros Hp. unfold regress_with_argmax.
  destruct (read_float2 σ c ≫= Np.argmax_axis1) as [ls|e]; [|done].
  unfold alloc. set (l := fresh (dom σ)).
  assert (σ !! l = None) as Hfresh by (apply not_elem_of_dom, is_fresh).
  assert (l <> p) as Hlp by congruence.
  set (σ1 := <[l := Np.Int1 ls]> σ).
  assert (σ1 !! p = Some (Np.Float2 rois)) as Hp1.
  { subst σ1. by rewrite lookup_insert_ne. }
  assert (σ1 !! l = Some (Np.Int1 ls)) as Hl1.
  { subst σ1. by rewrite lookup_insert_eq. }
  unfold regress_rois, read_int1. rewrite Hl1.
  destruct (regress_loop_shape bbox_transform_inv p r l (seq 0 (length ls))
              σ1 rois ls Hp1 Hl1) as (rois' & Hp' & _).
  destruct (regress_loop _ _ _ _ _ σ1) as [σ2 [[]|e]]; [|done].
  intros [= <- <- <-]. split; [done|]. by exists rois'.
Qed.

Lemma output_heap_rois (o : eval_output) :
  output_heap o !! rois_loc = Some (Np.Float2 (out_rpn_rois o)).
Proof.
  unfold output_heap. rewrite lookup_insert_ne by done. apply lookup_insert_eq.
Qed.

Section EvalMAPEnds.

Variable bbox_transform_inv : Np.matrix -> Np.matrix -> result Np.matrix.
Variables (num_input_rois num_classes num_test_images : nat).
Variable next_minibatch : nat -> list Q.
Variable frcn_eval : nat -> eval_output.
Variable pdb_continue : nat -> bool.

Hypothesis Hclasses : (2 <= num_classes)%nat.

(** With a class besides the background, no pass through the loop body
    comes to its end: it raises, and the table is as it was. *)
Lemma eval_image_raises (i : nat) (all_boxes : table) :
  exists tr e,
    eval_image bbox_transform_inv num_input_rois num_classes
      next_minibatch frcn_eval pdb_continue i all_boxes
    = (all_boxes, tr, Raise e) /\
    forall i', NextMinibatch i' ∈ tr -> i' = i.
Proof.
  unfold eval_image.
  destruct (ground_truth_boxes _ _) as [gt|e].
  2:{ eexists _, _. split; [done|]. intros i' Hin.
      apply list_elem_of_singleton in Hin. congruence. }
  destruct (regress_with_argmax _ _ _ _ _) as [σ [[labels regressed]|e]] eqn:Hrun.
  2:{ eexists _, _. split; [done|]. intros i' Hin.
      apply elem_of_cons in Hin as [Hin|Hin]; [congruence|].
      by apply list_elem_of_singleton in Hin. }
  destruct (regress_with_argmax_returns _ _ _ _ _ _ _ _ _
              (output_heap_rois (frcn_eval i)) Hrun)
    as (-> & rois' & Hrois').
  assert (Hnm : forall (tr : list event) i',
            NextMinibatch i' ∈ [NextMinibatch i; Eval i; SetTrace i] ++ tr ->
            Forall (fun ev => exists j, ev = Accumulate i j) tr -> i' = i).
  { intros tr i' Hin Hacc. cbn in Hin.
    apply elem_of_cons in Hin as [Hin|Hin]; [congruence|].
    apply elem_of_cons in Hin as [Hin|Hin]; [done|].
    apply elem_of_cons in Hin as [Hin|Hin]; [done|].
    rewrite Forall_forall in Hacc. by destruct (Hacc _ Hin) as [j ?]. }
  destruct (pdb_continue i).
  - destruct num_classes as [|[|n]]; [lia..|]. cbn [Nat.sub seq].
    destruct (accumulate_rank_mismatch σ rois_loc i 1 (seq 2 (n - 0)) all_boxes
                rois' Hrois') as [e He].
    replace (S n - 0)%nat with (S n) by lia. cbn [seq].
    replace (n - 0)%nat with n in He by lia. rewrite He.
    eexists _, _. split; [done|]. intros i' Hin. apply (Hnm _ _ Hin).
    constructor; [by eexists|constructor].
  - eexists _, _. split; [done|]. intros i' Hin. apply (Hnm [] _ Hin).
    constructor.
Qed.

(** X4.  With two or more classes, a run of [eval_faster_rcnn_mAP] over at
    least one test image never returns: it ends in an exception during the
    first image at the latest, no later image is begun, and no cell of the
    table of detections has been written. *)
Theorem mAP_evaluation_never_completes
    (fs : gset string) (img_map_file roi_map_file : string) :
  let run := eval_faster_rcnn_mAP bbox_transform_inv num_input_rois num_classes
               num_test_images next_minibatch frcn_eval pdb_continue
               fs img_map_file roi_map_file in
  ((0 < num_test_images)%nat -> exists e, run.2 = Raise e) /\
  (forall i, NextMinibatch i ∈ run.1.2 -> i = 0%nat) /\
  (forall row cell, row ∈ run.1.1 -> cell ∈ row -> cell = None).
Proof.
  cbv zeta. unfold eval_faster_rcnn_mAP.
  destruct (Reader.create_mb_source _ _ _ _ _ _ _ _) as [ctors [src|e]]; cbn.
  2:{ split; [by eexists|]. split.
      - intros i Hi. by apply elem_of_nil in Hi.
      - intros row cell Hrow. by apply elem_of_nil in Hrow. }
  set (all_boxes := replicate num_classes (replicate num_test_images None)).
  assert (Hempty : forall row cell, row ∈ all_boxes -> cell ∈ row -> cell = None).
  { intros row cell Hrow Hcell. subst all_boxes.
    apply elem_of_replicate in Hrow as [-> _].
    by apply elem_of_replicate in Hcell as [-> _]. }
  destruct num_test_images as [|n]; cbn.
  { split; [lia|]. split; [|done]. intros i Hi. by apply elem_of_nil in Hi. }
  destruct (eval_image_raises 0 all_boxes) as (tr & e & -> & Hnm). cbn.
  split; [by eexists|]. by split.
Qed.

End EvalMAPEnds.

Lemma mAP_evaluation_never_completes_witness :
  let run := eval_faster_rcnn_mAP ex_bbox_transform_inv 1 2 2
               (fun _ => [10; 10; 50; 50; 2]%Q) (fun _ => ex_output)
               (fun _ => true) ex_files "test.imgMap.txt" "test.GTRois.txt" in
  ((0 < 2)%nat -> exists e, run.2 = Raise e) /\
  (forall i, NextMinibatch i ∈ run.1.2 -> i = 0%nat) /\
  (forall row cell, row ∈ run.1.1 -> cell ∈ row -> cell = None).
Proof.
  apply (mAP_evaluation_never_completes ex_bbox_transform_inv 1 2 2
           (fun _ => [10; 10; 50; 50; 2]%Q) (fun _ => ex_output)
           (fun _ => true)).
  lia.
Defined.

(** ** train_model: counting samples *)

Lemma minibatches_asked_app (tr tr' : list train_event) :
  minibatches_asked (tr ++ tr') = minibatches_asked tr ++ minibatches_asked tr'.
Proof. apply omap_app. Qed.

Section TrainModelFacts.

Variable previous_minibatch_sample_count : nat -> nat -> nat -> nat.

Local Abbreviation epoch_loop := (train_epoch previous_minibatch_sample_count).
Local Abbreviation epochs_loop := (train_epochs previous_minibatch_sample_count).

Lemma train_epoch_done (fuel epoch epoch_size sample_count : nat) :
  (epoch_size <= sample_count)%nat ->
  epoch_loop fuel epoch epoch_size sample_count = Some [].
Proof.
  intros Hge. destruct fuel; cbn -[Nat.ltb];
    by rewrite (proj2 (Nat.ltb_ge _ _) Hge).
Qed.

Lemma train_epoch_step (fuel epoch epoch_size sample_count : nat) :
  (sample_count < epoch_size)%nat ->
  epoch_loop (S fuel) epoch epoch_size sample_count =
    let asked := Nat.min Config.mb_size (epoch_size - sample_count) in
    let sample_count' :=
      (sample_count
       + previous_minibatch_sample_count epoch sample_count asked)%nat in
    rest ← epoch_loop fuel epoch epoch_size sample_count';
    Some (TrainMinibatch epoch asked
          :: (if (sample_count' mod 100 =? 0)%nat
              then [Processed sample_count'] else [])
          ++ rest).
Proof.
  intros Hlt. cbn -[Nat.ltb Nat.modulo Nat.min].
  by rewrite (proj2 (Nat.ltb_lt _ _) Hlt).
Qed.

Section Serving.

(** The trainer reports at least one sample and no more than were asked
    for. *)
Hypothesis Hserve : forall epoch sample_count asked,
  (1 <= asked)%nat ->
  (1 <= previous_minibatch_sample_count epoch sample_count asked <= asked)%nat.

Lemma train_epoch_counts (epoch epoch_size fuel sample_count : nat) :
  (sample_count <= epoch_size)%nat ->
  (epoch_size - sample_count <= fuel)%nat ->
  exists tr,
    epoch_loop fuel epoch epoch_size sample_count = Some tr /\
    minibatches_asked tr = replicate (epoch_size - sample_count) 1%nat /\
    (forall n, Processed n ∈ tr <->
       (sample_count < n <= epoch_size)%nat /\ (n mod 100 = 0)%nat) /\
    (forall e, EpochSummary e ∉ tr).
Proof.
  revert sample_count. induction fuel as [|fuel IH]; intros c Hc Hfuel.
  - rewrite train_epoch_done by lia.
    exists []. replace (epoch_size - c)%nat with 0%nat by lia.
    split; [done|]. split; [done|]. split.
    + intros n. split; [by intros ?%elem_of_nil|lia].
    + intros e. apply not_elem_of_nil.
  - destruct (Nat.le_gt_cases epoch_size c) as [Hge|Hlt].
    { rewrite train_epoch_done by lia.
      exists []. replace (epoch_size - c)%nat with 0%nat by lia.
      split; [done|]. split; [done|]. split.
      + intros n. split; [by intros ?%elem_of_nil|lia].
      + intros e. apply not_elem_of_nil. }
    rewrite train_epoch_step by lia. cbv zeta.
    assert (Nat.min Config.mb_size (epoch_size - c) = 1%nat) as ->.
    { unfold Config.mb_size. lia. }
    assert (previous_minibatch_sample_count epoch c 1 = 1%nat) as ->.
    { pose proof (Hserve epoch c 1 ltac:(lia)). lia. }
    destruct (IH (c + 1)%nat ltac:(lia) ltac:(lia)) as (tr & -> & Hmb & Hpr & Hsum).
    cbn [mbind option_bind]. eexists. split; [done|].
    replace (epoch_size - c)%nat with (S (epoch_size - (c + 1))) by lia.
    split.
    + unfold minibatches_asked in *.
      destruct (_ =? _)%nat; cbn; by rewrite Hmb.
    + split.
      * intros n. rewrite elem_of_cons, elem_of_app, Hpr.
        destruct (Nat.eqb_spec ((c + 1) mod 100) 0) as [Hmod|Hmod].
        -- rewrite list_elem_of_singleton. split.
           ++ intros [?|[[= ->]|?]]; [done|split; [lia|done]|split; [lia|tauto]].
           ++ intros [Hn Hm]. destruct (decide (n = c + 1)%nat) as [->|Hne];
                [right; by left|]. right. right. split; [lia|done].
        -- rewrite elem_of_nil. split.
           ++ intros [?|[[]|?]]; [done|]. split; [lia|tauto].
           ++ intros [Hn Hm]. right. right. split; [|done].
              destruct (decide (n = c + 1)%nat) as [->|Hne]; [done|lia].
      * intros e. rewrite elem_of_cons, elem_of_app.
        intros [?|[Hin|Hin]]; [done| |by eapply Hsum].
        destruct (_ =? _)%nat; [|by apply elem_of_nil in Hin].
        by apply list_elem_of_singleton in Hin.
Qed.

Lemma train_epochs_counts (epoch_size fuel first count : nat) :
  (epoch_size <= fuel)%nat ->
  exists tr,
    epochs_loop fuel (seq first count) epoch_size = Some tr /\
    minibatches_asked tr = replicate (count * epoch_size) 1%nat /\
    (forall n, Processed n ∈ tr <->
       (0 < count)%nat /\ (0 < n <= epoch_size)%nat /\ (n mod 100 = 0)%nat) /\
    (forall e, EpochSummary e ∈ tr <-> (first <= e < first + count)%nat).
Proof.
  intros Hfuel. revert first. induction count as [|count IH]; intros first.
  - exists []. cbn. split; [done|]. split; [done|]. split.
    + intros n. split; [by intros ?%elem_of_nil|lia].
    + intros e. split; [by intros ?%elem_of_nil|lia].
  - cbn [seq train_epochs].
    destruct (train_epoch_counts first epoch_size fuel 0 ltac:(lia) ltac:(lia))
      as (tr & -> & Hmb & Hpr & Hsum).
    destruct (IH (S first)) as (tr' & -> & Hmb' & Hpr' & Hsum').
    cbn. eexists. split; [done|]. split.
    + rewrite minibatches_asked_app.
      change (minibatches_asked (EpochSummary first :: tr'))
        with (minibatches_asked tr').
      rewrite Hmb, Hmb', Nat.sub_0_r. cbn [Nat.mul].
      by rewrite <- replicate_add.
    + split.
      * intros n. rewrite elem_of_app, elem_of_cons, Hpr, Hpr'.
        split; [intros [?|[?|?]]; [|done|]; (split; [lia|tauto])|].
        intros (_ & Hn & Hm). left. by split.
      * intros e. rewrite elem_of_app, elem_of_cons, Hsum'.
        split.
        -- intros [Hin|[[= ->]|?]]; [by apply Hsum in Hin|lia|lia].
        -- intros He. destruct (decide (e = first)) as [->|Hne];
             [right; by left|]. right. right. lia.
Qed.

(** X5.  When both map files exist and the trainer reports between one and
    the asked number of samples for every minibatch, [train_model] runs
    through (a bound of [epoch_size] passes per epoch is enough): every
    minibatch asks for exactly one sample, there are epochs * epoch_size of
    them, every epoch from 0 to epochs - 1 gets its summary, and a count n is
    printed exactly when it is a multiple of 100 between 1 and
    [epoch_size]. *)
Theorem train_model_trains_every_sample_once
    (fuel : nat) (fs : gset string) (train_map_file train_roi_file : string)
    (epoch_size num_input_rois epochs_to_train : nat) :
  train_map_file ∈ fs -> train_roi_file ∈ fs ->
  (epoch_size <= fuel)%nat ->
  exists tr,
    train_model previous_minibatch_sample_count fuel fs
      train_map_file train_roi_file epoch_size num_input_rois epochs_to_train
    = Some (tr, Ok tt) /\
    minibatches_asked tr = replicate (epochs_to_train * epoch_size) 1%nat /\
    (forall n, Processed n ∈ tr <->
       (0 < epochs_to_train)%nat /\ (0 < n <= epoch_size)%nat /\
       (n mod 100 = 0)%nat) /\
    (forall e, EpochSummary e ∈ tr <-> (e < epochs_to_train)%nat).
Proof.
  intros Himg Hroi Hfuel. unfold train_model, Reader.create_mb_source.
  rewrite (bool_decide_eq_true_2 _ Himg), (bool_decide_eq_true_2 _ Hroi). cbn.
  destruct (train_epochs_counts epoch_size fuel 0 epochs_to_train Hfuel)
    as (tr & -> & Hmb & Hpr & Hsum).
  cbn. eexists. split; [done|]. split; [done|]. split.
  - intros n. rewrite elem_of_cons, Hpr. split; [by intros [?|?]|by right].
  - intros e. rewrite elem_of_cons, Hsum. split.
    + intros [?|?]; [done|lia].
    + intros He. right. lia.
Qed.

End Serving.

(** A pass that adds no sample is followed by the same pass again. *)
Lemma train_epoch_stalls (fuel epoch epoch_size : nat) :
  (forall asked, previous_minibatch_sample_count epoch 0 asked = 0%nat) ->
  (0 < epoch_size)%nat ->
  epoch_loop fuel epoch epoch_size 0 = None.
Proof.
  intros Hnone Hsize. induction fuel as [|fuel IH].
  - cbn -[Nat.ltb]. by rewrite (proj2 (Nat.ltb_lt _ _) Hsize).
  - rewrite train_epoch_step by done. cbv zeta.
    rewrite Hnone, Nat.add_0_r. by rewrite IH.
Qed.

(** X6.  The loop over the minibatches has no exit other than the sample
    count reaching [epoch_size]: with a reader whose first minibatch of the
    first epoch is empty every time, [train_model] does not come to an end,
    whatever bound on the number of passes is given. *)
Theorem train_model_spins_on_empty_minibatches
    (fuel : nat) (fs : gset string) (train_map_file train_roi_file : string)
    (epoch_size num_input_rois epochs_to_train : nat) :
  train_map_file ∈ fs -> train_roi_file ∈ fs ->
  (forall asked, previous_minibatch_sample_count 0 0 asked = 0%nat) ->
  (0 < epoch_size)%nat -> (0 < epochs_to_train)%nat ->
  train_model previous_minibatch_sample_count fuel fs
    train_map_file train_roi_file epoch_size num_input_rois epochs_to_train
  = None.
Proof.
  intros Himg Hroi Hnone Hsize Hepochs.
  unfold train_model, Reader.create_mb_source.
  rewrite (bool_decide_eq_true_2 _ Himg), (bool_decide_eq_true_2 _ Hroi). cbn.
  destruct epochs_to_train as [|n]; [lia|]. cbn.
  by rewrite (train_epoch_stalls fuel 0 epoch_size Hnone Hsize).
Qed.

(** X7.  A missing map file ends [train_model] with the RuntimeError of
    [create_mb_source] after the trainer was made and before any minibatch is
    asked for, whatever the reader and the number of epochs. *)
Theorem train_model_needs_both_files
    (fuel : nat) (fs : gset string) (train_map_file train_roi_file : string)
    (epoch_size num_input_rois epochs_to_train : nat) :
  train_map_file ∉ fs \/ train_roi_file ∉ fs ->
  train_model previous_minibatch_sample_count fuel fs
    train_map_file train_roi_file epoch_size num_input_rois epochs_to_train
  = Some ([CreateTrainer],
          Raise (RuntimeError
                   (Reader.missing_files_message train_map_file train_roi_file))).
Proof.
  intros Hmiss. unfold train_model, Reader.create_mb_source.
  assert (negb (bool_decide (train_map_file ∈ fs))
          || negb (bool_decide (train_roi_file ∈ fs)) = true) as ->; [|done].
  apply orb_true_iff.
  destruct Hmiss as [H|H]; [left|right];
    apply negb_true_iff; by apply bool_decide_eq_false.
Qed.

End TrainModelFacts.

Lemma train_model_trains_every_sample_once_witness :
  exists tr,
    train_model (fun _ _ asked => asked) 3 ex_files
      "test.imgMap.txt" "test.GTRois.txt" 3 50 2
    = Some (tr, Ok tt) /\
    minibatches_asked tr = replicate (2 * 3) 1%nat /\
    (forall n, Processed n ∈ tr <->
       (0 < 2)%nat /\ (0 < n <= 3)%nat /\ (n mod 100 = 0)%nat) /\
    (forall e, EpochSummary e ∈ tr <-> (e < 2)%nat).
Proof.
  apply (train_model_trains_every_sample_once (fun _ _ asked => asked)).
  - intros _ _ asked Hasked. lia.
  - unfold ex_files. set_solver.
  - unfold ex_files. set_solver.
  - lia.
Defined.

Lemma train_model_spins_on_empty_minibatches_witness :
  train_model (fun _ _ _ => 0%nat) 1000 ex_files
    "test.imgMap.txt" "test.GTRois.txt" 3 50 2
  = None.
Proof.
  apply (train_model_spins_on_empty_minibatches (fun _ _ _ => 0%nat)).
  - unfold ex_files. set_solver.
  - unfold ex_files. set_solver.
  - reflexivity.
  - lia.
  - lia.
Defined.

Lemma train_model_needs_both_files_witness :
  train_model (fun _ _ asked => asked) 3 ex_files
    "test.imgMap.txt" "train.GTRois.txt" 3 50 2
  = Some ([CreateTrainer],
          Raise (RuntimeError
                   (Reader.missing_files_message
                      "test.imgMap.txt" "train.GTRois.txt"))).
Proof.
  apply (train_model_needs_both_files (fun _ _ asked => asked)).
  right. unfold ex_files. intros H.
  apply elem_of_union in H as [H|H]; apply elem_of_singleton in H;
    discriminate.
Defined.

(** ** The ROIs handed to roipooling *)

Lemma zip_with_fmap_both {A B C D} (g : B -> C -> D) (f1 : A -> B) (f2 : A -> C)
    (xs : list A) :
  zip_with g (f1 <$> xs) (f2 <$> xs) = (fun x => g (f1 x) (f2 x)) <$> xs.
Proof. induction xs as [|x xs IH]; [done|]. cbn. by rewrite IH. Qed.

Section ScaledRois.

Variable F : Type.
Variables fminus ftimes : F -> F -> F.
Variable scale : F.

Local Abbreviation scaled := (RoiPooling.scaled_rois F fminus ftimes scale).

(** The whole array, row by row. *)
Lemma scaled_rois_rows (rois : list (list F)) :
  Forall (fun row => length row = 4%nat) rois ->
  scaled rois =
  Ok ((fun row : list F =>
         (fun x => ftimes x scale) <$>
           (Np.slice row 0 2
            ++ zip_with fminus (Np.slice row 2 4) (Np.slice row 0 2)))
      <$> rois).
Proof.
  intros Hrows. unfold RoiPooling.scaled_rois, RoiPooling.slice1.
  unfold RoiPooling.minus. rewrite decide_True.
  2:{ induction Hrows as [|row rows Hrow _ IH]; [done|]. cbn [fmap list_fmap].
      f_equal; [|exact IH].
      destruct row as [|a [|b [|c [|d [|? ?]]]]]; done. }
  cbn [mbind result_bind]. unfold RoiPooling.splice1.
  rewrite decide_True by (by rewrite length_zip_with, !length_fmap, Nat.min_id).
  cbn [mbind result_bind]. unfold RoiPooling.element_times.
  by rewrite !zip_with_fmap_both, <- list_fmap_compose.
Qed.


End ScaledRois.


(** ** The reshapes of create_rpn *)

Lemma half_of_eighteen (n : nat) : (18 * n / 2 = 9 * n)%nat.
Proof.
  replace (18 * n)%nat with (9 * n * 2)%nat by lia. by apply Nat.div_mul.
Qed.

(** X9.  On shapes: for every feature map, no slice, reshape or splice of
    the scores in [create_rpn] is refused, each reshape keeping the number
    of elements; the regrouped scores have the shape (2, 9 * H * W) and the
    probabilities handed to the proposal layer the shape (2, 9, H, W), with
    18 * H * W elements, H and W being the height and width of the score
    map, those of the feature map when it is not empty. *)
Theorem create_rpn_reshapes_fit (c h w : nat) :
  exists H W r,
    RpnReshape.create_rpn [c; h; w] = Ok r /\
    RpnReshape.rpn_cls_score_rshp r = [2; 9 * H * W]%nat /\
    RpnReshape.rpn_cls_prob_reshape r = [2; 9; H; W]%nat /\
    RpnReshape.size (RpnReshape.rpn_cls_prob_reshape r) = (18 * H * W)%nat /\
    ((0 < h)%nat -> (0 < w)%nat -> H = h /\ W = w).
Proof.
  set (H := Shapes.conv_dim (Shapes.conv_dim h 3 1 true) 1 1 false).
  set (W := Shapes.conv_dim (Shapes.conv_dim w 3 1 true) 1 1 false).
  exists H, W.
  unfold RpnReshape.create_rpn, Shapes.create_rpn.
  cbn -[Nat.mul Nat.div Shapes.conv_dim RpnReshape.reshape]. fold H W.
  assert (Hnp : ((18 * (H * (W * 1))) / 2 = 9 * H * W)%nat).
  { replace (18 * (H * (W * 1)))%nat with (18 * (H * W))%nat by lia.
    rewrite half_of_eighteen. lia. }
  rewrite Hnp. change (18 / 2)%nat with 9%nat.
  rewrite !decide_True by lia. cbn [mbind result_bind].
  unfold RpnReshape.reshape, RpnReshape.size.
  rewrite !decide_True by (cbn [foldr]; lia). cbn [mbind result_bind].
  unfold RpnReshape.splice0. rewrite decide_True by done.
  cbn [mbind result_bind].
  rewrite decide_True by (cbn [foldr]; lia). cbn [mbind result_bind].
  eexists. split; [done|]. cbn [RpnReshape.rpn_cls_score_rshp
                                  RpnReshape.rpn_cls_prob_reshape].
  split; [done|]. split; [done|]. split; [cbn [foldr]; lia|].
  intros Hh Hw. subst H W. rewrite !conv_dim_pad_stride1.
  by rewrite !conv_dim_1x1.
Qed.

(** ** The placeholders of clone_model *)

Section DictFacts.

Context {K V : Type} `{EqDecision K}.

Lemma dict_get_set_eq (k : K) (v : V) (d : list (K * V)) :
  dict_get k (dict_set k v d) = Some v.
Proof.
  unfold dict_get, dict_set. case_bool_decide as Hin.
  - induction d as [|[k' v'] d IH]; [by apply elem_of_nil in Hin|].
    cbn. destruct (decide (k' = k)) as [->|Hne]; cbn.
    + by rewrite bool_decide_eq_true_2.
    + rewrite bool_decide_eq_false_2 by done. apply IH.
      cbn in Hin. apply elem_of_cons in Hin as [?|?]; [congruence|done].
  - induction d as [|[k' v'] d IH]; cbn.
    + by rewrite bool_decide_eq_true_2.
    + cbn in Hin. rewrite bool_decide_eq_false_2.
      * apply IH. intros ?. apply Hin. by right.
      * intros ->. apply Hin. by left.
Qed.

Lemma dict_get_set_ne (k k' : K) (v : V) (d : list (K * V)) :
  k' <> k -> dict_get k' (dict_set k v d) = dict_get k' d.
Proof.
  intros Hne. unfold dict_get, dict_set. case_bool_decide as Hin.
  - clear Hin. induction d as [|[k0 v0] d IH]; [done|].
    cbn. destruct (decide (k0 = k)) as [->|Hne0]; cbn.
    + rewrite !bool_decide_eq_false_2 by congruence. apply IH.
    + destruct (bool_decide (k0 = k')); [done|apply IH].
  - clear Hin. induction d as [|[k0 v0] d IH]; cbn.
    + by rewrite bool_decide_eq_false_2 by congruence.
    + destruct (bool_decide (k0 = k')); [done|apply IH].
Qed.

Lemma dict_set_keys (k : K) (v : V) (d : list (K * V)) :
  (dict_set k v d).*1 = (if bool_decide (k ∈ d.*1) then d.*1 else d.*1 ++ [k]).
Proof.
  unfold dict_set. case_bool_decide.
  - rewrite <- list_fmap_compose. apply list_fmap_ext.
    intros i [k0 v0] _. cbn. by destruct (decide (k0 = k)).
  - by rewrite fmap_app.
Qed.

Lemma dict_set_NoDup (k : K) (v : V) (d : list (K * V)) :
  NoDup d.*1 -> NoDup (dict_set k v d).*1.
Proof.
  intros Hd. rewrite dict_set_keys. case_bool_decide as Hin; [done|].
  apply NoDup_app. split; [done|]. split; [|apply NoDup_singleton].
  intros x Hx Hx'. apply list_elem_of_singleton in Hx' as ->. done.
Qed.

Lemma dict_fold_NoDup (kvs d : list (K * V)) :
  NoDup d.*1 ->
  NoDup (foldl (fun d kv => dict_set kv.1 kv.2 d) d kvs).*1.
Proof.
  revert d. induction kvs as [|kv kvs IH]; intros d Hd; [done|].
  cbn. apply IH. by apply dict_set_NoDup.
Qed.

End DictFacts.

(** Filling a dict from [zip l (seq s ..)]: the last occurrence of a key
    decides, and keys that do not occur keep what the dict held. *)
Lemma dict_fold_zip_last {K} `{EqDecision K} (l : list K) :
  forall (d : list (K * nat)) (s : nat) (k : K) (j : nat),
    dict_get k (foldl (fun d kv => dict_set kv.1 kv.2 d) d
                  (zip l (seq s (length l)))) = Some j <->
    (exists i, j = (s + i)%nat /\ last_at l k i) \/
    ((k ∉ l) /\ dict_get k d = Some j).
Proof.
  induction l as [|x l IH]; intros d s k j.
  - cbn. split; [intros ?; right; split; [apply not_elem_of_nil|done]|].
    intros [(i & _ & Hi & _)|[_ ?]]; [by rewrite lookup_nil in Hi|done].
  - cbn [length seq zip zip_with foldl fst snd]. rewrite IH. split.
    + intros [(i & -> & Hi & Hlast)|[Hnot Hget]].
      * left. exists (S i). split; [lia|]. split; [done|].
        intros [|i'] Hlt; [lia|]. cbn. apply Hlast. lia.
      * destruct (decide (k = x)) as [->|Hne].
        -- rewrite dict_get_set_eq in Hget. injection Hget as <-.
           left. exists 0%nat. split; [lia|]. split; [done|].
           intros [|i'] Hlt; [lia|]. cbn. intros Hi'.
           apply Hnot. by eapply list_elem_of_lookup_2.
        -- rewrite dict_get_set_ne in Hget by done.
           right. split; [|done]. intros Hin.
           apply elem_of_cons in Hin as [?|?]; done.
    + intros [(i & -> & Hi & Hlast)|[Hnot Hget]].
      * destruct i as [|i].
        -- right. cbn in Hi. injection Hi as ->. split.
           ++ intros Hin. apply list_elem_of_lookup_1 in Hin as [i' Hi'].
              by apply (Hlast (S i') ltac:(lia)).
           ++ rewrite dict_get_set_eq. f_equal. lia.
        -- left. exists i. split; [lia|]. split; [done|].
           intros i' Hlt. apply (Hlast (S i')). lia.
      * right. split; [intros Hin; apply Hnot; by right|].
        rewrite dict_get_set_ne; [done|]. intros ->. apply Hnot. by left.
Qed.

Lemma last_at_exists {K} `{EqDecision K} (l : list K) (k : K) :
  k ∈ l -> exists j, last_at l k j.
Proof.
  induction l as [|x l IH]; intros Hin; [by apply elem_of_nil in Hin|].
  destruct (decide (k ∈ l)) as [Hl|Hl].
  - destruct (IH Hl) as (j & Hj & Hlast). exists (S j). split; [done|].
    intros [|i'] Hlt; [lia|]. cbn. apply Hlast. lia.
  - exists 0%nat. apply elem_of_cons in Hin as [->|?]; [|done].
    split; [done|]. intros [|i'] Hlt; [lia|]. cbn. intros Hi'.
    apply Hl. by eapply list_elem_of_lookup_2.
Qed.

Section CloneModelPlaceholders.

Variables (graph node : Type).
Context `{EqDecision node}.
Variable find_by_name : graph -> string -> option node.

(** X10.  The substitution [clone_model] builds has one entry for each
    distinct node among the 'from' nodes, None included: a node that is
    found under several names, or several names that are all missing, keep
    only the placeholder made for the last of them, and the earlier
    placeholders are not passed on. *)
Theorem clone_model_last_placeholder_wins
    (base_model : graph) (from_node_names : list string) :
  let from_nodes := find_by_name base_model <$> from_node_names in
  let input_placeholders :=
    dict_of_pairs (zip from_nodes (seq 0 (length from_nodes))) in
  NoDup input_placeholders.*1 /\
  (forall n j, dict_get n input_placeholders = Some j <-> last_at from_nodes n j) /\
  (forall n, dict_get n input_placeholders = None <-> n ∉ from_nodes).
Proof.
  cbv zeta. set (from_nodes := find_by_name base_model <$> from_node_names).
  unfold dict_of_pairs.
  assert (Hget : forall n j,
            dict_get n (foldl (fun d kv => dict_set kv.1 kv.2 d) []
                          (zip from_nodes (seq 0 (length from_nodes)))) = Some j
            <-> last_at from_nodes n j).
  { intros n j. rewrite dict_fold_zip_last. split.
    - intros [(i & -> & Hi)|[_ ?]]; done.
    - intros Hlast. left. by exists j. }
  split; [apply dict_fold_NoDup; constructor|]. split; [done|].
  intros n. split.
  - intros Hnone Hin.
    destruct (last_at_exists from_nodes n Hin) as [j Hj].
    apply Hget in Hj. congruence.
  - intros Hnot.
    destruct (dict_get n _) as [j|] eqn:Hj; [|done].
    apply Hget in Hj as [Hj _]. exfalso. apply Hnot.
    by eapply list_elem_of_lookup_2.
Qed.

End CloneModelPlaceholders.

(** ** Configurations the script accepts *)

(** X11.  Whenever the configuration block runs through, the names were
    known ones, the class list starts with the background class and names no
    class twice, [num_classes] is its length and at least 2, there is at
    least one test image and one training sample per epoch, the four map
    files lie under [base_path], and no node is named to start training the
    convolution layers from. *)
Theorem accepted_configuration_invariants
    (dataset base_model : string)
    (d : Config.dataset_cfg) (m : Config.model_cfg) :
  Config.module_setup dataset base_model = Ok (d, m) ->
  dataset ∈ known_datasets /\ base_model ∈ known_base_models /\
  Config.classes d !! 0%nat = Some "__background__"%string /\
  NoDup (Config.classes d) /\
  Config.num_classes d = length (Config.classes d) /\
  (2 <= Config.num_classes d)%nat /\
  (0 < Config.num_test_images d)%nat /\ (0 < Config.epoch_size d)%nat /\
  Forall (fun f => Config.base_path d `prefix_of` f)
    [Config.train_map_file d; Config.test_map_file d;
     Config.train_roi_file d; Config.test_roi_file d] /\
  Config.start_train_conv_node_name m = None.
Proof.
  unfold Config.module_setup, Config.dataset_setup, Config.model_setup.
  destruct (String.eqb_spec dataset "Grocery") as [->|_];
    [|destruct (String.eqb_spec dataset "Pascal") as [->|_]; [|done]];
    (destruct (String.eqb_spec base_model "AlexNet") as [->|_];
     [|destruct (String.eqb_spec base_model "VGG16") as [->|_]; [|done]]);
    cbn; intros [= <- <-]; cbn;
    (split; [unfold known_datasets; set_solver|]);
    (split; [unfold known_base_models; set_solver|]);
    (split; [done|]);
    (split; [by apply (bool_decide_unpack _); vm_compute|]);
    (split; [done|]); (split; [lia|]); (split; [lia|]); (split; [lia|]);
    (split; [|done]);
    repeat constructor; by eexists.
Qed.

Lemma accepted_configuration_invariants_witness :
  exists d m,
    Config.module_setup "Pascal" "VGG16" = Ok (d, m) /\
    Config.num_classes d = 21%nat /\
    Config.start_train_conv_node_name m = None.
Proof.
  eexists _, _. split; [reflexivity|].
  destruct (accepted_configuration_invariants "Pascal" "VGG16" _ _ eq_refl)
    as (_ & _ & _ & _ & Hn & _ & _ & _ & _ & Hstart).
  split; [exact Hn|exact Hstart].
Defined.

(** ** create_eval_model *)

Section CreateEvalModelFacts.

Variables (graph node : Type).
Context `{EqDecision node}.
Variable find_by_name : graph -> string -> option node.

(** X12.  [create_eval_model] ends in an AttributeError exactly when the
    model lacks the last convolution node or one of "rpn_rois", "cls_score"
    and "bbox_regr"; without the first two nothing has been cloned by then,
    without one of the last two the convolution and RPN layers have been.  A
    missing feature node or "rpn_target_rois" does not stop it: None becomes
    a key of the substitution that is handed to [clone]. *)
Theorem create_eval_model_needs_four_nodes
    (model : graph) (m : Config.model_cfg) :
  let find := find_by_name model in
  let run := create_eval_model graph node find_by_name model m in
  (run.2 = AttributeError <->
     exists name,
       name ∈ [Config.last_conv_node_name m; "rpn_rois"; "cls_score";
               "bbox_regr"]%string /\ find name = None) /\
  (find (Config.last_conv_node_name m) = None \/ find "rpn_rois" = None ->
     run.1 = []) /\
  (is_Some (find (Config.last_conv_node_name m)) ->
   is_Some (find "rpn_rois") ->
     exists conv rpn_roi,
       run.1 !! 0%nat =
         Some (CloneConvRpn node [conv; rpn_roi]
                 [find (Config.feature_node_name m)]) /\
       (run.2 = Got tt ->
          exists cls_score bbox_pred replaced,
            run.1 = [CloneConvRpn node [conv; rpn_roi]
                       [find (Config.feature_node_name m)];
                     CloneRoiFc node [cls_score; bbox_pred] replaced] /\
            find "rpn_target_rois" ∈ replaced)).
Proof.
  cbv zeta. unfold create_eval_model.
  destruct (find_by_name model (Config.last_conv_node_name m)) as [conv|] eqn:Hconv;
    cbn.
  2:{ split; [|split].
      - split; [intros _|done]. eexists. split; [|exact Hconv].
        apply elem_of_cons. by left.
      - done.
      - by intros [? ?]. }
  destruct (find_by_name model "rpn_rois") as [rpn_roi|] eqn:Hrpn; cbn.
  2:{ split; [|split].
      - split; [intros _|done]. exists "rpn_rois"%string. split; [|done].
        apply elem_of_cons. right. apply elem_of_cons. by left.
      - done.
      - by intros _ [? ?]. }
  destruct (find_by_name model "cls_score") as [cls_score|] eqn:Hcls; cbn.
  2:{ split; [|split].
      - split; [intros _|done]. exists "cls_score"%string. split; [|done].
        do 2 (apply elem_of_cons; right). apply elem_of_cons. by left.
      - by intros [?|?].
      - intros _ _. exists conv, rpn_roi. split; [done|]. done. }
  destruct (find_by_name model "bbox_regr") as [bbox_pred|] eqn:Hbbox; cbn.
  2:{ split; [|split].
      - split; [intros _|done]. exists "bbox_regr"%string. split; [|done].
        do 3 (apply elem_of_cons; right). apply elem_of_cons. by left.
      - by intros [?|?].
      - intros _ _. exists conv, rpn_roi. split; [done|]. done. }
  split; [|split].
  - split; [done|]. intros (name & Hin & Hnone).
    repeat (apply elem_of_cons in Hin as [->|Hin]; [congruence|]).
    by apply elem_of_nil in Hin.
  - by intros [?|?].
  - intros _ _. exists conv, rpn_roi. split; [done|]. intros _.
    eexists _, _, _. split; [done|].
    unfold dict_of_pairs. cbn [foldl fst snd].
    rewrite dict_set_keys. cbn. case_bool_decide; rewrite dict_set_keys; cbn;
      case_bool_decide; set_solver.
Qed.

End CreateEvalModelFacts.

(** ** eval_faster_rcnn_plot *)

Lemma split_nonempty (sep : Ascii.ascii) (s : string) : Str.split sep s <> [].
Proof.
  induction s as [|c s IH]; [done|]. cbn.
  destruct (Str.split sep s); [done|]. by destruct (Ascii.eqb c sep).
Qed.

Lemma split_free (sep : Ascii.ascii) (s : string) :
  Str.free_of sep s = true -> Str.split sep s = [s].
Proof.
  induction s as [|c s IH]; [done|]. cbn. intros [Hc Hs]%andb_true_iff.
  rewrite (IH Hs). apply negb_true_iff in Hc. by rewrite Hc.
Qed.

Lemma split_field (sep : Ascii.ascii) (f rest : string) :
  Str.free_of sep f = true ->
  Str.split sep (f +:+ String sep rest) = f :: Str.split sep rest.
Proof.
  induction f as [|c f IH]; cbn [Str.free_of].
  - intros _. change ("" +:+ String sep rest)%string with (String sep rest).
    cbn. rewrite Ascii.eqb_refl.
    pose proof (split_nonempty sep rest). by destruct (Str.split sep rest).
  - intros [Hc Hf]%andb_true_iff.
    change (String c f +:+ String sep rest)
      with (String c (f +:+ String sep rest)).
    cbn. rewrite (IH Hf). apply negb_true_iff in Hc. by rewrite Hc.
Qed.

(** X13.  The image name [eval_faster_rcnn_plot] takes from a line of the
    map file is the text between the first and the second tab, or from the
    first tab to the end of the line, line break included, when there is no
    second tab; a line without a tab has no name. *)
Theorem image_name_of_map_line (f0 f1 rest s : string) :
  Str.free_of Str.tab f0 = true ->
  Str.free_of Str.tab f1 = true ->
  Str.split Str.tab (f0 +:+ String Str.tab (f1 +:+ String Str.tab rest)) !! 1%nat
    = Some f1 /\
  Str.split Str.tab (f0 +:+ String Str.tab f1) !! 1%nat = Some f1 /\
  (Str.free_of Str.tab s = true <-> Str.split Str.tab s !! 1%nat = None).
Proof.
  intros H0 H1. split; [|split].
  - by rewrite !split_field.
  - by rewrite split_field, split_free.
  - split; [intros Hs; by rewrite split_free|].
    induction s as [|c s IH]; [done|]. cbn.
    pose proof (split_nonempty Str.tab s) as Hne.
    destruct (Str.split Str.tab s) as [|field fields]; [done|].
    destruct (Ascii.eqb c Str.tab); [done|]. cbn. intros Hnone.
    by rewrite IH.
Qed.

Lemma image_name_of_map_line_witness :
  Str.split Str.tab
    ("0" +:+ String Str.tab ("testImages/a.jpg" +:+ String Str.tab "0"))
    !! 1%nat = Some "testImages/a.jpg"%string.
Proof.
  apply (image_name_of_map_line "0" "testImages/a.jpg" "0" ""); reflexivity.
Defined.

(** [mapM] in the error monad, entry by entry. *)
Lemma mapM_result_lookup {A B} (f : A -> result B) (l : list A) (k : list B) :
  mapM f l = Ok k ->
  forall i y, k !! i = Some y -> exists x, l !! i = Some x /\ f x = Ok y.
Proof.
  revert k. induction l as [|x l IH]; intros k; cbn.
  - intros [= <-] i y Hi. by rewrite lookup_nil in Hi.
  - destruct (f x) as [y0|e] eqn:Hx; cbn; [|done].
    destruct (mapM f l) as [k0|e]; cbn; [|done].
    intros [= <-] [|i] y Hi; cbn in *.
    + injection Hi as <-. by exists x.
    + by apply (IH k0 eq_refl).
Qed.

Lemma mapM_result_raise {A B} (f : A -> result B) (l : list A) (e : exn) :
  (forall x e', f x = Raise e' -> e' = e) ->
  (exists x, x ∈ l /\ f x = Raise e) ->
  mapM f l = Raise e.
Proof.
  intros Honly (x & Hin & Hx). induction l as [|x0 l IH]; cbn.
  - by apply elem_of_nil in Hin.
  - destruct (f x0) as [y0|e0] eqn:Hx0; cbn.
    + apply elem_of_cons in Hin as [->|Hin]; [congruence|].
      by rewrite (IH Hin).
    + by rewrite (Honly _ _ Hx0).
Qed.

(** [regress_rois] when the labels are at hand. *)
Lemma regress_rois_labelled
    (bbox_transform_inv : Np.matrix -> Np.matrix -> result Np.matrix)
    (p r l : loc) (σ : heap) (rois : Np.matrix) (ls : list Z) :
  σ !! p = Some (Np.Float2 rois) ->
  σ !! l = Some (Np.Int1 ls) ->
  exists rois',
    drawn (regress_rois bbox_transform_inv p r l σ).1 p = rois' /\
    (forall v, (regress_rois bbox_transform_inv p r l σ).2 = Ok v -> v = p) /\
    length <$> rois' = length <$> rois /\
    forall j label, ls !! j = Some label -> label <= 0 -> rois' !! j = rois !! j.
Proof.
  intros Hp Hl. unfold regress_rois, read_int1. rewrite Hl.
  destruct (regress_loop_shape bbox_transform_inv p r l (seq 0 (length ls))
              σ rois ls Hp Hl) as (rois' & Hp' & Hlen & Hrows).
  exists rois'. destruct (regress_loop _ _ _ _ _ σ) as [σ' [[]|e]]; cbn in *.
  - unfold drawn. rewrite Hp'. split; [done|]. split; [congruence|].
    split; [done|]. intros j label Hj Hle. apply Hrows. right. by exists label.
  - unfold drawn. rewrite Hp'. split; [done|]. split; [done|].
    split; [done|]. intros j label Hj Hle. apply Hrows. right. by exists label.
Qed.

Section EvalPlotFacts.

Variable bbox_transform_inv : Np.matrix -> Np.matrix -> result Np.matrix.
Variable join_path : string -> string.
Variable imread : string -> option (Z * Z).
Variable frcn_eval : nat -> eval_output.
Variable num_test_images : nat.

Local Abbreviation one_image :=
  (plot_image bbox_transform_inv imread frcn_eval).
Local Abbreviation images_loop :=
  (plot_loop bbox_transform_inv imread frcn_eval).

Local Abbreviation pictures := (pictures_of frcn_eval).

Lemma plot_image_events (debug_output : bool) (i : nat) (imgPath : string) :
  (forall i' path, EvalImage i' path ∈ (one_image debug_output i imgPath).1 ->
     i' = i /\ path = imgPath) /\
  pictures debug_output (one_image debug_output i imgPath).1.
Proof.
  unfold plot_image, pictures_of.
  destruct (match imread imgPath with Some _ => _ | None => _ end) as [input|e].
  2:{ cbn. repeat split; intros; by apply elem_of_nil in H. }
  assert (Hcls : (cls ← read_float2 (output_heap (frcn_eval i)) cls_loc;
                  Np.argmax_axis1 cls)
                 = Np.argmax_axis1 (out_cls_pred (frcn_eval i))).
  { unfold read_float2, output_heap. by rewrite lookup_insert_eq. }
  rewrite Hcls. clear Hcls.
  destruct (Np.argmax_axis1 (out_cls_pred (frcn_eval i))) as [ls|e] eqn:Hls.
  2:{ cbn. split; [|split].
      - intros i' path Hin. apply list_elem_of_singleton in Hin. by injection Hin.
      - intros ? ? ? Hin. by apply list_elem_of_singleton in Hin.
      - intros ? ? ? Hin. by apply list_elem_of_singleton in Hin. }
  unfold alloc. set (σ := output_heap (frcn_eval i)).
  set (l := fresh (dom σ)).
  assert (σ !! l = None) as Hfresh by (apply not_elem_of_dom, is_fresh).
  assert (σ !! rois_loc = Some (Np.Float2 (out_rpn_rois (frcn_eval i)))) as Hp
    by apply output_heap_rois.
  assert (l <> rois_loc) as Hlp by congruence.
  set (σ1 := <[l := Np.Int1 ls]> σ).
  assert (σ1 !! rois_loc = Some (Np.Float2 (out_rpn_rois (frcn_eval i)))) as Hp1.
  { subst σ1. by rewrite lookup_insert_ne. }
  assert (drawn σ1 rois_loc = out_rpn_rois (frcn_eval i)) as Hdrawn.
  { unfold drawn. by rewrite Hp1. }
  destruct (regress_rois_labelled bbox_transform_inv rois_loc regr_loc l σ1
              (out_rpn_rois (frcn_eval i)) ls Hp1)
    as (rois' & Hdraw' & Hret & Hlen & Hrows).
  { subst σ1. by rewrite lookup_insert_eq. }
  rewrite Hdrawn.
  destruct (regress_rois _ _ _ _ σ1) as [σ2 [v|e]]; cbn in Hdraw', Hret |- *.
  - rewrite (Hret v eq_refl), Hdraw'. split; [|split].
    + intros i' path Hin. apply elem_of_cons in Hin as [Hin|Hin];
        [by injection Hin|].
      apply elem_of_app in Hin as [Hin|Hin].
      * destruct debug_output; [|by apply elem_of_nil in Hin].
        by apply list_elem_of_singleton in Hin.
      * by apply list_elem_of_singleton in Hin.
    + intros i' ls' rois Hin. apply elem_of_cons in Hin as [Hin|Hin]; [done|].
      apply elem_of_app in Hin as [Hin|Hin].
      * destruct debug_output; [|by apply elem_of_nil in Hin].
        apply list_elem_of_singleton in Hin. by injection Hin as -> -> ->.
      * by apply list_elem_of_singleton in Hin.
    + intros i' ls' rois Hin. apply elem_of_cons in Hin as [Hin|Hin]; [done|].
      apply elem_of_app in Hin as [Hin|Hin].
      * destruct debug_output; [|by apply elem_of_nil in Hin].
        by apply list_elem_of_singleton in Hin.
      * apply list_elem_of_singleton in Hin. injection Hin as -> -> ->. done.
  - split; [|split].
    + intros i' path Hin. apply elem_of_cons in Hin as [Hin|Hin];
        [by injection Hin|].
      destruct debug_output; [|by apply elem_of_nil in Hin].
      by apply list_elem_of_singleton in Hin.
    + intros i' ls' rois Hin. apply elem_of_cons in Hin as [Hin|Hin]; [done|].
      destruct debug_output; [|by apply elem_of_nil in Hin].
      apply list_elem_of_singleton in Hin. by injection Hin as -> -> ->.
    + intros i' ls' rois Hin. apply elem_of_cons in Hin as [Hin|Hin]; [done|].
      destruct debug_output; [|by apply elem_of_nil in Hin].
      by apply list_elem_of_singleton in Hin.
Qed.

Lemma plot_loop_events (debug_output : bool) (names : list string)
    (images : list nat) :
  (forall i path, EvalImage i path ∈ (images_loop debug_output names images).1 ->
     i ∈ images /\ names !! i = Some path) /\
  pictures debug_output (images_loop debug_output names images).1.
Proof.
  induction images as [|i0 images IH]; cbn.
  { repeat split; intros; by apply elem_of_nil in H. }
  destruct (names !! i0) as [path0|] eqn:Hname; cbn.
  2:{ repeat split; intros; by apply elem_of_nil in H. }
  destruct (plot_image_events debug_output i0 path0) as (Hev & Hdbg & Hreg).
  destruct (one_image debug_output i0 path0) as [tr [[]|e]]; cbn in *.
  - destruct IH as (IHev & IHdbg & IHreg).
    destruct (images_loop debug_output names images) as [tr' r]. cbn in *.
    split; [|split].
    + intros i path Hin. apply elem_of_app in Hin as [Hin|Hin].
      * destruct (Hev i path Hin) as [-> ->]. split; [by left|done].
      * destruct (IHev i path Hin). split; [by right|done].
    + intros i ls rois Hin. apply elem_of_app in Hin as [Hin|Hin]; eauto.
    + intros i ls rois Hin. apply elem_of_app in Hin as [Hin|Hin]; eauto.
  - split; [|by split].
    intros i path Hin. destruct (Hev i path Hin) as [-> ->]. split; [by left|done].
Qed.

(** A pass returns exactly for an image that [plots], and then it has
    evaluated the image and saved its pictures. *)
Lemma plot_image_returns (debug_output : bool) (i : nat) (imgPath : string) :
  (one_image debug_output i imgPath).2 = Ok tt <->
  plots bbox_transform_inv imread frcn_eval i imgPath.
Proof.
  unfold plot_image, plots, regress_with_argmax.
  destruct (imread imgPath) as [[iw ih]|].
  2:{ cbn [snd]. split; [done|]. by intros [(? & ? & ? & _) _]. }
  destruct (PlotInput.cntk_img_input iw ih) as [input|e] eqn:Hin.
  2:{ cbn [snd]. split; [done|]. intros [(iw' & ih' & Heq & Hok) _].
      injection Heq as <- <-. by rewrite Hin in Hok. }
  destruct (read_float2 (output_heap (frcn_eval i)) cls_loc ≫= Np.argmax_axis1)
    as [ls|e].
  2:{ cbn [snd is_ok]. split; [done|]. by intros [_ ?]. }
  destruct (alloc (output_heap (frcn_eval i)) (Np.Int1 ls)) as [σ1 labels].
  destruct (regress_rois bbox_transform_inv rois_loc regr_loc labels σ1)
    as [σ2 [v|e]]; cbn [snd is_ok].
  - split; [intros _|done]. split; [|done]. exists iw, ih. by rewrite Hin.
  - split; [done|]. by intros [_ ?].
Qed.

Lemma plot_image_done (debug_output : bool) (i : nat) (imgPath : string) :
  (one_image debug_output i imgPath).2 = Ok tt ->
  exists ls rois',
    (one_image debug_output i imgPath).1 =
    EvalImage i imgPath
    :: (if debug_output
        then [SaveDebug i ls (out_rpn_rois (frcn_eval i))] else [])
    ++ [SaveRegressed i ls rois'].
Proof.
  unfold plot_image.
  destruct (match imread imgPath with Some _ => _ | None => _ end) as [input|e];
    [|done].
  destruct (read_float2 (output_heap (frcn_eval i)) cls_loc ≫= Np.argmax_axis1)
    as [ls|e]; [|done].
  unfold alloc. set (σ := output_heap (frcn_eval i)).
  set (l := fresh (dom σ)).
  assert (σ !! l = None) as Hfresh by (apply not_elem_of_dom, is_fresh).
  assert (σ !! rois_loc = Some (Np.Float2 (out_rpn_rois (frcn_eval i)))) as Hp
    by apply output_heap_rois.
  assert (l <> rois_loc) as Hlp by congruence.
  assert (drawn (<[l := Np.Int1 ls]> σ) rois_loc = out_rpn_rois (frcn_eval i))
    as Hdrawn.
  { unfold drawn. by rewrite lookup_insert_ne, Hp. }
  rewrite Hdrawn.
  destruct (regress_rois _ _ _ _ _) as [σ2 [v|e]]; cbn; [|done].
  intros _. by eexists _, _.
Qed.

Lemma plot_loop_returns (debug_output : bool) (names : list string)
    (images : list nat) :
  (forall i, i ∈ images ->
     exists path, names !! i = Some path /\
       plots bbox_transform_inv imread frcn_eval i path) ->
  (images_loop debug_output names images).2 = Ok tt.
Proof.
  induction images as [|i images IH]; intros Himages; cbn; [done|].
  destruct (Himages i ltac:(by left)) as (path & -> & Hplots).
  apply (plot_image_returns debug_output) in Hplots.
  destruct (one_image debug_output i path) as [tr [[]|e]]; cbn in Hplots;
    [|done].
  specialize (IH ltac:(intros j Hj; apply Himages; by right)).
  destruct (images_loop debug_output names images) as [tr' res']. done.
Qed.

Lemma plot_loop_done (debug_output : bool) (names : list string)
    (images : list nat) :
  (images_loop debug_output names images).2 = Ok tt ->
  forall i, i ∈ images ->
    exists path ls rois',
      names !! i = Some path /\
      EvalImage i path ∈ (images_loop debug_output names images).1 /\
      SaveRegressed i ls rois' ∈ (images_loop debug_output names images).1 /\
      (debug_output = true ->
         SaveDebug i ls (out_rpn_rois (frcn_eval i))
           ∈ (images_loop debug_output names images).1).
Proof.
  induction images as [|i0 images IH]; cbn.
  { intros _ i Hi. by apply elem_of_nil in Hi. }
  destruct (names !! i0) as [path0|] eqn:Hname; [|done].
  pose proof (plot_image_done debug_output i0 path0) as Hdone.
  destruct (one_image debug_output i0 path0) as [tr [[]|e]]; [|done].
  destruct (Hdone eq_refl) as (ls & rois' & Htr). cbn in Htr.
  destruct (images_loop debug_output names images) as [tr' res']. cbn in *.
  intros Hres i Hi. apply elem_of_cons in Hi as [->|Hi].
  - exists path0, ls, rois'. split; [done|]. subst tr.
    split; [apply elem_of_app; left; by left|].
    split.
    + apply elem_of_app. left. right. apply elem_of_app. right. by left.
    + intros ->. apply elem_of_app. left. right. by left.
  - destruct (IH Hres i Hi) as (path & ls' & rois'' & Hpath & Hev & Hreg & Hdbg).
    exists path, ls', rois''. split; [done|].
    split; [apply elem_of_app; by right|].
    split; [apply elem_of_app; by right|].
    intros Hd. apply elem_of_app. right. by apply Hdbg.
Qed.

Lemma mapM_result_ok {A B} (f : A -> result B) (l : list A) :
  (forall x, x ∈ l -> exists y, f x = Ok y) ->
  exists k, mapM f l = Ok k /\
    forall i x y, l !! i = Some x -> f x = Ok y -> k !! i = Some y.
Proof.
  induction l as [|x0 l IH]; intros Hall; cbn.
  { exists []. split; [done|]. intros i x y Hi. by rewrite lookup_nil in Hi. }
  destruct (Hall x0 ltac:(by left)) as [y0 Hy0]. rewrite Hy0. cbn.
  destruct IH as (k & -> & Hk); [intros x Hx; apply Hall; by right|]. cbn.
  exists (y0 :: k). split; [done|].
  intros [|i] x y Hi Hy; cbn in *; [|by eapply Hk].
  injection Hi as <-. congruence.
Qed.

(** X14.  In a run of [eval_faster_rcnn_plot]: one line of the map file
    without a tab, wherever it stands, ends the run with an IndexError
    before any image is evaluated.  Otherwise only images below
    min(num_test_images, num_images_to_plot) are evaluated, image i from the
    path named on line i; a debug picture is only saved with [debug_output]
    and shows the proposals as the network returned them; the final picture
    has as many boxes, labelled with the argmax of the class scores, and
    every box whose label is 0 is the one of the debug picture.  The run
    returns when every line names an image and each of the first
    min(num_test_images, num_images_to_plot) lines one that goes through its
    pass (the network, the drawing and the saving of a picture are events
    here and do not fail); and a run that returns has evaluated every one of
    these images and saved its final picture, and with [debug_output] its
    debug picture. *)
Theorem plot_run_pictures
    (content : list string) (num_images_to_plot : nat) (debug_output : bool) :
  let run := eval_faster_rcnn_plot bbox_transform_inv join_path imread
               frcn_eval num_test_images content num_images_to_plot
               debug_output in
  let num_eval := Nat.min num_test_images num_images_to_plot in
  ((exists x, x ∈ content /\ Str.free_of Str.tab x = true) ->
     run = ([], Raise IndexError)) /\
  (forall i path, EvalImage i path ∈ run.1 ->
     (i < num_eval)%nat /\
     exists x name,
       content !! i = Some x /\ Str.split Str.tab x !! 1%nat = Some name /\
       path = join_path name) /\
  (forall i ls rois, SaveDebug i ls rois ∈ run.1 ->
     debug_output = true /\ rois = out_rpn_rois (frcn_eval i)) /\
  (forall i ls rois', SaveRegressed i ls rois' ∈ run.1 ->
     Np.argmax_axis1 (out_cls_pred (frcn_eval i)) = Ok ls /\
     length <$> rois' = length <$> out_rpn_rois (frcn_eval i) /\
     forall j label, ls !! j = Some label -> label <= 0 ->
       rois' !! j = out_rpn_rois (frcn_eval i) !! j) /\
  ((forall x, x ∈ content -> is_Some (Str.split Str.tab x !! 1%nat)) ->
   (forall i, (i < num_eval)%nat ->
      exists x name,
        content !! i = Some x /\ Str.split Str.tab x !! 1%nat = Some name /\
        plots bbox_transform_inv imread frcn_eval i (join_path name)) ->
   run.2 = Ok tt) /\
  (run.2 = Ok tt ->
   forall i, (i < num_eval)%nat ->
     exists path ls rois',
       EvalImage i path ∈ run.1 /\
       SaveRegressed i ls rois' ∈ run.1 /\
       (debug_output = true ->
          SaveDebug i ls (out_rpn_rois (frcn_eval i)) ∈ run.1)).
Proof.
  cbv zeta. unfold eval_faster_rcnn_plot, img_file_names. split.
  - intros (x & Hin & Hfree). rewrite (mapM_result_raise _ _ IndexError); [done| |].
    + intros x' e'. destruct (Str.split Str.tab x' !! 1%nat); [done|].
      by intros [= <-].
    + exists x. split; [done|]. by rewrite split_free.
  - destruct (mapM _ content) as [names|e] eqn:Hnames; cbn [fst snd].
    2:{ split; [intros ? ? H; by apply elem_of_nil in H|].
        split; [intros ? ? ? H; by apply elem_of_nil in H|].
        split; [intros ? ? ? H; by apply elem_of_nil in H|].
        split; [|done]. intros Hall _.
        destruct (mapM_result_ok
                    (fun x => match Str.split Str.tab x !! 1%nat with
                              | Some name => Ok (join_path name)
                              | None => Raise IndexError
                              end) content) as (k & Hk & _).
        { intros x Hx. destruct (Hall x Hx) as [name ->]. by eexists. }
        congruence. }
    destruct (plot_loop_events debug_output names
                (seq 0 (Nat.min num_test_images num_images_to_plot)))
      as (Hev & Hdbg & Hreg).
    split; [|split; [done|split; [done|split]]].
    + intros i path Hin. destruct (Hev i path Hin) as [Hi Hpath].
      apply elem_of_seq in Hi. split; [lia|].
      destruct (mapM_result_lookup _ _ _ Hnames i path Hpath) as (x & Hx & Hfx).
      exists x. destruct (Str.split Str.tab x !! 1%nat) as [name|]; [|done].
      exists name. by injection Hfx as <-.
    + intros Hall Hplots. apply plot_loop_returns. intros i Hi.
      apply elem_of_seq in Hi.
      destruct (Hplots i ltac:(lia)) as (x & name & Hx & Hname & Hp).
      exists (join_path name). split; [|done].
      destruct (mapM_result_ok
                  (fun x => match Str.split Str.tab x !! 1%nat with
                            | Some name => Ok (join_path name)
                            | None => Raise IndexError
                            end) content) as (k & Hk & Hlookup).
      { intros x' Hx'. destruct (Hall x' Hx') as [name' ->]. by eexists. }
      rewrite Hk in Hnames. injection Hnames as <-.
      apply (Hlookup i x); [done|]. by rewrite Hname.
    + intros Hres i Hi.
      destruct (plot_loop_done debug_output names
                  (seq 0 (Nat.min num_test_images num_images_to_plot)) Hres i)
        as (path & ls & rois' & _ & Hev' & Hreg' & Hdbg').
      { apply elem_of_seq. lia. }
      by exists path, ls, rois'.
Qed.

End EvalPlotFacts.

(** Two lines, one image to plot, with the debug output: the run returns
    and has saved both pictures of image 0. *)
Lemma plot_run_pictures_witness :
  let run := eval_faster_rcnn_plot ex_bbox_transform_inv
               (fun name => name) (fun _ => Some (640, 480))
               (fun _ => ex_output) 2
               ["0" +:+ String Str.tab ("a.jpg" +:+ String Str.tab "0");
                "1" +:+ String Str.tab "b.jpg"]%string 1 true in
  run.2 = Ok tt /\
  exists path ls rois',
    EvalImage 0 path ∈ run.1 /\
    SaveRegressed 0 ls rois' ∈ run.1 /\
    SaveDebug 0 ls (out_rpn_rois ex_output) ∈ run.1.
Proof.
  cbv zeta.
  destruct (plot_run_pictures ex_bbox_transform_inv
              (fun name => name) (fun _ => Some (640, 480))
              (fun _ => ex_output) 2
              ["0" +:+ String Str.tab ("a.jpg" +:+ String Str.tab "0");
               "1" +:+ String Str.tab "b.jpg"]%string 1 true)
    as (_ & _ & _ & _ & Hreturns & Hdone).
  assert (Hres : (eval_faster_rcnn_plot ex_bbox_transform_inv
                    (fun name => name) (fun _ => Some (640, 480))
                    (fun _ => ex_output) 2
                    ["0" +:+ String Str.tab ("a.jpg" +:+ String Str.tab "0");
                     "1" +:+ String Str.tab "b.jpg"]%string 1 true).2 = Ok tt).
  { apply Hreturns.
    - intros x Hx. apply elem_of_cons in Hx as [->|Hx]; [by eexists|].
      apply elem_of_cons in Hx as [->|Hx]; [by eexists|].
      by apply elem_of_nil in Hx.
    - intros [|i] Hi; [|cbn in Hi; lia].
      eexists _, _. split; [reflexivity|]. split; [reflexivity|].
      split; [|by vm_compute]. by exists 640, 480. }
  split; [exact Hres|].
  destruct (Hdone Hres 0%nat ltac:(cbn; lia)) as (path & ls & rois' & ? & ? & Hd).
  exists path, ls, rois'. split; [done|]. split; [done|]. by apply Hd.
Defined.

(** ** The main block *)

(** X15.  Whether or not a model file from an earlier run exists, the main
    block never loads it: it starts with end-to-end training, never runs the
    alternating scheme, stores the new evaluation model, and plots test
    images exactly when the debug output is on. *)
Theorem main_never_reuses_a_model (debug_output model_exists : bool) :
  (Config.LoadModel ∉ Config.main debug_output model_exists) /\
  (Config.TrainAlternating ∉ Config.main debug_output model_exists) /\
  Config.main debug_output model_exists !! 0%nat = Some Config.TrainE2E /\
  Config.SaveModel ∈ Config.main debug_output model_exists /\
  (Config.EvalPlot ∈ Config.main debug_output model_exists <->
     debug_output = true).
Proof.
  unfold Config.main, Config.make_mode, Config.train_e2e.
  rewrite andb_false_r.
  destruct debug_output; cbn; repeat split;
    rewrite ?elem_of_cons, ?elem_of_nil; naive_solver.
Qed.

(** ** regress_rois: a label without a proposal *)

Lemma row_window_beyond (a : Np.matrix) (i : nat) :
  (length a <= i)%nat -> Np.row_window a i = [].
Proof.
  intros Hlen. unfold Np.row_window.
  replace (Z.of_nat i + 1) with (Z.of_nat (S i)) by lia.
  rewrite slice_nonneg, drop_ge by done. apply take_nil.
Qed.

Section RegressRoisBounds.

Variable bbox_transform_inv : Np.matrix -> Np.matrix -> result Np.matrix.
Variables p r l : loc.

Local Abbreviation loop := (regress_loop bbox_transform_inv p r l).

Lemma regress_loop_app (a b : list nat) (σ : heap) :
  loop (a ++ b) σ =
  match loop a σ with
  | (σ', Ok _) => loop b σ'
  | (σ', Raise e) => (σ', Raise e)
  end.
Proof.
  revert σ. induction a as [|i a IH]; intros σ; [done|]. cbn.
  destruct (read_int1 σ l ≫= _) as [label|e]; [|done].
  destruct (regress_one _ _ _ _ _ σ) as [σ' [[]|e]]; [apply IH|done].
Qed.

Lemma regress_loop_background (ls : list Z) (idx : list nat) (σ : heap) :
  σ !! l = Some (Np.Int1 ls) ->
  (forall j, j ∈ idx -> exists label, ls !! j = Some label /\ label <= 0) ->
  loop idx σ = (σ, Ok tt).
Proof.
  intros Hl. induction idx as [|i idx IH]; intros Hidx; cbn; [done|].
  unfold read_int1. rewrite Hl. cbn.
  destruct (Hidx i ltac:(by left)) as (label & Hlabel & Hle).
  rewrite Hlabel. cbn. unfold regress_one.
  destruct (Z.ltb_spec 0 label); [lia|].
  apply IH. intros j Hj. apply Hidx. by right.
Qed.

(** X16.  When the first positive label stands at an index for which the
    proposals array has no row, [regress_rois] does not return: it ends in
    the exception of [bbox_transform_inv] on an empty box array or, if that
    returns, in an IndexError, and the store is as it was. *)
Theorem regress_rois_label_without_proposal
    (σ : heap) (ls : list Z) (rois regr : Np.matrix) (i : nat) (label : Z) :
  σ !! l = Some (Np.Int1 ls) ->
  σ !! p = Some (Np.Float2 rois) ->
  σ !! r = Some (Np.Float2 regr) ->
  ls !! i = Some label -> 0 < label ->
  (length rois <= i)%nat ->
  (forall j lab, (j < i)%nat -> ls !! j = Some lab -> lab <= 0) ->
  exists e,
    regress_rois bbox_transform_inv p r l σ = (σ, Raise e) /\
    (forall v,
       bbox_transform_inv []
         (Np.col_window (Np.row_window regr i) (label * 4) ((label + 1) * 4))
       = Ok v -> e = IndexError).
Proof.
  intros Hl Hp Hr Hlabel Hpos Hlen Hbefore.
  unfold regress_rois, read_int1. rewrite Hl.
  assert (i < length ls)%nat as Hi by (by eapply lookup_lt_Some).
  replace (length ls) with (i + S (length ls - S i))%nat by lia.
  rewrite seq_app, regress_loop_app.
  rewrite (regress_loop_background ls); [|done|].
  2:{ intros j Hj. apply elem_of_seq in Hj.
      destruct (lookup_lt_is_Some_2 ls j ltac:(lia)) as [lab Hlab].
      exists lab. split; [done|]. eapply Hbefore; [|done]. lia. }
  cbn [seq regress_loop Nat.add]. unfold read_int1. rewrite Hl. cbn.
  rewrite Hlabel. cbn. unfold regress_one.
  destruct (Z.ltb_spec 0 label); [|lia].
  unfold read_float2. rewrite Hr, Hp. cbn.
  rewrite (row_window_beyond rois i Hlen).
  destruct (bbox_transform_inv [] _) as [v|e]; cbn.
  - unfold Np.setitem_row. rewrite (lookup_ge_None_2 _ _ Hlen).
    exists IndexError. by split.
  - exists e. by split.
Qed.

End RegressRoisBounds.

Lemma regress_rois_label_without_proposal_witness :
  exists e,
    regress_rois ex_bbox_transform_inv 2%positive 3%positive 4%positive
      (<[4%positive := Np.Int1 [0; -1; 1]]> ex_store)
    = (<[4%positive := Np.Int1 [0; -1; 1]]> ex_store, Raise e) /\
    (forall v,
       ex_bbox_transform_inv []
         (Np.col_window (Np.row_window ex_regr 2) (1 * 4) ((1 + 1) * 4))
       = Ok v -> e = IndexError).
Proof.
  apply (regress_rois_label_without_proposal ex_bbox_transform_inv
           2%positive 3%positive 4%positive
           (<[4%positive := Np.Int1 [0; -1; 1]]> ex_store)
           [0; -1; 1] ex_rois ex_regr 2 1).
  - reflexivity.
  - reflexivity.
  - reflexivity.
  - reflexivity.
  - lia.
  - simpl. lia.
  - intros [|[|j]] lab Hj Hlab; [| |lia]; cbn in Hlab;
      injection Hlab as <-; lia.
Defined.

(** ** The reader and the ground truth *)

Lemma ground_truth_boxes_filter (n : nat) (gt_row : list Q) :
  length gt_row = (n * 5)%nat ->
  ground_truth_boxes n gt_row = Ok (List.filter has_object (Np.chunks n 5 gt_row)).
Proof.
  intros Hlen. unfold ground_truth_boxes, Np.reshape2.
  rewrite decide_True by done.
  destruct (chunks_shape 5 n gt_row Hlen) as (_ & Hf & _).
  cbn. rewrite (last_column_rows5 _ Hf). cbn.
  rewrite (filter_ext has_object
             (fun row => negb (Qle_bool (default 0%Q (row !! 4%nat)) 0))).
  - apply (take_rows_where_pos (fun row => default 0%Q (row !! 4%nat)) _ []).
  - intros row. unfold has_object. by destruct (row !! 4%nat).
Qed.

(** X17.  The reader and the evaluation agree on the size of a
    roiAndLabel row: a row of the length [create_mb_source] declares for
    [n_rois] boxes is always accepted by the reshape of
    [eval_faster_rcnn_mAP], and at most [n_rois] boxes, five numbers each
    with a positive label, come out; a row of another length is refused. *)
Theorem reader_rows_fit_the_ground_truth_table
    (fs : gset string) (img_map_file roi_map_file : string)
    (img_height img_width : Z) (img_channels n_rois : nat) (randomize : bool)
    (src : Reader.minibatch_source) (gt_row : list Q) :
  (Reader.create_mb_source fs img_map_file roi_map_file
     img_height img_width img_channels n_rois randomize).2 = Ok src ->
  (length gt_row = Reader.roi_shape src ->
     exists kept,
       ground_truth_boxes n_rois gt_row = Ok kept /\
       (length kept <= n_rois)%nat /\
       Forall (fun row => length row = 5%nat /\ has_object row = true) kept) /\
  (length gt_row <> Reader.roi_shape src ->
     ground_truth_boxes n_rois gt_row = Raise NpValueError).
Proof.
  unfold Reader.create_mb_source.
  destruct (_ || _); [done|]. cbn. intros [= <-]. cbn. split.
  - intros Hlen. rewrite ground_truth_boxes_filter by lia.
    destruct (chunks_shape 5 n_rois gt_row ltac:(lia)) as (Hl & Hf & _).
    eexists. split; [done|]. split.
    + rewrite <- Hl at 2. apply List.filter_length_le.
    + apply Forall_forall. intros row Hin.
      apply list_elem_of_In, filter_In in Hin as [Hin Hobj].
      split; [|done]. rewrite Forall_forall in Hf. apply Hf.
      by apply list_elem_of_In.
  - intros Hlen. unfold ground_truth_boxes, Np.reshape2.
    rewrite decide_False; [done|lia].
Qed.

Lemma reader_rows_fit_the_ground_truth_table_witness :
  (length [1; 2; 3; 4; 2; 0; 0; 0; 0; 0]%Q
   = Reader.roi_shape
       {| Reader.image_map := "test.imgMap.txt";
          Reader.image_transforms :=
            [{| Reader.sc_width := 1000; Reader.sc_height := 1000;
                Reader.sc_channels := 3; Reader.sc_mode := "pad";
                Reader.sc_pad_value := 114;
                Reader.sc_interpolations := "linear" |}];
          Reader.roi_map := "test.GTRois.txt";
          Reader.roi_shape := 10;
          Reader.randomize := false |} ->
     exists kept,
       ground_truth_boxes 2 [1; 2; 3; 4; 2; 0; 0; 0; 0; 0]%Q = Ok kept /\
       (length kept <= 2)%nat /\
       Forall (fun row => length row = 5%nat /\ has_object row = true) kept) /\
  (length [1; 2; 3; 4; 2; 0; 0; 0; 0; 0]%Q
   <> Reader.roi_shape
        {| Reader.image_map := "test.imgMap.txt";
          Reader.image_transforms :=
            [{| Reader.sc_width := 1000; Reader.sc_height := 1000;
                Reader.sc_channels := 3; Reader.sc_mode := "pad";
                Reader.sc_pad_value := 114;
                Reader.sc_interpolations := "linear" |}];
          Reader.roi_map := "test.GTRois.txt";
          Reader.roi_shape := 10;
          Reader.randomize := false |} ->
     ground_truth_boxes 2 [1; 2; 3; 4; 2; 0; 0; 0; 0; 0]%Q = Raise NpValueError).
Proof.
  apply (reader_rows_fit_the_ground_truth_table ex_files
           "test.imgMap.txt" "test.GTRois.txt" 1000 1000 3 2 false).
  reflexivity.
Defined.
